(** * Motorised blinds controller: button coordinator, position reader and
      motion state machine

    A shallow embedding of [main/position_sensor.cpp], [main/controller.cpp]
    and [main/button_handler.cpp].  The module-level statics of the three
    translation units are gathered in one [system] record; every C function
    becomes a computation in a small state monad over that record.  The
    analog converter, the tick counter, the persistent store and the button
    driver are environment components of the same record. *)

From Stdlib Require Import ZArith List Bool Lia String.
From Stdlib Require Import SpecFloat.
Import ListNotations.
Open Scope Z_scope.

(** ** Machine arithmetic *)

Definition UINT32_MAX : Z := 4294967295.

(** Wrap-around of [uint32_t] arithmetic. *)
Definition u32 (z : Z) : Z := z mod 4294967296.

(** Wrap-around of [uint8_t] arithmetic. *)
Definition u8 (z : Z) : Z := z mod 256.

(** IEEE-754 binary32, the C [float]: 24 bits of precision, exponent of the
    infinities 128, round to nearest even. *)
Definition float := spec_float.

Definition f32_of_u32 (n : Z) : float := binary_normalize 24 128 n 0 false.
Definition f32_mul : float -> float -> float := SFmul 24 128.
Definition f32_div : float -> float -> float := SFdiv 24 128.
Definition f32_ltb : float -> float -> bool := SFltb.

Definition f32_0 : float := S754_zero false.
Definition f32_50 : float := Eval vm_compute in f32_of_u32 50.
Definition f32_100 : float := Eval vm_compute in f32_of_u32 100.

(** [(uint32_t)f]: truncation toward zero.  The conversion is undefined in
    C++ when the truncated value does not fit the destination type; the
    model returns [None] there. *)
Definition u32_of_f32 (f : float) : option Z :=
  match f with
  | S754_zero _ => Some 0
  | S754_finite s m e =>
      let t := Z.shiftl (Zpos m) e in
      if s then (if t =? 0 then Some 0 else None)
      else if t <=? UINT32_MAX then Some t else None
  | S754_infinity _ | S754_nan => None
  end.

(** ** Enumerations *)

Inductive state_t := IDLE | MOVING_UP | MOVING_DOWN | CALIBRATING.

Inductive calibration_step_t :=
| CALIBRATION_STEP_UPPER
| CALIBRATION_STEP_LOWER
| CALIBRATION_STEP_ZEBRA_OFFSET
| CALIBRATION_STEP_COMPLETE.

Inductive motor_direction_t := MOTOR_DIR_UP | MOTOR_DIR_DOWN.

(** [button_event_t] of the button driver, extended by the custom value of
    [custom_button_event_t] that [button_handler.cpp] casts into it. *)
Inductive button_event_t :=
| BUTTON_PRESS_DOWN
| BUTTON_PRESS_UP
| BUTTON_PRESS_REPEAT
| BUTTON_PRESS_REPEAT_DONE
| BUTTON_SINGLE_CLICK
| BUTTON_DOUBLE_CLICK
| BUTTON_MULTIPLE_CLICK
| BUTTON_LONG_PRESS_START
| BUTTON_LONG_PRESS_HOLD
| BUTTON_LONG_PRESS_UP
| BUTTON_PRESS_END
| BUTTON_NONE_PRESS
| BUTTON_EVENT_SIMULTANEOUS_PRESS.

(** Aliases of [custom_button_event_t]. *)
Definition BUTTON_EVENT_SHORT_PRESS_UP := BUTTON_SINGLE_CLICK.
Definition BUTTON_EVENT_DOUBLE_PRESS_UP := BUTTON_DOUBLE_CLICK.
Definition BUTTON_EVENT_LONG_PRESS_UP := BUTTON_LONG_PRESS_START.
Definition BUTTON_EVENT_RELEASE := BUTTON_PRESS_UP.

Inductive button_id_t := BUTTON_ID_UP | BUTTON_ID_DOWN.

Definition state_eqb (a b : state_t) : bool :=
  match a, b with
  | IDLE, IDLE | MOVING_UP, MOVING_UP
  | MOVING_DOWN, MOVING_DOWN | CALIBRATING, CALIBRATING => true
  | _, _ => false
  end.

Definition is_press_down (e : button_event_t) : bool :=
  match e with BUTTON_PRESS_DOWN => true | _ => false end.

(** ** Build configuration ([sdkconfig.h], [FreeRTOSConfig.h] and the
    macros of [position_sensor.h]) *)

Record sdkconfig := {
  CONFIG_ZEBRA_BLINDS_SUPPORT : bool;
  CONFIG_MOTOR_DEFAULT_SPEED : Z;
  POSITION_SENSOR_STABILIZATION_MS : Z;
  configTICK_RATE_HZ : Z
}.

(** [pdMS_TO_TICKS]: a 64-bit product divided by 1000, cast to
    [TickType_t]. *)
Definition pdMS_TO_TICKS (cfg : sdkconfig) (ms : Z) : Z :=
  u32 ((ms * configTICK_RATE_HZ cfg) / 1000).

(** ** State of the three translation units *)

Record position_config_t := {
  min_position : Z;
  max_position : Z;
  current_position : Z;
  calibrated : bool
}.

(** Statics of [position_sensor.cpp], the two function-local statics of
    [position_sensor_read] included. *)
Record position_sensor_t := {
  position_config : position_config_t;
  sensor_initialized : bool;
  current_calibration_step : calibration_step_t;
  calibration_upper_position : Z;
  calibration_lower_position : Z;
  calibration_zebra_offset : Z;
  calibration_zebra_enabled : bool;
  filter_buffer : list Z;
  filter_index : Z
}.

(** [config_t] of [controller.h], as far as [controller.cpp] uses it. *)
Record config_t := {
  state : state_t;
  auto_calibrate : bool;
  position : position_config_t
}.

Definition calibration_step_callback_t := calibration_step_t -> string.

(** Statics of [controller.cpp]; [last_direction_up] is the function-local
    static of [controller_handle_zebra_offset], [g_boundary_check_task] is
    [true] when the handle is not [NULL], and [calibration_log] collects the
    step prompts the controller prints. *)
Record controller_t := {
  g_config : config_t;
  g_button_held : bool;
  g_calibration_callback : option calibration_step_callback_t;
  g_boundary_check_task : bool;
  last_direction_up : bool;
  calibration_log : list (calibration_step_t * string)
}.

Record button_event_msg_t := {
  event : button_event_t;
  button_id : button_id_t
}.

(** Statics of [button_handler.cpp] and the locals of
    [check_simultaneous_press_task] that live across its iterations.
    [g_user_callback] is [true] once a callback is registered; the only
    callback the program registers is [controller_button_callback]. *)
Record button_handler_t := {
  g_user_callback : bool;
  g_button_event_queue : list button_event_msg_t;
  both_pressed : bool;
  press_start_time : Z
}.

Inductive motor_command :=
| MotorSetDirection (d : motor_direction_t)
| MotorSetSpeed (speed : Z)
| MotorStep (steps : Z)
| MotorStop.

(** Modelled from the spec: the motor driver ([motor_control.h]) is not
    part of the sources.  It accepts direction, speed and step-count
    commands, answers a currently-moving query and accepts a stop command.
    The model records the commands in issue order and keeps the moving
    flag: a step command with a positive count sets it, stop clears it. *)
Record motor_t := {
  motor_moving : bool;
  motor_commands : list motor_command
}.

(** Namespace [position_sensor] of the persistent store. *)
Record nvs_namespace := {
  nvs_upper_position : option Z;
  nvs_lower_position : option Z;
  nvs_zebra_offset : option Z;
  nvs_zebra_enabled : option Z
}.

(** The environment: the converter delivers [adc_raw n] at the [n]-th
    conversion, [tick_count] is the kernel's tick counter, the button driver
    reports [button_event_at id t] as the latest event of button [id] at
    tick [t]. *)
Record env_t := {
  adc_raw : nat -> Z;
  adc_reads : nat;
  tick_count : Z;
  sensor_power : bool;
  nvs_ready : bool;
  nvs_position_sensor : option nvs_namespace;
  button_event_at : button_id_t -> Z -> button_event_t
}.

Record system := {
  kconfig : sdkconfig;
  env : env_t;
  motor : motor_t;
  sensor : position_sensor_t;
  controller : controller_t;
  buttons : button_handler_t
}.

(** ** Field updates *)

Definition set_env (f : env_t -> env_t) (s : system) : system :=
  {| kconfig := kconfig s; env := f (env s); motor := motor s;
     sensor := sensor s; controller := controller s; buttons := buttons s |}.

Definition set_motor (f : motor_t -> motor_t) (s : system) : system :=
  {| kconfig := kconfig s; env := env s; motor := f (motor s);
     sensor := sensor s; controller := controller s; buttons := buttons s |}.

Definition set_sensor (f : position_sensor_t -> position_sensor_t)
  (s : system) : system :=
  {| kconfig := kconfig s; env := env s; motor := motor s;
     sensor := f (sensor s); controller := controller s;
     buttons := buttons s |}.

Definition set_controller (f : controller_t -> controller_t)
  (s : system) : system :=
  {| kconfig := kconfig s; env := env s; motor := motor s;
     sensor := sensor s; controller := f (controller s);
     buttons := buttons s |}.

Definition set_buttons (f : button_handler_t -> button_handler_t)
  (s : system) : system :=
  {| kconfig := kconfig s; env := env s; motor := motor s;
     sensor := sensor s; controller := controller s;
     buttons := f (buttons s) |}.

Definition with_position_config (f : position_config_t -> position_config_t)
  (p : position_sensor_t) : position_sensor_t :=
  {| position_config := f (position_config p);
     sensor_initialized := sensor_initialized p;
     current_calibration_step := current_calibration_step p;
     calibration_upper_position := calibration_upper_position p;
     calibration_lower_position := calibration_lower_position p;
     calibration_zebra_offset := calibration_zebra_offset p;
     calibration_zebra_enabled := calibration_zebra_enabled p;
     filter_buffer := filter_buffer p;
     filter_index := filter_index p |}.

Definition with_sensor_initialized (b : bool) (p : position_sensor_t) :=
  {| position_config := position_config p;
     sensor_initialized := b;
     current_calibration_step := current_calibration_step p;
     calibration_upper_position := calibration_upper_position p;
     calibration_lower_position := calibration_lower_position p;
     calibration_zebra_offset := calibration_zebra_offset p;
     calibration_zebra_enabled := calibration_zebra_enabled p;
     filter_buffer := filter_buffer p;
     filter_index := filter_index p |}.

Definition with_calibration_step (c : calibration_step_t)
  (p : position_sensor_t) :=
  {| position_config := position_config p;
     sensor_initialized := sensor_initialized p;
     current_calibration_step := c;
     calibration_upper_position := calibration_upper_position p;
     calibration_lower_position := calibration_lower_position p;
     calibration_zebra_offset := calibration_zebra_offset p;
     calibration_zebra_enabled := calibration_zebra_enabled p;
     filter_buffer := filter_buffer p;
     filter_index := filter_index p |}.

Definition with_upper_position (z : Z) (p : position_sensor_t) :=
  {| position_config := position_config p;
     sensor_initialized := sensor_initialized p;
     current_calibration_step := current_calibration_step p;
     calibration_upper_position := z;
     calibration_lower_position := calibration_lower_position p;
     calibration_zebra_offset := calibration_zebra_offset p;
     calibration_zebra_enabled := calibration_zebra_enabled p;
     filter_buffer := filter_buffer p;
     filter_index := filter_index p |}.

Definition with_lower_position (z : Z) (p : position_sensor_t) :=
  {| position_config := position_config p;
     sensor_initialized := sensor_initialized p;
     current_calibration_step := current_calibration_step p;
     calibration_upper_position := calibration_upper_position p;
     calibration_lower_position := z;
     calibration_zebra_offset := calibration_zebra_offset p;
     calibration_zebra_enabled := calibration_zebra_enabled p;
     filter_buffer := filter_buffer p;
     filter_index := filter_index p |}.

Definition with_zebra_offset (z : Z) (p : position_sensor_t) :=
  {| position_config := position_config p;
     sensor_initialized := sensor_initialized p;
     current_calibration_step := current_calibration_step p;
     calibration_upper_position := calibration_upper_position p;
     calibration_lower_position := calibration_lower_position p;
     calibration_zebra_offset := z;
     calibration_zebra_enabled := calibration_zebra_enabled p;
     filter_buffer := filter_buffer p;
     filter_index := filter_index p |}.

Definition with_zebra_enabled (b : bool) (p : position_sensor_t) :=
  {| position_config := position_config p;
     sensor_initialized := sensor_initialized p;
     current_calibration_step := current_calibration_step p;
     calibration_upper_position := calibration_upper_position p;
     calibration_lower_position := calibration_lower_position p;
     calibration_zebra_offset := calibration_zebra_offset p;
     calibration_zebra_enabled := b;
     filter_buffer := filter_buffer p;
     filter_index := filter_index p |}.

Definition with_filter (buf : list Z) (idx : Z) (p : position_sensor_t) :=
  {| position_config := position_config p;
     sensor_initialized := sensor_initialized p;
     current_calibration_step := current_calibration_step p;
     calibration_upper_position := calibration_upper_position p;
     calibration_lower_position := calibration_lower_position p;
     calibration_zebra_offset := calibration_zebra_offset p;
     calibration_zebra_enabled := calibration_zebra_enabled p;
     filter_buffer := buf;
     filter_index := idx |}.

Definition with_current_position (z : Z) (c : position_config_t) :=
  {| min_position := min_position c; max_position := max_position c;
     current_position := z; calibrated := calibrated c |}.

Definition with_g_config (f : config_t -> config_t) (c : controller_t) :=
  {| g_config := f (g_config c);
     g_button_held := g_button_held c;
     g_calibration_callback := g_calibration_callback c;
     g_boundary_check_task := g_boundary_check_task c;
     last_direction_up := last_direction_up c;
     calibration_log := calibration_log c |}.

Definition with_state (st : state_t) (c : config_t) :=
  {| state := st; auto_calibrate := auto_calibrate c;
     position := position c |}.

Definition with_auto_calibrate (b : bool) (c : config_t) :=
  {| state := state c; auto_calibrate := b; position := position c |}.

Definition with_position (f : position_config_t -> position_config_t)
  (c : config_t) :=
  {| state := state c; auto_calibrate := auto_calibrate c;
     position := f (position c) |}.

Definition with_button_held (b : bool) (c : controller_t) :=
  {| g_config := g_config c;
     g_button_held := b;
     g_calibration_callback := g_calibration_callback c;
     g_boundary_check_task := g_boundary_check_task c;
     last_direction_up := last_direction_up c;
     calibration_log := calibration_log c |}.

Definition with_calibration_callback
  (cb : option calibration_step_callback_t) (c : controller_t) :=
  {| g_config := g_config c;
     g_button_held := g_button_held c;
     g_calibration_callback := cb;
     g_boundary_check_task := g_boundary_check_task c;
     last_direction_up := last_direction_up c;
     calibration_log := calibration_log c |}.

Definition with_boundary_check_task (b : bool) (c : controller_t) :=
  {| g_config := g_config c;
     g_button_held := g_button_held c;
     g_calibration_callback := g_calibration_callback c;
     g_boundary_check_task := b;
     last_direction_up := last_direction_up c;
     calibration_log := calibration_log c |}.

Definition with_last_direction_up (b : bool) (c : controller_t) :=
  {| g_config := g_config c;
     g_button_held := g_button_held c;
     g_calibration_callback := g_calibration_callback c;
     g_boundary_check_task := g_boundary_check_task c;
     last_direction_up := b;
     calibration_log := calibration_log c |}.

Definition with_calibration_log (l : list (calibration_step_t * string))
  (c : controller_t) :=
  {| g_config := g_config c;
     g_button_held := g_button_held c;
     g_calibration_callback := g_calibration_callback c;
     g_boundary_check_task := g_boundary_check_task c;
     last_direction_up := last_direction_up c;
     calibration_log := l |}.

Definition with_user_callback (c : bool) (b : button_handler_t) :=
  {| g_user_callback := c;
     g_button_event_queue := g_button_event_queue b;
     both_pressed := both_pressed b;
     press_start_time := press_start_time b |}.

Definition with_queue (q : list button_event_msg_t) (b : button_handler_t) :=
  {| g_user_callback := g_user_callback b;
     g_button_event_queue := q; both_pressed := both_pressed b;
     press_start_time := press_start_time b |}.

Definition with_both_pressed (p : bool) (b : button_handler_t) :=
  {| g_user_callback := g_user_callback b;
     g_button_event_queue := g_button_event_queue b; both_pressed := p;
     press_start_time := press_start_time b |}.

Definition with_press_start_time (t : Z) (b : button_handler_t) :=
  {| g_user_callback := g_user_callback b;
     g_button_event_queue := g_button_event_queue b;
     both_pressed := both_pressed b; press_start_time := t |}.

Definition with_tick_count (t : Z) (e : env_t) :=
  {| adc_raw := adc_raw e; adc_reads := adc_reads e; tick_count := t;
     sensor_power := sensor_power e; nvs_ready := nvs_ready e;
     nvs_position_sensor := nvs_position_sensor e;
     button_event_at := button_event_at e |}.

Definition with_adc_reads (n : nat) (e : env_t) :=
  {| adc_raw := adc_raw e; adc_reads := n; tick_count := tick_count e;
     sensor_power := sensor_power e; nvs_ready := nvs_ready e;
     nvs_position_sensor := nvs_position_sensor e;
     button_event_at := button_event_at e |}.

Definition with_sensor_power (b : bool) (e : env_t) :=
  {| adc_raw := adc_raw e; adc_reads := adc_reads e;
     tick_count := tick_count e;
     sensor_power := b; nvs_ready := nvs_ready e;
     nvs_position_sensor := nvs_position_sensor e;
     button_event_at := button_event_at e |}.

Definition with_nvs (n : option nvs_namespace) (e : env_t) :=
  {| adc_raw := adc_raw e; adc_reads := adc_reads e;
     tick_count := tick_count e;
     sensor_power := sensor_power e; nvs_ready := nvs_ready e;
     nvs_position_sensor := n;
     button_event_at := button_event_at e |}.

(** ** The monad of the embedding

    A computation takes the system state and returns a result with the new
    state, or [None] when the C++ code has undefined behaviour. *)

Definition M (A : Type) : Type := system -> option (A * system).

Definition ret {A} (a : A) : M A := fun s => Some (a, s).

Definition bind {A B} (m : M A) (f : A -> M B) : M B :=
  fun s => match m s with
           | Some (a, s') => f a s'
           | None => None
           end.

Definition gets {A} (f : system -> A) : M A := fun s => Some (f s, s).

Definition modify (f : system -> system) : M unit := fun s => Some (tt, f s).

Definition undefined {A} : M A := fun _ => None.

Declare Scope ctl_scope.
Delimit Scope ctl_scope with ctl.
Notation "x <- m ;; k" := (bind m (fun x => k))
  (at level 61, m at next level, right associativity) : ctl_scope.
Notation "m ;; k" := (bind m (fun _ => k))
  (at level 61, right associativity) : ctl_scope.
Open Scope ctl_scope.

(** State reached by a computation; the state is returned unchanged when the
    computation is undefined, [run] keeps the distinction. *)
Definition run {A} (m : M A) (s : system) : option (A * system) := m s.

Definition exec {A} (m : M A) (s : system) : system :=
  match m s with Some (_, s') => s' | None => s end.

Definition eval {A} (m : M A) (s : system) : option A :=
  match m s with Some (a, _) => Some a | None => None end.

(** ** Kernel and driver primitives *)

(** [vTaskDelay]: the calling task resumes [ticks] ticks later. *)
Definition vTaskDelay (ticks : Z) : M unit :=
  modify (set_env (fun e => with_tick_count (tick_count e + ticks) e)).

(** [xTaskGetTickCount]: the tick counter as a [TickType_t]. *)
Definition xTaskGetTickCount : M Z :=
  gets (fun s => u32 (tick_count (env s))).

Definition gpio_set_level_power (level : bool) : M unit :=
  modify (set_env (with_sensor_power level)).

(** [adc1_get_raw]: the next conversion result, a C [int]. *)
Definition adc1_get_raw : M Z :=
  raw <- gets (fun s => adc_raw (env s) (adc_reads (env s))) ;;
  modify (set_env (fun e => with_adc_reads (S (adc_reads e)) e)) ;;
  ret raw.

(** [iot_button_get_event] at the current tick. *)
Definition iot_button_get_event (id : button_id_t) : M button_event_t :=
  gets (fun s => button_event_at (env s) id (tick_count (env s))).

(** Capacity given to [xQueueCreate]. *)
Definition QUEUE_LENGTH : nat := 10.

(** [xQueueSend] with a zero timeout and [xQueueSendFromISR]: the message
    is appended when a slot is free and dropped otherwise. *)
Definition xQueueSend (msg : button_event_msg_t) : M bool :=
  q <- gets (fun s => g_button_event_queue (buttons s)) ;;
  if (List.length q <? QUEUE_LENGTH)%nat
  then modify (set_buttons (with_queue (q ++ [msg]))) ;; ret true
  else ret false.

Definition xQueueSendFromISR (msg : button_event_msg_t) : M bool :=
  xQueueSend msg.

(** *** Motor driver *)

(** Modelled from the spec: the effect of one command on the driver, see
    [motor_t]. *)
Definition motor_issue (c : motor_command) (m : motor_t) : motor_t :=
  {| motor_moving :=
       match c with
       | MotorStep n => 0 <? n
       | MotorStop => false
       | _ => motor_moving m
       end;
     motor_commands := motor_commands m ++ [c] |}.

Definition motor_control_init : M unit :=
  modify (set_motor (fun m =>
    {| motor_moving := false; motor_commands := motor_commands m |})).

Definition motor_set_direction (d : motor_direction_t) : M unit :=
  modify (set_motor (motor_issue (MotorSetDirection d))).

Definition motor_set_speed (speed : Z) : M unit :=
  modify (set_motor (motor_issue (MotorSetSpeed speed))).

Definition motor_step (steps : Z) : M unit :=
  modify (set_motor (motor_issue (MotorStep steps))).

Definition motor_stop : M unit :=
  modify (set_motor (motor_issue MotorStop)).

Definition motor_is_moving : M bool :=
  gets (fun s => motor_moving (motor s)).

(** ** position_sensor.cpp *)

Open Scope string_scope.

Definition get_calibration_step_description (step : calibration_step_t)
  : string :=
  match step with
  | CALIBRATION_STEP_UPPER =>
      "Установите жалюзи в верхнее положение и нажмите кнопку"
  | CALIBRATION_STEP_LOWER =>
      "Установите жалюзи в нижнее положение и нажмите кнопку"
  | CALIBRATION_STEP_ZEBRA_OFFSET =>
      "Установите положение смещения для штор зебра и нажмите кнопку"
  | CALIBRATION_STEP_COMPLETE =>
      "Калибровка завершена"
  end.

Close Scope string_scope.

Definition position_sensor_power_on : M unit :=
  gpio_set_level_power true ;;
  cfg <- gets kconfig ;;
  vTaskDelay (pdMS_TO_TICKS cfg (POSITION_SENSOR_STABILIZATION_MS cfg)).

Definition position_sensor_power_off : M unit :=
  gpio_set_level_power false.

Definition position_sensor_init : M unit :=
  gpio_set_level_power false ;;
  modify (set_sensor (with_position_config (fun _ =>
    {| min_position := 100; max_position := 3900;
       current_position := 0; calibrated := false |}))) ;;
  modify (set_sensor (with_sensor_initialized true)).

(** [filter_buffer[i] = v]; the index is always below 5. *)
Fixpoint array_set (l : list Z) (i : nat) (v : Z) : list Z :=
  match l, i with
  | [], _ => []
  | _ :: t, O => v :: t
  | h :: t, S i' => h :: array_set t i' v
  end.

(** The summation loop over the five slots, in [uint32_t]. *)
Definition filter_sum (buf : list Z) : Z :=
  fold_left (fun sum i => u32 (sum + nth i buf 0)) (seq 0 5) 0.

(** The range clamp at the end of [position_sensor_read]. *)
Definition clamp_position (c : position_config_t) (adc_value : Z) : Z :=
  if adc_value <? min_position c then min_position c
  else if adc_value >? max_position c then max_position c
  else adc_value.

Definition position_sensor_read : M Z :=
  initialized <- gets (fun s => sensor_initialized (sensor s)) ;;
  if negb initialized then ret 0
  else
    position_sensor_power_on ;;
    raw_value <- adc1_get_raw ;;
    position_sensor_power_off ;;
    if raw_value <? 0
    then gets (fun s => current_position (position_config (sensor s)))
    else
      let adc_value := u32 raw_value in
      modify (set_sensor (fun p =>
        with_filter
          (array_set (filter_buffer p) (Z.to_nat (filter_index p)) adc_value)
          (u8 ((filter_index p + 1) mod 5)) p)) ;;
      buf <- gets (fun s => filter_buffer (sensor s)) ;;
      let adc_value := filter_sum buf / 5 in
      c <- gets (fun s => position_config (sensor s)) ;;
      let adc_value := clamp_position c adc_value in
      modify (set_sensor
                (with_position_config (with_current_position adc_value))) ;;
      ret adc_value.

Definition position_sensor_set_calibration (min_pos max_pos : Z) : M unit :=
  if min_pos >=? max_pos then ret tt
  else
    modify (set_sensor (with_position_config (fun c =>
      {| min_position := min_pos; max_position := max_pos;
         current_position := current_position c; calibrated := true |}))).

Definition position_sensor_is_calibrated : M bool :=
  gets (fun s => calibrated (position_config (sensor s))).

Definition position_sensor_get_zebra_offset : M Z :=
  gets (fun s => calibration_zebra_offset (sensor s)).

Definition position_sensor_get_min_position : M Z :=
  gets (fun s => min_position (position_config (sensor s))).

Definition position_sensor_get_max_position : M Z :=
  gets (fun s => max_position (position_config (sensor s))).

Definition position_sensor_get_percentage : M float :=
  cal <- position_sensor_is_calibrated ;;
  if negb cal then ret f32_0
  else
    current <- position_sensor_read ;;
    c <- gets (fun s => position_config (sensor s)) ;;
    if current <=? min_position c then ret f32_0
    else if current >=? max_position c then ret f32_100
    else
      ret (f32_mul
             (f32_div (f32_of_u32 (u32 (current - min_position c)))
                      (f32_of_u32 (u32 (max_position c - min_position c))))
             f32_100).

(** The ten-sample average of [position_sensor_calibrate_start]. *)
Fixpoint read_accumulate (n : nat) (acc : Z) : M Z :=
  match n with
  | O => ret acc
  | S n' =>
      v <- position_sensor_read ;;
      cfg <- gets kconfig ;;
      vTaskDelay (pdMS_TO_TICKS cfg 100) ;;
      read_accumulate n' (u32 (acc + v))
  end.

Definition position_sensor_calibrate_start : M unit :=
  cfg <- gets kconfig ;;
  vTaskDelay (pdMS_TO_TICKS cfg 5000) ;;
  min_sum <- read_accumulate 10 0 ;;
  let min_val := min_sum / 10 in
  vTaskDelay (pdMS_TO_TICKS cfg 5000) ;;
  max_sum <- read_accumulate 10 0 ;;
  let max_val := max_sum / 10 in
  position_sensor_set_calibration min_val max_val.

(** [nvs_open] in read-only mode succeeds when the store is ready and the
    namespace exists. *)
Definition nvs_open_readonly : M (option nvs_namespace) :=
  gets (fun s => if nvs_ready (env s) then nvs_position_sensor (env s)
                 else None).

Definition position_sensor_start_calibration
  : M calibration_step_callback_t :=
  cfg <- gets kconfig ;;
  modify (set_sensor (with_zebra_enabled (CONFIG_ZEBRA_BLINDS_SUPPORT cfg))) ;;
  opened <- nvs_open_readonly ;;
  match opened with
  | Some ns =>
      modify (set_sensor (with_upper_position
        (match nvs_upper_position ns with Some v => v | None => 0 end))) ;;
      modify (set_sensor (with_lower_position
        (match nvs_lower_position ns with Some v => v | None => 4095 end))) ;;
      modify (set_sensor (with_zebra_offset
        (match nvs_zebra_offset ns with Some v => v | None => 100 end)))
  | None => ret tt
  end ;;
  modify (set_sensor (with_calibration_step CALIBRATION_STEP_UPPER)) ;;
  ret get_calibration_step_description.

Definition position_sensor_next_calibration_step : M calibration_step_t :=
  step <- gets (fun s => current_calibration_step (sensor s)) ;;
  match step with
  | CALIBRATION_STEP_COMPLETE => ret CALIBRATION_STEP_COMPLETE
  | _ =>
      match step with
      | CALIBRATION_STEP_UPPER =>
          modify (set_sensor (with_calibration_step CALIBRATION_STEP_LOWER))
      | CALIBRATION_STEP_LOWER =>
          zebra <- gets (fun s => calibration_zebra_enabled (sensor s)) ;;
          if zebra
          then modify (set_sensor
                         (with_calibration_step CALIBRATION_STEP_ZEBRA_OFFSET))
          else modify (set_sensor
                         (with_calibration_step CALIBRATION_STEP_COMPLETE))
      | CALIBRATION_STEP_ZEBRA_OFFSET =>
          modify (set_sensor (with_calibration_step CALIBRATION_STEP_COMPLETE))
      | CALIBRATION_STEP_COMPLETE =>
          modify (set_sensor (with_calibration_step CALIBRATION_STEP_COMPLETE))
      end ;;
      gets (fun s => current_calibration_step (sensor s))
  end.

(** The store is opened read-write, the four fields are written and
    committed; nothing is written when the store cannot be opened. *)
Definition position_sensor_save_calibration_data : M unit :=
  ready <- gets (fun s => nvs_ready (env s)) ;;
  if negb ready then ret tt
  else
    p <- gets sensor ;;
    modify (set_env (with_nvs (Some
      {| nvs_upper_position := Some (calibration_upper_position p);
         nvs_lower_position := Some (calibration_lower_position p);
         nvs_zebra_offset := Some (calibration_zebra_offset p);
         nvs_zebra_enabled :=
           Some (if calibration_zebra_enabled p then 1 else 0) |}))).

Definition position_sensor_save_calibration_step (position : Z) : M unit :=
  step <- gets (fun s => current_calibration_step (sensor s)) ;;
  match step with
  | CALIBRATION_STEP_UPPER =>
      modify (set_sensor (with_upper_position position))
  | CALIBRATION_STEP_LOWER =>
      modify (set_sensor (with_lower_position position)) ;;
      upper <- gets (fun s => calibration_upper_position (sensor s)) ;;
      lower <- gets (fun s => calibration_lower_position (sensor s)) ;;
      if upper <? lower
      then position_sensor_set_calibration upper lower
      else ret tt
  | CALIBRATION_STEP_ZEBRA_OFFSET =>
      modify (set_sensor (with_zebra_offset position))
  | CALIBRATION_STEP_COMPLETE =>
      position_sensor_save_calibration_data
  end.

(** ** controller.cpp *)

Definition get_state : M state_t :=
  gets (fun s => state (g_config (controller s))).

Definition set_state (st : state_t) : M unit :=
  modify (set_controller (with_g_config (with_state st))).

(** [ESP_LOGI(TAG, "Calibration step %d: %s", step, description)]. *)
Definition log_calibration_step (step : calibration_step_t)
  (description : string) : M unit :=
  modify (set_controller (fun c =>
    with_calibration_log (calibration_log c ++ [(step, description)]) c)).

Definition controller_stop : M unit :=
  moving <- motor_is_moving ;;
  (if moving then motor_stop else ret tt) ;;
  set_state IDLE ;;
  modify (set_controller (with_button_held false)).

Definition controller_check_boundaries_and_stop : M bool :=
  cal <- position_sensor_is_calibrated ;;
  if negb cal then ret false
  else
    current_pos <- position_sensor_read ;;
    min_pos <- position_sensor_get_min_position ;;
    max_pos <- position_sensor_get_max_position ;;
    if (current_pos <=? min_pos) || (current_pos >=? max_pos)
    then controller_stop ;; ret true
    else ret false.

Definition controller_move_to_position (position : Z) : M unit :=
  st <- get_state ;;
  if state_eqb st CALIBRATING then ret tt
  else
    current_pos <- position_sensor_read ;;
    if current_pos =? position then ret tt
    else
      let direction :=
        if position >? current_pos then MOTOR_DIR_DOWN else MOTOR_DIR_UP in
      motor_set_direction direction ;;
      let position_diff :=
        if position >? current_pos then u32 (position - current_pos)
        else u32 (current_pos - position) in
      cfg <- gets kconfig ;;
      let speed := CONFIG_MOTOR_DEFAULT_SPEED cfg in
      motor_set_speed speed ;;
      motor_step position_diff ;;
      match direction with
      | MOTOR_DIR_UP => set_state MOVING_UP
      | MOTOR_DIR_DOWN => set_state MOVING_DOWN
      end ;;
      modify (set_controller
        (with_g_config (with_position (with_current_position position)))) ;;
      _ <- controller_check_boundaries_and_stop ;;
      ret tt.

Definition controller_move_up : M unit :=
  st <- get_state ;;
  if state_eqb st CALIBRATING then ret tt
  else
    motor_set_direction MOTOR_DIR_UP ;;
    cfg <- gets kconfig ;;
    motor_set_speed (CONFIG_MOTOR_DEFAULT_SPEED cfg) ;;
    motor_step UINT32_MAX ;;
    set_state MOVING_UP.

Definition controller_move_down : M unit :=
  st <- get_state ;;
  if state_eqb st CALIBRATING then ret tt
  else
    motor_set_direction MOTOR_DIR_DOWN ;;
    cfg <- gets kconfig ;;
    motor_set_speed (CONFIG_MOTOR_DEFAULT_SPEED cfg) ;;
    motor_step UINT32_MAX ;;
    set_state MOVING_DOWN.

Definition controller_calibrate : M unit :=
  set_state CALIBRATING ;;
  controller_stop ;;
  cb <- position_sensor_start_calibration ;;
  modify (set_controller (with_calibration_callback (Some cb))) ;;
  callback <- gets (fun s => g_calibration_callback (controller s)) ;;
  match callback with
  | Some description =>
      current_step <- position_sensor_next_calibration_step ;;
      log_calibration_step current_step (description current_step)
  | None => ret tt
  end.

Definition controller_goto_top : M unit :=
  cal <- position_sensor_is_calibrated ;;
  if cal
  then min_pos <- position_sensor_get_min_position ;;
       controller_move_to_position min_pos
  else ret tt.

Definition controller_goto_bottom : M unit :=
  cal <- position_sensor_is_calibrated ;;
  if cal
  then max_pos <- position_sensor_get_max_position ;;
       controller_move_to_position max_pos
  else ret tt.

Definition controller_get_state : M state_t := get_state.

Definition controller_is_moving : M bool := motor_is_moving.

(** The two guards at the head of [controller_set_position_percentage]. *)
Definition clamp_percentage (percentage : float) : float :=
  let percentage :=
    if f32_ltb percentage f32_0 then f32_0 else percentage in
  if f32_ltb f32_100 percentage then f32_100 else percentage.

(** [min_pos + (uint32_t)(range * percentage / 100.0f)]. *)
Definition percentage_target (min_pos max_pos : Z) (percentage : float)
  : option Z :=
  let range := u32 (max_pos - min_pos) in
  match u32_of_f32 (f32_div (f32_mul (f32_of_u32 range) percentage) f32_100)
  with
  | Some offset => Some (u32 (min_pos + offset))
  | None => None
  end.

Definition controller_set_position_percentage (percentage : float)
  : M unit :=
  let percentage := clamp_percentage percentage in
  cal <- position_sensor_is_calibrated ;;
  if cal
  then
    current_pos <- position_sensor_read ;;
    current_percentage <- position_sensor_get_percentage ;;
    min_pos <- position_sensor_get_min_position ;;
    max_pos <- position_sensor_get_max_position ;;
    match percentage_target min_pos max_pos percentage with
    | Some target_position => controller_move_to_position target_position
    | None => undefined
    end
  else ret tt.

(** The target computed by [controller_handle_zebra_offset] from the
    position read, the offset and the alternation flag, with the new value
    of the flag. *)
Definition zebra_target (current_pos zebra_offset : Z)
  (last_up : bool) : Z * bool :=
  let min_pos := 0 in
  let max_pos := 4095 in
  let '(target_pos, last_up') :=
    if current_pos <=? u32 (min_pos + zebra_offset)
    then (u32 (current_pos + zebra_offset), last_up)
    else if current_pos >=? u32 (max_pos - zebra_offset)
    then (u32 (current_pos - zebra_offset), last_up)
    else if last_up
    then (u32 (current_pos - zebra_offset), negb last_up)
    else (u32 (current_pos + zebra_offset), negb last_up) in
  let target_pos :=
    if target_pos <? min_pos then min_pos
    else if target_pos >? max_pos then max_pos
    else target_pos in
  (target_pos, last_up').

Definition controller_handle_zebra_offset : M unit :=
  cal <- position_sensor_is_calibrated ;;
  if negb cal then ret tt
  else
    zebra_offset <- position_sensor_get_zebra_offset ;;
    if zebra_offset =? 0 then ret tt
    else
      current_pos <- position_sensor_read ;;
      last_up <- gets (fun s => last_direction_up (controller s)) ;;
      let '(target_pos, last_up') :=
        zebra_target current_pos zebra_offset last_up in
      modify (set_controller (with_last_direction_up last_up')) ;;
      controller_move_to_position target_pos.

(** One turn of the loop of [boundary_check_task]; the result tells
    whether the loop goes on. *)
Definition boundary_check_iteration : M bool :=
  held <- gets (fun s => g_button_held (controller s)) ;;
  moving <- motor_is_moving ;;
  if held && moving
  then
    stopped <- controller_check_boundaries_and_stop ;;
    if stopped then ret false
    else
      cfg <- gets kconfig ;;
      vTaskDelay (pdMS_TO_TICKS cfg 100) ;;
      ret true
  else ret false.

(** The loop, cut after [fuel] turns; the result is [true] when the loop
    was left within the fuel. *)
Fixpoint boundary_check_loop (fuel : nat) : M bool :=
  match fuel with
  | O => ret false
  | S fuel' =>
      continue <- boundary_check_iteration ;;
      if continue then boundary_check_loop fuel' else ret true
  end.

Definition boundary_check_task (fuel : nat) : M bool :=
  finished <- boundary_check_loop fuel ;;
  (if finished
   then modify (set_controller (with_boundary_check_task false))
   else ret tt) ;;
  ret finished.

Definition controller_button_callback (event : button_event_t)
  (button_id : button_id_t) : M unit :=
  match event with
  | BUTTON_EVENT_SIMULTANEOUS_PRESS =>
      st <- get_state ;;
      if state_eqb st CALIBRATING
      then
        set_state IDLE ;;
        modify (set_controller (with_calibration_callback None)) ;;
        controller_stop
      else controller_calibrate
  | BUTTON_SINGLE_CLICK =>
      st <- get_state ;;
      cb <- gets (fun s => g_calibration_callback (controller s)) ;;
      match (if state_eqb st CALIBRATING then cb else None) with
      | Some callback =>
          current_position <- position_sensor_read ;;
          position_sensor_save_calibration_step current_position ;;
          next_step <- position_sensor_next_calibration_step ;;
          match next_step with
          | CALIBRATION_STEP_COMPLETE =>
              set_state IDLE ;;
              modify (set_controller (with_calibration_callback None)) ;;
              controller_stop
          | _ => log_calibration_step next_step (callback next_step)
          end
      | None =>
          match button_id with
          | BUTTON_ID_UP => controller_goto_top
          | BUTTON_ID_DOWN => controller_goto_bottom
          end
      end
  | BUTTON_DOUBLE_CLICK =>
      st <- get_state ;;
      if negb (state_eqb st CALIBRATING)
      then
        cfg <- gets kconfig ;;
        if CONFIG_ZEBRA_BLINDS_SUPPORT cfg
        then
          cal <- position_sensor_is_calibrated ;;
          if cal
          then
            zebra_offset <- position_sensor_get_zebra_offset ;;
            if zebra_offset >? 0 then controller_handle_zebra_offset
            else ret tt
          else ret tt
        else controller_set_position_percentage f32_50
      else ret tt
  | BUTTON_LONG_PRESS_START =>
      st <- get_state ;;
      if negb (state_eqb st CALIBRATING)
      then
        modify (set_controller (with_button_held true)) ;;
        match button_id with
        | BUTTON_ID_UP => controller_move_up
        | BUTTON_ID_DOWN => controller_move_down
        end ;;
        task <- gets (fun s => g_boundary_check_task (controller s)) ;;
        if negb task
        then modify (set_controller (with_boundary_check_task true))
        else ret tt
      else ret tt
  | BUTTON_PRESS_UP =>
      held <- gets (fun s => g_button_held (controller s)) ;;
      if held then controller_stop else ret tt
  | _ => ret tt
  end.

(** ** button_handler.cpp *)

Definition button_up_single_press_cb : M bool :=
  xQueueSendFromISR
    {| event := BUTTON_SINGLE_CLICK; button_id := BUTTON_ID_UP |}.

Definition button_up_double_press_cb : M bool :=
  xQueueSendFromISR
    {| event := BUTTON_DOUBLE_CLICK; button_id := BUTTON_ID_UP |}.

Definition button_up_long_press_cb : M bool :=
  xQueueSendFromISR
    {| event := BUTTON_LONG_PRESS_START; button_id := BUTTON_ID_UP |}.

Definition button_down_single_press_cb : M bool :=
  xQueueSendFromISR
    {| event := BUTTON_SINGLE_CLICK; button_id := BUTTON_ID_DOWN |}.

Definition button_down_double_press_cb : M bool :=
  xQueueSendFromISR
    {| event := BUTTON_DOUBLE_CLICK; button_id := BUTTON_ID_DOWN |}.

Definition button_down_long_press_cb : M bool :=
  xQueueSendFromISR
    {| event := BUTTON_LONG_PRESS_START; button_id := BUTTON_ID_DOWN |}.

(** The callbacks [button_handler_init] registers with the driver: what the
    driver runs when [ev] occurs on button [id]. *)
Definition registered_cb (id : button_id_t) (ev : button_event_t)
  : option (M bool) :=
  match id, ev with
  | BUTTON_ID_UP, BUTTON_SINGLE_CLICK => Some button_up_single_press_cb
  | BUTTON_ID_UP, BUTTON_DOUBLE_CLICK => Some button_up_double_press_cb
  | BUTTON_ID_UP, BUTTON_LONG_PRESS_START => Some button_up_long_press_cb
  | BUTTON_ID_DOWN, BUTTON_SINGLE_CLICK => Some button_down_single_press_cb
  | BUTTON_ID_DOWN, BUTTON_DOUBLE_CLICK => Some button_down_double_press_cb
  | BUTTON_ID_DOWN, BUTTON_LONG_PRESS_START => Some button_down_long_press_cb
  | _, _ => None
  end.

(** The message of the simultaneous press: only [event] is initialised, so
    [button_id] is zero, which is [BUTTON_ID_UP]. *)
Definition simultaneous_press_msg : button_event_msg_t :=
  {| event := BUTTON_EVENT_SIMULTANEOUS_PRESS; button_id := BUTTON_ID_UP |}.

(** One turn of the loop of [check_simultaneous_press_task]. *)
Definition check_simultaneous_press_iteration : M unit :=
  cfg <- gets kconfig ;;
  let simultaneous_threshold := pdMS_TO_TICKS cfg 100 in
  up_event <- iot_button_get_event BUTTON_ID_UP ;;
  down_event <- iot_button_get_event BUTTON_ID_DOWN ;;
  let up_pressed := is_press_down up_event in
  let down_pressed := is_press_down down_event in
  both <- gets (fun s => both_pressed (buttons s)) ;;
  (if up_pressed && down_pressed && negb both
   then
     modify (set_buttons (with_both_pressed true)) ;;
     now <- xTaskGetTickCount ;;
     modify (set_buttons (with_press_start_time now))
   else if negb up_pressed || negb down_pressed
   then
     (if both
      then
        now <- xTaskGetTickCount ;;
        start <- gets (fun s => press_start_time (buttons s)) ;;
        let press_duration := u32 (now - start) in
        if press_duration <? simultaneous_threshold
        then _ <- xQueueSend simultaneous_press_msg ;; ret tt
        else ret tt
      else ret tt) ;;
     modify (set_buttons (with_both_pressed false))
   else ret tt) ;;
  vTaskDelay (pdMS_TO_TICKS cfg 10).

(** [n] turns of the polling loop. *)
Fixpoint check_simultaneous_press_task (n : nat) : M unit :=
  match n with
  | O => ret tt
  | S n' =>
      check_simultaneous_press_iteration ;;
      check_simultaneous_press_task n'
  end.

(** The queue and both buttons are created and the callbacks of
    [registered_cb] are registered. *)
Definition button_handler_init : M unit :=
  modify (set_buttons (with_queue [])).

Definition button_handler_set_callback : M unit :=
  modify (set_buttons (with_user_callback true)).

(** One turn of the loop of [button_handler_task]: the oldest message is
    taken from the queue and handed to the registered callback; on an empty
    queue the task stays blocked. *)
Definition button_handler_task_iteration : M unit :=
  q <- gets (fun s => g_button_event_queue (buttons s)) ;;
  match q with
  | [] => ret tt
  | msg :: rest =>
      modify (set_buttons (with_queue rest)) ;;
      registered <- gets (fun s => g_user_callback (buttons s)) ;;
      if registered
      then controller_button_callback (event msg) (button_id msg)
      else ret tt
  end.

Definition controller_init : M unit :=
  motor_control_init ;;
  position_sensor_init ;;
  button_handler_init ;;
  button_handler_set_callback ;;
  set_state IDLE ;;
  cal <- position_sensor_is_calibrated ;;
  modify (set_controller (with_g_config (with_auto_calibrate (negb cal)))).

(** ** Power-on state and runs *)

(** The statics as the C++ initialisers leave them. *)
Definition power_on (cfg : sdkconfig) (e : env_t) : system :=
  {| kconfig := cfg;
     env := e;
     motor := {| motor_moving := false; motor_commands := [] |};
     sensor :=
       {| position_config :=
            {| min_position := 0; max_position := 0;
               current_position := 0; calibrated := false |};
          sensor_initialized := false;
          current_calibration_step := CALIBRATION_STEP_COMPLETE;
          calibration_upper_position := 0;
          calibration_lower_position := 0;
          calibration_zebra_offset := 100;
          calibration_zebra_enabled := false;
          filter_buffer := [0; 0; 0; 0; 0];
          filter_index := 0 |};
     controller :=
       {| g_config :=
            {| state := IDLE; auto_calibrate := false;
               position :=
                 {| min_position := 0; max_position := 0;
                    current_position := 0; calibrated := false |} |};
          g_button_held := false;
          g_calibration_callback := None;
          g_boundary_check_task := false;
          last_direction_up := false;
          calibration_log := [] |};
     buttons :=
       {| g_user_callback := false;
          g_button_event_queue := [];
          both_pressed := false;
          press_start_time := 0 |} |}.

(** The state after [controller_init]. *)
Definition boot (cfg : sdkconfig) (e : env_t) : system :=
  exec controller_init (power_on cfg e).

(** Delivery of a list of events to the controller, in order, as
    [button_handler_task] does. *)
Fixpoint deliver (evs : list button_event_msg_t) : M unit :=
  match evs with
  | [] => ret tt
  | msg :: rest =>
      controller_button_callback (event msg) (button_id msg) ;;
      deliver rest
  end.

(** [n] calls of [position_sensor_read], with the values returned. *)
Fixpoint read_many (n : nat) : M (list Z) :=
  match n with
  | O => ret []
  | S n' =>
      v <- position_sensor_read ;;
      vs <- read_many n' ;;
      ret (v :: vs)
  end.

(** [n] calls of [position_sensor_next_calibration_step], with the values
    returned. *)
Fixpoint next_steps (n : nat) : M (list calibration_step_t) :=
  match n with
  | O => ret []
  | S n' =>
      v <- position_sensor_next_calibration_step ;;
      vs <- next_steps n' ;;
      ret (v :: vs)
  end.

(** ** Scenarios *)

(** A build without zebra support and one with it, at the kernel's default
    tick rate of 100 Hz. *)
Definition cfg_plain : sdkconfig :=
  {| CONFIG_ZEBRA_BLINDS_SUPPORT := false;
     CONFIG_MOTOR_DEFAULT_SPEED := 1000;
     POSITION_SENSOR_STABILIZATION_MS := 10;
     configTICK_RATE_HZ := 100 |}.

Definition cfg_zebra : sdkconfig :=
  {| CONFIG_ZEBRA_BLINDS_SUPPORT := true;
     CONFIG_MOTOR_DEFAULT_SPEED := 1000;
     POSITION_SENSOR_STABILIZATION_MS := 10;
     configTICK_RATE_HZ := 100 |}.

(** An environment with the given converter readings and button reports,
    the store ready and empty. *)
Definition env_of (adc : nat -> Z)
  (btn : button_id_t -> Z -> button_event_t) : env_t :=
  {| adc_raw := adc; adc_reads := 0; tick_count := 0;
     sensor_power := false; nvs_ready := true;
     nvs_position_sensor := None; button_event_at := btn |}.

Definition no_press (_ : button_id_t) (_ : Z) : button_event_t :=
  BUTTON_NONE_PRESS.

Definition single_click (id : button_id_t) : button_event_msg_t :=
  {| event := BUTTON_SINGLE_CLICK; button_id := id |}.

(** Both buttons report [BUTTON_PRESS_DOWN] from tick [t0] for [h] ticks and
    [BUTTON_PRESS_UP] afterwards. *)
Definition held_together (t0 h : Z) (_ : button_id_t) (t : Z)
  : button_event_t :=
  if (t0 <=? t) && (t <? t0 + h) then BUTTON_PRESS_DOWN
  else if t <? t0 then BUTTON_NONE_PRESS else BUTTON_PRESS_UP.

Definition in_bounds (c : position_config_t) (v : Z) : Prop :=
  min_position c <= v <= max_position c.

(** The invariant of the calibration record: the bounds are ordered whenever
    the calibrated flag is set. *)
Definition calibration_consistent (c : position_config_t) : Prop :=
  calibrated c = true -> min_position c < max_position c.

(** The clamp in the spec's words, [min(max(p, 0), 100)], with the
    comparisons of [std::max] and [std::min]. *)
Definition f32_max (a b : float) : float := if f32_ltb a b then b else a.
Definition f32_min (a b : float) : float := if f32_ltb b a then b else a.
Definition min_max_percentage (p : float) : float :=
  f32_min (f32_max p f32_0) f32_100.

(** A calibrated blind at reading 3850, just below the lower bound 3900:
    boot, calibration to [100, 3900], and four readings of 3850 that fill
    the smoothing buffer (the fifth is taken by the motion itself). *)
Definition near_bottom : system :=
  exec (read_many 4)
    (exec (position_sensor_set_calibration 100 3900)
       (boot cfg_zebra (env_of (fun _ => 3850) no_press))).

(** A target motion started from the boot state through the public entry
    point, the converter delivering 500. *)
Definition target_motion : system :=
  exec (controller_move_to_position 2000)
    (boot cfg_plain (env_of (fun _ => 500) no_press)).

(** A long press on the up button from the boot state. *)
Definition long_press_up : system :=
  exec (controller_button_callback BUTTON_LONG_PRESS_START BUTTON_ID_UP)
    (boot cfg_plain (env_of (fun _ => 2000) no_press)).


(** The queue after a send attempt with zero timeout. *)
Definition enqueue (q : list button_event_msg_t) (msg : button_event_msg_t)
  : list button_event_msg_t :=
  if (List.length q <? QUEUE_LENGTH)%nat then q ++ [msg] else q.

Definition is_simultaneous_press (msg : button_event_msg_t) : bool :=
  match event msg with BUTTON_EVENT_SIMULTANEOUS_PRESS => true | _ => false end.

Fixpoint repeat_cb (n : nat) (cb : M bool) : M unit :=
  match n with
  | O => ret tt
  | S n' => _ <- cb ;; repeat_cb n' cb
  end.

(** Both buttons held together for 5 ticks (50 ms at 100 Hz) from tick 0,
    with ten clicks already waiting in the queue and no consumer running. *)
Definition short_hold_queue_full : system :=
  exec (repeat_cb 10 button_up_single_press_cb)
    (boot cfg_plain (env_of (fun _ => 2000) (held_together 0 5))).

(** The same hold with the queue empty. *)
Definition short_hold_queue_empty : system :=
  boot cfg_plain (env_of (fun _ => 2000) (held_together 0 5)).

(** Both buttons held together for 50 ticks (500 ms at 100 Hz). *)
Definition long_hold_queue_empty : system :=
  boot cfg_plain (env_of (fun _ => 2000) (held_together 0 50)).

(** The build without zebra support at a tick rate of 250 Hz: the poll
    period of 10 ms is 2 ticks and the threshold of 100 ms is 25 ticks. *)
Definition cfg_250hz : sdkconfig :=
  {| CONFIG_ZEBRA_BLINDS_SUPPORT := false;
     CONFIG_MOTOR_DEFAULT_SPEED := 1000;
     POSITION_SENSOR_STABILIZATION_MS := 10;
     configTICK_RATE_HZ := 250 |}.

(** Both buttons held together for 25 ticks (100 ms at 250 Hz) from tick 1,
    the polling task running from tick 0 with the queue empty: the polls
    fall on the even ticks, so the first poll of the hold is at tick 2 and
    the first poll after the release at tick 26. *)
Definition threshold_hold_250hz : system :=
  boot cfg_250hz (env_of (fun _ => 2000) (held_together 1 25)).

(** The offset computed for a range at 0 % and at 100 % is exact. *)
Definition range_exact (r : Z) : bool :=
  match u32_of_f32 (f32_div (f32_mul (f32_of_u32 r) f32_0) f32_100),
        u32_of_f32 (f32_div (f32_mul (f32_of_u32 r) f32_100) f32_100)
  with
  | Some a, Some b => (a =? 0) && (b =? r)
  | _, _ => false
  end.

(** A calibration wider than single precision resolves. *)
Definition wide_calibration : system :=
  exec (position_sensor_set_calibration 0 33554433)
    (boot cfg_plain (env_of (fun _ => 2000) no_press)).

(** The invariant of the polling loop over a hold that starts at tick [t0]
    and lasts [H] ticks, the first poll of the hold being at tick [tau] with
    the queue [q0]: while the hold is observed the start tick is kept; once
    the release has been observed the queue holds the outcome of one
    duration test. *)
Definition polling_inv (cfg : sdkconfig)
  (btn : button_id_t -> Z -> button_event_t) (t0 H tau : Z)
  (q0 : list button_event_msg_t) (s : system) : Prop :=
  let P := pdMS_TO_TICKS cfg 10 in
  let T := pdMS_TO_TICKS cfg 100 in
  kconfig s = cfg
  /\ button_event_at (env s) = btn
  /\ ((both_pressed (buttons s) = true
       /\ press_start_time (buttons s) = u32 tau
       /\ g_button_event_queue (buttons s) = q0
       /\ tau <= tick_count (env s) - P < t0 + H)
      \/ (both_pressed (buttons s) = false
          /\ t0 + H <= tick_count (env s) - P
          /\ exists d, H - P < d < H + P
             /\ g_button_event_queue (buttons s)
                = (if d <? T then enqueue q0 simultaneous_press_msg
                   else q0))).

(** ** Specifications of computations *)

(** [wp m Q s]: from [s] the computation [m] returns, with a result and a
    state that satisfy [Q]. *)
Definition wp {A} (m : M A) (Q : A -> system -> Prop) (s : system) : Prop :=
  exists a s', m s = Some (a, s') /\ Q a s'.

(** ** Uses of the position reader *)

(** The entry points of [position_sensor.h]. *)
Inductive sensor_op :=
| OpInit
| OpRead
| OpSetCalibration (min_pos max_pos : Z)
| OpCalibrateStart
| OpGetPercentage
| OpStartCalibration
| OpNextCalibrationStep
| OpSaveCalibrationStep (position : Z).

Definition run_sensor_op (op : sensor_op) : M unit :=
  match op with
  | OpInit => position_sensor_init
  | OpRead => _ <- position_sensor_read ;; ret tt
  | OpSetCalibration min_pos max_pos =>
      position_sensor_set_calibration min_pos max_pos
  | OpCalibrateStart => position_sensor_calibrate_start
  | OpGetPercentage => _ <- position_sensor_get_percentage ;; ret tt
  | OpStartCalibration => _ <- position_sensor_start_calibration ;; ret tt
  | OpNextCalibrationStep =>
      _ <- position_sensor_next_calibration_step ;; ret tt
  | OpSaveCalibrationStep position =>
      position_sensor_save_calibration_step position
  end.

Fixpoint run_sensor_ops (ops : list sensor_op) : M unit :=
  match ops with
  | [] => ret tt
  | op :: rest => run_sensor_op op ;; run_sensor_ops rest
  end.

(** The smoothing buffer has its five slots and the write index points at
    one of them. *)
Definition filter_ok (p : position_sensor_t) : Prop :=
  List.length (filter_buffer p) = 5%nat /\ 0 <= filter_index p < 5.

(** The guided calibration as the position reader offers it: start, capture
    of the upper position, capture of the lower position and, when the
    sequence has the step, capture of the zebra offset. *)
Definition guided_calibration (upper lower zebra : Z)
  : M calibration_step_t :=
  _ <- position_sensor_start_calibration ;;
  position_sensor_save_calibration_step upper ;;
  _ <- position_sensor_next_calibration_step ;;
  position_sensor_save_calibration_step lower ;;
  step <- position_sensor_next_calibration_step ;;
  match step with
  | CALIBRATION_STEP_ZEBRA_OFFSET =>
      position_sensor_save_calibration_step zebra ;;
      position_sensor_next_calibration_step
  | _ => ret step
  end.

(** ** Activities of the running system *)

(** What happens to the controller at run time: the consumer task hands it
    an event, or the boundary task takes one turn of its loop. *)
Inductive activity :=
| Deliver (ev : button_event_t) (id : button_id_t)
| BoundaryTurn.

Definition run_activity (a : activity) : M unit :=
  match a with
  | Deliver ev id => controller_button_callback ev id
  | BoundaryTurn => _ <- boundary_check_iteration ;; ret tt
  end.

Fixpoint run_activities (acts : list activity) : M unit :=
  match acts with
  | [] => ret tt
  | a :: rest => run_activity a ;; run_activities rest
  end.

Definition is_moving_state (st : state_t) : bool :=
  match st with MOVING_UP | MOVING_DOWN => true | _ => false end.

(** The controller is not calibrating, the motor moves and the held flag is
    set only in a moving state, and a calibration lies within the 12-bit
    range of the converter. *)
Definition operational (s : system) : Prop :=
  state (g_config (controller s)) <> CALIBRATING
  /\ (motor_moving (motor s) = true ->
      is_moving_state (state (g_config (controller s))) = true)
  /\ (g_button_held (controller s) = true ->
      is_moving_state (state (g_config (controller s))) = true)
  /\ (calibrated (position_config (sensor s)) = true ->
      0 <= min_position (position_config (sensor s))
      /\ min_position (position_config (sensor s))
         < max_position (position_config (sensor s))
      /\ max_position (position_config (sensor s)) <= 4095).

(** [s] has the calibration and the stored calibration data of [s0]. *)
Definition same_calibration (s0 s : system) : Prop :=
  min_position (position_config (sensor s))
  = min_position (position_config (sensor s0))
  /\ max_position (position_config (sensor s))
     = max_position (position_config (sensor s0))
  /\ calibrated (position_config (sensor s))
     = calibrated (position_config (sensor s0))
  /\ nvs_position_sensor (env s) = nvs_position_sensor (env s0)
  /\ nvs_ready (env s) = nvs_ready (env s0).

(** ** Bursts of events *)

(** Messages sent to the queue one after the other. *)
Fixpoint send_all (msgs : list button_event_msg_t) : M unit :=
  match msgs with
  | [] => ret tt
  | msg :: rest => _ <- xQueueSendFromISR msg ;; send_all rest
  end.

(** The offset computed for a range at 50 % is half the range. *)
Definition half_exact (r : Z) : bool :=
  match u32_of_f32 (f32_div (f32_mul (f32_of_u32 r) f32_50) f32_100) with
  | Some a => a =? r / 2
  | None => false
  end.

Definition direction_of (id : button_id_t) : motor_direction_t :=
  match id with
  | BUTTON_ID_UP => MOTOR_DIR_UP
  | BUTTON_ID_DOWN => MOTOR_DIR_DOWN
  end.

(** The position reader is in order: ordered bounds when calibrated and a
    well-formed smoothing buffer. *)
Definition sensor_ok (s : system) : Prop :=
  calibration_consistent (position_config (sensor s))
  /\ filter_ok (sensor s).

(** The two statements that store a sample in the smoothing buffer and
    advance the write index. *)
Definition filter_push (f : list Z * Z) (adc_value : Z) : list Z * Z :=
  (array_set (fst f) (Z.to_nat (snd f)) adc_value,
   u8 ((snd f + 1) mod 5)).

(** The values returned for a run of valid samples, from the buffer and the
    index at its start. *)
Fixpoint smooth (c : position_config_t) (f : list Z * Z) (samples : list Z)
  : list Z :=
  match samples with
  | [] => []
  | x :: rest =>
      let f' := filter_push f (u32 x) in
      clamp_position c (filter_sum (fst f') / 5) :: smooth c f' rest
  end.

(** The next [n] samples of the converter. *)
Definition next_samples (s : system) (n : nat) : list Z :=
  map (fun i => adc_raw (env s) (adc_reads (env s) + i)%nat) (seq 0 n).

(** [s] is operational and has the calibration of [s0]. *)
Definition steady (s0 s : system) : Prop :=
  operational s /\ same_calibration s0 s.

(** ** The consumer task *)

(** [n] turns of the loop of [button_handler_task]. *)
Fixpoint button_handler_task (n : nat) : M unit :=
  match n with
  | O => ret tt
  | S n' => button_handler_task_iteration ;; button_handler_task n'
  end.

(** [m] neither reads nor writes the statics of the button handler: run
    from a state whose handler part was changed by [f], it does what it
    does otherwise and leaves the change in place. *)
Definition ignores_buttons {A} (m : M A) : Prop :=
  forall (f : button_handler_t -> button_handler_t) (s : system),
    m (set_buttons f s)
    = match m s with
      | Some (a, s') => Some (a, set_buttons f s')
      | None => None
      end.

(** * Properties *)

(** ** Reasoning about computations *)

Ltac mred :=
  cbv beta iota delta
    [bind ret gets modify undefined run exec eval
     controller_get_state controller_is_moving
     get_state set_state log_calibration_step
     motor_is_moving motor_stop motor_step motor_set_speed
     motor_set_direction motor_control_init
     position_sensor_is_calibrated position_sensor_get_zebra_offset
     position_sensor_get_min_position position_sensor_get_max_position
     vTaskDelay xTaskGetTickCount gpio_set_level_power adc1_get_raw
     iot_button_get_event nvs_open_readonly] in *.

Arguments u32 : simpl never.
Arguments u8 : simpl never.
Arguments pdMS_TO_TICKS : simpl never.
Arguments filter_sum : simpl never.
Arguments clamp_position : simpl never.
Arguments position_sensor_read : simpl never.
Arguments position_sensor_set_calibration : simpl never.
Arguments position_sensor_get_percentage : simpl never.
Arguments position_sensor_start_calibration : simpl never.
Arguments position_sensor_next_calibration_step : simpl never.
Arguments position_sensor_save_calibration_step : simpl never.
Arguments controller_stop : simpl never.
Arguments controller_check_boundaries_and_stop : simpl never.
Arguments controller_move_to_position : simpl never.
Arguments controller_calibrate : simpl never.
Arguments controller_handle_zebra_offset : simpl never.
Arguments controller_set_position_percentage : simpl never.
Arguments boundary_check_iteration : simpl never.
Arguments xQueueSend : simpl never.

Lemma exec_run {A} (m : M A) (s s' : system) (a : A) :
  m s = Some (a, s') -> exec m s = s'.
Proof. unfold exec; intros ->; reflexivity. Qed.

Lemma eval_run {A} (m : M A) (s s' : system) (a : A) :
  m s = Some (a, s') -> eval m s = Some a.
Proof. unfold eval; intros ->; reflexivity. Qed.

Lemma bind_run {A B} (m : M A) (f : A -> M B) (s s' : system) (a : A) :
  m s = Some (a, s') -> bind m f s = f a s'.
Proof. unfold bind; intros ->; reflexivity. Qed.

(** [mstep H]: run the head computation of a [bind] by its equation [H]. *)
Ltac mstep H := rewrite (bind_run _ _ _ _ _ H); cbv beta.

(** ** Calibration steps *)

Lemma next_step_at_complete (s : system) :
  current_calibration_step (sensor s) = CALIBRATION_STEP_COMPLETE ->
  position_sensor_next_calibration_step s
  = Some (CALIBRATION_STEP_COMPLETE, s).
Proof.
  intros H; unfold position_sensor_next_calibration_step; mred.
  rewrite H; reflexivity.
Qed.

Lemma next_steps_at_complete (n : nat) (s : system) :
  current_calibration_step (sensor s) = CALIBRATION_STEP_COMPLETE ->
  next_steps n s = Some (repeat CALIBRATION_STEP_COMPLETE n, s).
Proof.
  intros H; induction n as [|n IH]; [reflexivity|].
  cbn [next_steps repeat].
  mstep (next_step_at_complete s H). mstep IH. reflexivity.
Qed.

Lemma start_calibration_run (s : system) :
  exists s0,
    position_sensor_start_calibration s
    = Some (get_calibration_step_description, s0)
    /\ current_calibration_step (sensor s0) = CALIBRATION_STEP_UPPER
    /\ calibration_zebra_enabled (sensor s0)
       = CONFIG_ZEBRA_BLINDS_SUPPORT (kconfig s)
    /\ position_config (sensor s0) = position_config (sensor s)
    /\ controller s0 = controller s
    /\ motor s0 = motor s
    /\ kconfig s0 = kconfig s.
Proof.
  unfold position_sensor_start_calibration; mred; cbn.
  destruct (nvs_ready (env s)); [destruct (nvs_position_sensor (env s))|];
    eexists; (split; [reflexivity|]); cbn; repeat split.
Qed.

(** The successor of a step in the calibration sequence. *)
Lemma next_step_run (s : system) :
  exists s',
    position_sensor_next_calibration_step s
    = Some (current_calibration_step (sensor s'), s')
    /\ current_calibration_step (sensor s')
       = match current_calibration_step (sensor s) with
         | CALIBRATION_STEP_UPPER => CALIBRATION_STEP_LOWER
         | CALIBRATION_STEP_LOWER =>
             if calibration_zebra_enabled (sensor s)
             then CALIBRATION_STEP_ZEBRA_OFFSET
             else CALIBRATION_STEP_COMPLETE
         | _ => CALIBRATION_STEP_COMPLETE
         end
    /\ calibration_zebra_enabled (sensor s')
       = calibration_zebra_enabled (sensor s)
    /\ position_config (sensor s') = position_config (sensor s)
    /\ controller s' = controller s
    /\ motor s' = motor s
    /\ env s' = env s
    /\ kconfig s' = kconfig s.
Proof.
  unfold position_sensor_next_calibration_step; mred.
  destruct (current_calibration_step (sensor s)) eqn:E;
    [| destruct (calibration_zebra_enabled (sensor s)) eqn:Z | |];
    try (eexists; (split; [reflexivity|]); cbn; rewrite ?E, ?Z;
         repeat split).
  exists s; rewrite E; repeat split.
Qed.

Lemma next_steps_cons (n : nat) (s s1 s2 : system)
  (v : calibration_step_t) (vs : list calibration_step_t) :
  position_sensor_next_calibration_step s = Some (v, s1) ->
  next_steps n s1 = Some (vs, s2) ->
  next_steps (S n) s = Some (v :: vs, s2).
Proof.
  intros H1 H2. cbn [next_steps]. mstep H1. mstep H2. reflexivity.
Qed.

(** C8: after [position_sensor_start_calibration] the step is [Upper];
    repeated calls of [position_sensor_next_calibration_step] then give
    [Lower], [Complete] without zebra support and [Lower], [ZebraOffset],
    [Complete] with it, and every later call gives [Complete]. *)
Theorem calibration_step_sequence (s : system) (n : nat) :
  let s0 := exec position_sensor_start_calibration s in
  current_calibration_step (sensor s0) = CALIBRATION_STEP_UPPER
  /\ eval (next_steps
             ((if CONFIG_ZEBRA_BLINDS_SUPPORT (kconfig s) then 3 else 2) + n))
          s0
     = Some ((if CONFIG_ZEBRA_BLINDS_SUPPORT (kconfig s)
              then [CALIBRATION_STEP_LOWER; CALIBRATION_STEP_ZEBRA_OFFSET;
                    CALIBRATION_STEP_COMPLETE]
              else [CALIBRATION_STEP_LOWER; CALIBRATION_STEP_COMPLETE])
             ++ repeat CALIBRATION_STEP_COMPLETE n).
Proof.
  destruct (start_calibration_run s) as (s0 & Hrun & Hstep & Hz & _).
  cbv zeta. rewrite (exec_run _ _ _ _ Hrun). split; [exact Hstep|].
  destruct (next_step_run s0) as (s1 & R1 & E1 & Z1 & _).
  destruct (next_step_run s1) as (s2 & R2 & E2 & Z2 & _).
  destruct (next_step_run s2) as (s3 & R3 & E3 & Z3 & _).
  rewrite Hstep in E1. rewrite E1, Z1, Hz in E2.
  destruct (CONFIG_ZEBRA_BLINDS_SUPPORT (kconfig s)).
  - rewrite E2 in E3. rewrite E1 in R1. rewrite E2 in R2. rewrite E3 in R3.
    apply eval_run with (s' := s3). cbn [Nat.add app].
    eapply next_steps_cons; [exact R1|].
    eapply next_steps_cons; [exact R2|].
    eapply next_steps_cons; [exact R3|].
    apply next_steps_at_complete, E3.
  - rewrite E1 in R1. rewrite E2 in R2.
    apply eval_run with (s' := s2). cbn [Nat.add app].
    eapply next_steps_cons; [exact R1|].
    eapply next_steps_cons; [exact R2|].
    apply next_steps_at_complete, E2.
Qed.

(** C9: [position_sensor_save_calibration_step] at step [Lower] stores the
    lower position and commits [position_sensor_set_calibration (upper,
    lower)] exactly when [upper < lower]; otherwise the bounds and the
    calibrated flag stay as they were.  In both cases the step is still
    [Lower] and the next call advances it. *)
Theorem save_lower_step_commits_iff_ordered (s : system) (position : Z) :
  current_calibration_step (sensor s) = CALIBRATION_STEP_LOWER ->
  let upper := calibration_upper_position (sensor s) in
  exists s',
    position_sensor_save_calibration_step position s = Some (tt, s')
    /\ calibration_lower_position (sensor s') = position
    /\ calibration_upper_position (sensor s') = upper
    /\ position_config (sensor s')
       = (if upper <? position
          then position_config
                 (sensor (exec (position_sensor_set_calibration upper position)
                               s))
          else position_config (sensor s))
    /\ (upper < position ->
        min_position (position_config (sensor s')) = upper
        /\ max_position (position_config (sensor s')) = position
        /\ calibrated (position_config (sensor s')) = true)
    /\ (upper >= position ->
        position_config (sensor s') = position_config (sensor s))
    /\ current_calibration_step (sensor s') = CALIBRATION_STEP_LOWER
    /\ eval position_sensor_next_calibration_step s'
       = Some (if calibration_zebra_enabled (sensor s)
               then CALIBRATION_STEP_ZEBRA_OFFSET
               else CALIBRATION_STEP_COMPLETE).
Proof.
  intros Hstep upper.
  unfold position_sensor_save_calibration_step,
    position_sensor_set_calibration; mred; cbn.
  rewrite Hstep. fold upper.
  assert (Hge : (upper >=? position) = negb (upper <? position)).
  { rewrite Z.geb_leb, Z.ltb_antisym, negb_involutive; reflexivity. }
  destruct (upper <? position) eqn:E.
  - rewrite Hge; cbn. eexists; split; [reflexivity|]. cbn.
    repeat split; try (intros; exfalso; apply Z.ltb_lt in E; lia).
    + exact Hstep.
    + unfold position_sensor_next_calibration_step; mred; cbn.
      rewrite Hstep; cbn.
      destruct (calibration_zebra_enabled (sensor s)); reflexivity.
  - eexists; split; [reflexivity|]. cbn.
    repeat split; try (intros; exfalso; apply Z.ltb_ge in E; lia).
    + exact Hstep.
    + unfold position_sensor_next_calibration_step; mred; cbn.
      rewrite Hstep; cbn.
      destruct (calibration_zebra_enabled (sensor s)); reflexivity.
Qed.

(** The theorem at work: capture of 3900 after an upper position of 100. *)
Lemma save_lower_step_commits_iff_ordered_witness :
  let s := set_sensor
             (fun p => with_calibration_step CALIBRATION_STEP_LOWER
                         (with_upper_position 100 p))
             (boot cfg_plain (env_of (fun _ => 2000) no_press)) in
  exists s',
    position_sensor_save_calibration_step 3900 s = Some (tt, s')
    /\ calibrated (position_config (sensor s')) = true.
Proof.
  cbv zeta.
  destruct (save_lower_step_commits_iff_ordered
              (set_sensor
                 (fun p => with_calibration_step CALIBRATION_STEP_LOWER
                             (with_upper_position 100 p))
                 (boot cfg_plain (env_of (fun _ => 2000) no_press)))
              3900 eq_refl)
    as (s' & Hrun & _ & _ & _ & Hlt & _).
  exists s'. split; [exact Hrun|].
  apply Hlt. cbn. lia.
Defined.

(** ** Stopping *)

Lemma controller_stop_run (s : system) :
  exists s',
    controller_stop s = Some (tt, s')
    /\ state (g_config (controller s')) = IDLE
    /\ g_button_held (controller s') = false
    /\ motor_moving (motor s') = false
    /\ motor_commands (motor s')
       = (if motor_moving (motor s)
          then motor_commands (motor s) ++ [MotorStop]
          else motor_commands (motor s))
    /\ sensor s' = sensor s
    /\ env s' = env s
    /\ kconfig s' = kconfig s
    /\ buttons s' = buttons s
    /\ g_calibration_callback (controller s')
       = g_calibration_callback (controller s)
    /\ calibration_log (controller s') = calibration_log (controller s)
    /\ g_boundary_check_task (controller s')
       = g_boundary_check_task (controller s)
    /\ last_direction_up (controller s') = last_direction_up (controller s).
Proof.
  unfold controller_stop; mred.
  destruct (motor_moving (motor s)) eqn:E;
    eexists; (split; [reflexivity|]); cbn; rewrite ?E; repeat split.
Qed.

(** ** Entering calibration *)

Lemma controller_calibrate_run (s : system) :
  exists s',
    controller_calibrate s = Some (tt, s')
    /\ state (g_config (controller s')) = IDLE
    /\ g_button_held (controller s') = false
    /\ motor_moving (motor s') = false
    /\ motor_commands (motor s')
       = (if motor_moving (motor s)
          then motor_commands (motor s) ++ [MotorStop]
          else motor_commands (motor s))
    /\ current_calibration_step (sensor s') = CALIBRATION_STEP_LOWER
    /\ calibration_log (controller s')
       = calibration_log (controller s)
         ++ [(CALIBRATION_STEP_LOWER,
              get_calibration_step_description CALIBRATION_STEP_LOWER)]
    /\ g_calibration_callback (controller s')
       = Some get_calibration_step_description
    /\ position_config (sensor s') = position_config (sensor s)
    /\ kconfig s' = kconfig s.
Proof.
  unfold controller_calibrate.
  assert (H0 : set_state CALIBRATING s
               = Some (tt, set_controller
                             (with_g_config (with_state CALIBRATING)) s))
    by reflexivity.
  mstep H0.
  destruct (controller_stop_run
              (set_controller (with_g_config (with_state CALIBRATING)) s))
    as (s1 & R1 & St1 & Hd1 & Mv1 & Cm1 & Sn1 & En1 & K1 & B1 & Cb1 & Lg1 & _).
  mstep R1.
  destruct (start_calibration_run s1)
    as (s2 & R2 & Sp2 & Z2 & Pc2 & Ct2 & Mt2 & K2).
  mstep R2.
  unfold position_sensor_next_calibration_step; mred; cbn.
  rewrite Sp2. cbn. eexists; split; [reflexivity|]. cbn.
  rewrite Ct2, Mt2, Pc2, Sn1, K2, K1, St1, Hd1, Mv1, Cm1, Lg1.
  cbn. repeat split.
Qed.

(** C1: from [IDLE], a simultaneous press stops the motor and starts the
    step calibration, but the controller is left in [IDLE], not in
    [CALIBRATING] ([controller_calibrate] sets [CALIBRATING] and then calls
    [controller_stop], which resets the state), and the prompt shown is the
    one of [Lower], the step being advanced before the prompt is looked
    up. *)
Theorem simultaneous_press_from_idle_ends_idle (s : system)
  (id : button_id_t) :
  state (g_config (controller s)) = IDLE ->
  exists s',
    controller_button_callback BUTTON_EVENT_SIMULTANEOUS_PRESS id s
    = Some (tt, s')
    /\ eval controller_get_state s' = Some IDLE
    /\ motor_moving (motor s') = false
    /\ current_calibration_step (sensor s') = CALIBRATION_STEP_LOWER
    /\ calibration_log (controller s')
       = calibration_log (controller s)
         ++ [(CALIBRATION_STEP_LOWER,
              get_calibration_step_description CALIBRATION_STEP_LOWER)].
Proof.
  intros Hidle.
  destruct (controller_calibrate_run s)
    as (s' & R & St & _ & Mv & _ & Sp & Lg & _).
  exists s'. unfold controller_button_callback; mred; cbn.
  rewrite Hidle; cbn. repeat split; assumption || (rewrite St; reflexivity).
Qed.

Lemma simultaneous_press_from_idle_ends_idle_witness :
  exists s',
    controller_button_callback BUTTON_EVENT_SIMULTANEOUS_PRESS BUTTON_ID_UP
      (boot cfg_plain (env_of (fun _ => 2000) no_press))
    = Some (tt, s')
    /\ eval controller_get_state s' = Some IDLE.
Proof.
  destruct (simultaneous_press_from_idle_ends_idle
              (boot cfg_plain (env_of (fun _ => 2000) no_press))
              BUTTON_ID_UP eq_refl)
    as (s' & R & St & _).
  exists s'. split; [exact R | exact St].
Defined.

(** ** Reading the position *)

Lemma clamp_position_in_bounds (c : position_config_t) (v : Z) :
  min_position c <= max_position c -> in_bounds c (clamp_position c v).
Proof.
  unfold in_bounds, clamp_position; intros H.
  destruct (v <? min_position c) eqn:E1; [lia|].
  destruct (v >? max_position c) eqn:E2; [lia|].
  apply Z.ltb_ge in E1. rewrite Z.gtb_ltb in E2. apply Z.ltb_ge in E2. lia.
Qed.

(** What one call of [position_sensor_read] returns and changes. *)
Lemma position_sensor_read_run (s : system) :
  exists r s',
    position_sensor_read s = Some (r, s')
    /\ min_position (position_config (sensor s'))
       = min_position (position_config (sensor s))
    /\ max_position (position_config (sensor s'))
       = max_position (position_config (sensor s))
    /\ calibrated (position_config (sensor s'))
       = calibrated (position_config (sensor s))
    /\ sensor_initialized (sensor s') = sensor_initialized (sensor s)
    /\ current_calibration_step (sensor s')
       = current_calibration_step (sensor s)
    /\ calibration_upper_position (sensor s')
       = calibration_upper_position (sensor s)
    /\ calibration_lower_position (sensor s')
       = calibration_lower_position (sensor s)
    /\ calibration_zebra_offset (sensor s')
       = calibration_zebra_offset (sensor s)
    /\ calibration_zebra_enabled (sensor s')
       = calibration_zebra_enabled (sensor s)
    /\ controller s' = controller s
    /\ motor s' = motor s
    /\ kconfig s' = kconfig s
    /\ buttons s' = buttons s
    /\ adc_raw (env s') = adc_raw (env s)
    /\ (if sensor_initialized (sensor s)
        then
          adc_reads (env s') = S (adc_reads (env s))
          /\ (if adc_raw (env s) (adc_reads (env s)) <? 0
              then r = current_position (position_config (sensor s))
              else r = clamp_position (position_config (sensor s))
                         (filter_sum
                            (array_set (filter_buffer (sensor s))
                               (Z.to_nat (filter_index (sensor s)))
                               (u32 (adc_raw (env s) (adc_reads (env s)))))
                          / 5))
          /\ current_position (position_config (sensor s')) = r
        else r = 0 /\ s' = s).
Proof.
  unfold position_sensor_read, position_sensor_power_on,
    position_sensor_power_off; mred.
  destruct (sensor_initialized (sensor s)) eqn:Ei; cbn.
  - destruct (adc_raw (env s) (adc_reads (env s)) <? 0) eqn:Er.
    + do 2 eexists; split; [reflexivity|]; cbn. rewrite Ei. repeat split.
    + do 2 eexists; split; [reflexivity|]; cbn. rewrite Ei. repeat split.
  - do 2 eexists; split; [reflexivity|]; cbn. rewrite Ei. repeat split.
Qed.

(** ** The calibration workflow is unreachable from the buttons *)

Lemma single_click_uncalibrated (s : system) (id : button_id_t) :
  state (g_config (controller s)) <> CALIBRATING ->
  calibrated (position_config (sensor s)) = false ->
  controller_button_callback BUTTON_SINGLE_CLICK id s = Some (tt, s).
Proof.
  intros Hst Hcal.
  unfold controller_button_callback, controller_goto_top,
    controller_goto_bottom; mred.
  destruct (state (g_config (controller s))); try congruence;
    cbn; destruct id; rewrite Hcal; reflexivity.
Qed.

Lemma deliver_single_clicks_uncalibrated (ids : list button_id_t)
  (s : system) :
  state (g_config (controller s)) <> CALIBRATING ->
  calibrated (position_config (sensor s)) = false ->
  deliver (map single_click ids) s = Some (tt, s).
Proof.
  intros Hst Hcal; induction ids as [|id ids IH]; [reflexivity|].
  cbn [map deliver single_click event button_id].
  mstep (single_click_uncalibrated s id Hst Hcal). exact IH.
Qed.

Lemma boot_run (cfg : sdkconfig) (e : env_t) :
  controller_init (power_on cfg e) = Some (tt, boot cfg e).
Proof. reflexivity. Qed.

(** C2: from the uncalibrated boot state, a simultaneous press followed by
    any number of single clicks, whatever the converter delivers, leaves the
    sensor uncalibrated: the press leaves the controller in [IDLE], so the
    clicks are taken as go-to-top and go-to-bottom requests, which are
    refused without calibration.  The bounds read 100 and 3900 because
    these are the defaults of [position_sensor_init]. *)
Theorem guided_calibration_never_completes (cfg : sdkconfig) (e : env_t)
  (ids : list button_id_t) :
  exists s',
    deliver (simultaneous_press_msg :: map single_click ids) (boot cfg e)
    = Some (tt, s')
    /\ eval position_sensor_is_calibrated s' = Some false
    /\ eval controller_get_state s' = Some IDLE
    /\ eval position_sensor_get_min_position s' = Some 100
    /\ eval position_sensor_get_max_position s' = Some 3900.
Proof.
  destruct (controller_calibrate_run (boot cfg e))
    as (s1 & R & St & _ & _ & _ & _ & _ & _ & Pc & _).
  exists s1.
  assert (Hcal : calibrated (position_config (sensor s1)) = false)
    by (rewrite Pc; reflexivity).
  split.
  - cbn [deliver simultaneous_press_msg event button_id].
    assert (Hcb : controller_button_callback BUTTON_EVENT_SIMULTANEOUS_PRESS
                    BUTTON_ID_UP (boot cfg e) = Some (tt, s1)) by exact R.
    mstep Hcb.
    apply deliver_single_clicks_uncalibrated; [rewrite St; discriminate|].
    exact Hcal.
  - mred. rewrite Hcal, St, Pc. repeat split.
Qed.

(** ** Travel limits *)



(** Without calibration the check is skipped, whatever the reading. *)
Lemma boundary_check_skipped_when_uncalibrated (s : system) :
  calibrated (position_config (sensor s)) = false ->
  controller_check_boundaries_and_stop s = Some (false, s).
Proof.
  intros H; unfold controller_check_boundaries_and_stop; mred.
  rewrite H; reflexivity.
Qed.

(** ** Release *)

(** C5, as the code has it: a release delivered to the controller while
    the held flag of a long press is set stops the motor and sets the state
    to [IDLE]; with the flag clear the release changes nothing. *)
Theorem release_stops_held_motion (s : system) (id : button_id_t) :
  state (g_config (controller s)) = MOVING_UP
  \/ state (g_config (controller s)) = MOVING_DOWN ->
  (g_button_held (controller s) = true ->
   exists s',
     controller_button_callback BUTTON_EVENT_RELEASE id s = Some (tt, s')
     /\ state (g_config (controller s')) = IDLE
     /\ motor_moving (motor s') = false
     /\ motor_commands (motor s')
        = (if motor_moving (motor s)
           then motor_commands (motor s) ++ [MotorStop]
           else motor_commands (motor s))
     /\ g_button_held (controller s') = false)
  /\ (g_button_held (controller s) = false ->
      controller_button_callback BUTTON_EVENT_RELEASE id s = Some (tt, s)).
Proof.
  intros _; split; intros Hheld;
    unfold controller_button_callback, BUTTON_EVENT_RELEASE; mred;
    rewrite Hheld; [|reflexivity].
  destruct (controller_stop_run s) as (s' & R & St & Hd & Mv & Cm & _).
  exists s'. repeat split; assumption.
Qed.

Lemma release_stops_held_motion_witness :
  exists s',
    controller_button_callback BUTTON_EVENT_RELEASE BUTTON_ID_UP long_press_up
    = Some (tt, s')
    /\ state (g_config (controller s')) = IDLE
    /\ motor_moving (motor s') = false.
Proof.
  destruct (proj1 (release_stops_held_motion long_press_up BUTTON_ID_UP
                     (or_introl eq_refl)) eq_refl)
    as (s' & R & St & Mv & _).
  exists s'. repeat split; assumption.
Defined.

(** C5 as stated fails: a target motion leaves the controller in
    [MOVING_DOWN] with the held flag clear, and a release then neither stops
    the motor nor changes the state. *)
Lemma release_ignored_during_target_motion :
  eval controller_get_state target_motion = Some MOVING_DOWN
  /\ controller_button_callback BUTTON_EVENT_RELEASE BUTTON_ID_DOWN
       target_motion
     = Some (tt, target_motion)
  /\ motor_moving (motor target_motion) = true
  /\ motor_commands (motor target_motion)
     = [MotorSetDirection MOTOR_DIR_DOWN; MotorSetSpeed 1000; MotorStep 1900].
Proof. repeat split. Qed.

(** The driver is never asked to report releases: no callback is registered
    for [BUTTON_PRESS_UP] on either button. *)
Lemma release_not_registered (id : button_id_t) :
  registered_cb id BUTTON_EVENT_RELEASE = None.
Proof. destruct id; reflexivity. Qed.

(** ** Zebra offset *)

(** What the clamp of the zebra motion does guarantee: the target lies
    within the constants 0 and 4095. *)
Lemma zebra_target_within_constants (current_pos zebra_offset : Z)
  (last_up : bool) :
  0 <= fst (zebra_target current_pos zebra_offset last_up) <= 4095.
Proof.
  unfold zebra_target.
  set (a := u32 (current_pos + zebra_offset)).
  set (b := u32 (current_pos - zebra_offset)).
  assert (Ha : 0 <= a) by (apply Z.mod_pos_bound; lia).
  assert (Hb : 0 <= b) by (apply Z.mod_pos_bound; lia).
  assert (Hclamp : forall t, 0 <= t ->
            0 <= (if t <? 0 then 0 else if t >? 4095 then 4095 else t)
            <= 4095).
  { intros t Ht. destruct (t <? 0) eqn:E0; [lia|].
    destruct (t >? 4095) eqn:E1; [lia|].
    rewrite Z.gtb_ltb in E1. apply Z.ltb_ge in E1. lia. }
  destruct (current_pos <=? u32 (0 + zebra_offset));
    [|destruct (current_pos >=? u32 (4095 - zebra_offset));
      [|destruct last_up]]; cbn [fst]; apply Hclamp; assumption.
Qed.

(** C6: the zebra motion clamps its target to the constants 0 and 4095, not
    to the calibrated bounds.  Calibrated to [100, 3900] with the default
    offset 100 and the blind at 3850, a double click commands 100 steps down
    to the target 3950, beyond [max_position]. *)
Theorem zebra_offset_target_exceeds_calibrated_bound :
  eval position_sensor_is_calibrated near_bottom = Some true
  /\ eval position_sensor_get_min_position near_bottom = Some 100
  /\ eval position_sensor_get_max_position near_bottom = Some 3900
  /\ eval position_sensor_get_zebra_offset near_bottom = Some 100
  /\ eval position_sensor_read near_bottom = Some 3850
  /\ zebra_target 3850 100 false = (3950, true)
  /\ exists s',
       controller_button_callback BUTTON_DOUBLE_CLICK BUTTON_ID_DOWN
         near_bottom
       = Some (tt, s')
       /\ current_position (position (g_config (controller s'))) = 3950
       /\ state (g_config (controller s')) = MOVING_DOWN
       /\ motor_commands (motor s')
          = [MotorSetDirection MOTOR_DIR_DOWN; MotorSetSpeed 1000;
             MotorStep 100].
Proof.
  repeat split.
  eexists. split; [vm_compute; reflexivity|]. repeat split.
Qed.

(** ** Readings and the calibrated bounds *)

Lemma set_calibration_consistent (s : system) (min_pos max_pos : Z) :
  calibration_consistent (position_config (sensor s)) ->
  calibration_consistent
    (position_config
       (sensor (exec (position_sensor_set_calibration min_pos max_pos) s))).
Proof.
  unfold calibration_consistent, position_sensor_set_calibration; mred.
  destruct (min_pos >=? max_pos) eqn:E; cbn; [tauto|].
  intros _ _. rewrite Z.geb_leb in E. apply Z.leb_gt in E. exact E.
Qed.

Lemma boot_consistent (cfg : sdkconfig) (e : env_t) :
  calibration_consistent (position_config (sensor (boot cfg e))).
Proof. unfold calibration_consistent; cbn; discriminate. Qed.

(** One reading: a valid sample gives a value within the bounds, a failed
    one gives back the cached position. *)
Lemma position_sensor_read_bounds (s : system) :
  sensor_initialized (sensor s) = true ->
  min_position (position_config (sensor s))
  <= max_position (position_config (sensor s)) ->
  exists r s',
    position_sensor_read s = Some (r, s')
    /\ min_position (position_config (sensor s'))
       = min_position (position_config (sensor s))
    /\ max_position (position_config (sensor s'))
       = max_position (position_config (sensor s))
    /\ sensor_initialized (sensor s') = true
    /\ adc_raw (env s') = adc_raw (env s)
    /\ adc_reads (env s') = S (adc_reads (env s))
    /\ current_position (position_config (sensor s')) = r
    /\ (0 <= adc_raw (env s) (adc_reads (env s)) ->
        in_bounds (position_config (sensor s)) r)
    /\ (adc_raw (env s) (adc_reads (env s)) < 0 ->
        r = current_position (position_config (sensor s))).
Proof.
  intros Hi Hle.
  destruct (position_sensor_read_run s)
    as (r & s' & R & Hmin & Hmax & _ & Hi' & _ & _ & _ & _ & _ & _ & _ & _
          & _ & Hadc & Hcase).
  rewrite Hi in Hcase. destruct Hcase as (Hn & Hr & Hc).
  exists r, s'.
  repeat (split; [assumption || congruence|]).
  split; intros Hraw.
  - apply Z.ltb_ge in Hraw. rewrite Hraw in Hr. subst r.
    apply clamp_position_in_bounds. exact Hle.
  - apply Z.ltb_lt in Hraw. rewrite Hraw in Hr. exact Hr.
Qed.

Lemma read_many_bounds (n : nat) :
  forall s : system,
    sensor_initialized (sensor s) = true ->
    min_position (position_config (sensor s))
    <= max_position (position_config (sensor s)) ->
    exists vs s',
      read_many n s = Some (vs, s')
      /\ List.length vs = n
      /\ forall (i : nat) (r : Z),
           nth_error vs i = Some r ->
           in_bounds (position_config (sensor s))
             (current_position (position_config (sensor s)))
           \/ (exists j : nat,
                 (j <= i)%nat
                 /\ 0 <= adc_raw (env s) (adc_reads (env s) + j)%nat) ->
           in_bounds (position_config (sensor s)) r.
Proof.
  induction n as [|n IH]; intros s Hi Hle.
  - exists [], s. split; [reflexivity|]. split; [reflexivity|].
    intros [|i] r H; discriminate H.
  - destruct (position_sensor_read_bounds s Hi Hle)
      as (r0 & s1 & R & Hmin & Hmax & Hi1 & Hadc & Hn & Hc & Hok & Hbad).
    assert (Hle1 : min_position (position_config (sensor s1))
                   <= max_position (position_config (sensor s1)))
      by (rewrite Hmin, Hmax; exact Hle).
    destruct (IH s1 Hi1 Hle1) as (vs & s2 & R2 & Hlen & Hall).
    exists (r0 :: vs), s2. split; [|split].
    + cbn [read_many]. mstep R. mstep R2. reflexivity.
    + cbn; congruence.
    + assert (Hfirst :
        in_bounds (position_config (sensor s))
          (current_position (position_config (sensor s)))
        \/ 0 <= adc_raw (env s) (adc_reads (env s)) ->
        in_bounds (position_config (sensor s)) r0).
      { intros [Hcache|Hraw]; [|exact (Hok Hraw)].
        destruct (Z.lt_ge_cases (adc_raw (env s) (adc_reads (env s))) 0)
          as [Hneg|Hpos]; [rewrite (Hbad Hneg); exact Hcache|exact (Hok Hpos)].
      }
      intros [|i] r Hnth Hpre; cbn in Hnth.
      * injection Hnth as <-. apply Hfirst.
        destruct Hpre as [Hcache|(j & Hj & Hraw)]; [left; exact Hcache|].
        right. assert (j = 0)%nat as -> by lia.
        rewrite Nat.add_0_r in Hraw. exact Hraw.
      * assert (Hgoal : in_bounds (position_config (sensor s1)) r).
        { apply (Hall i r Hnth).
          unfold in_bounds at 1. rewrite Hmin, Hmax, Hc.
          destruct Hpre as [Hcache|(j & Hj & Hraw)].
          - left. apply Hfirst. left; exact Hcache.
          - destruct j as [|j].
            + left. apply Hfirst. right.
              rewrite Nat.add_0_r in Hraw. exact Hraw.
            + right. exists j. split; [lia|].
              rewrite Hadc, Hn.
              replace (S (adc_reads (env s)) + j)%nat
                with (adc_reads (env s) + S j)%nat by lia.
              exact Hraw. }
        unfold in_bounds in *. rewrite Hmin, Hmax in Hgoal. exact Hgoal.
Qed.

(** C3, as the code has it: once the sensor is initialised and calibrated,
    every call of [position_sensor_read] returns, and the value lies within
    [min_position, max_position] from the first valid sample on, or from
    the start when the cached position lies within the bounds; a failed
    sample before that gives back the cached position as it is. *)
Theorem reads_within_bounds_after_valid_sample (s : system) (n : nat) :
  sensor_initialized (sensor s) = true ->
  calibrated (position_config (sensor s)) = true ->
  calibration_consistent (position_config (sensor s)) ->
  exists vs s',
    read_many n s = Some (vs, s')
    /\ List.length vs = n
    /\ forall (i : nat) (r : Z),
         nth_error vs i = Some r ->
         in_bounds (position_config (sensor s))
           (current_position (position_config (sensor s)))
         \/ (exists j : nat,
               (j <= i)%nat
               /\ 0 <= adc_raw (env s) (adc_reads (env s) + j)%nat) ->
         in_bounds (position_config (sensor s)) r.
Proof.
  intros Hi Hcal Hcons. apply read_many_bounds; [exact Hi|].
  specialize (Hcons Hcal). lia.
Qed.

Lemma reads_within_bounds_after_valid_sample_witness :
  exists vs s',
    read_many 3
      (exec (position_sensor_set_calibration 100 3900)
         (boot cfg_plain (env_of (fun _ => 2000) no_press)))
    = Some (vs, s')
    /\ List.length vs = 3%nat.
Proof.
  destruct (reads_within_bounds_after_valid_sample
              (exec (position_sensor_set_calibration 100 3900)
                 (boot cfg_plain (env_of (fun _ => 2000) no_press)))
              3 eq_refl eq_refl
              (set_calibration_consistent _ 100 3900
                 (boot_consistent _ _)))
    as (vs & s' & R & Hlen & _).
  exists vs, s'. split; assumption.
Defined.

(** C3 as stated fails on the recovery path: after boot and a calibration
    to [100, 3900], a first sample that fails gives back the cached
    position 0 of [position_sensor_init], below [min_position]. *)
Lemma failed_sample_returns_cache_below_min :
  let s := exec (position_sensor_set_calibration 100 3900)
             (boot cfg_plain (env_of (fun _ => -1) no_press)) in
  eval position_sensor_is_calibrated s = Some true
  /\ eval position_sensor_get_min_position s = Some 100
  /\ eval position_sensor_read s = Some 0
  /\ ~ in_bounds (position_config (sensor s)) 0.
Proof.
  cbv zeta. do 3 (split; [reflexivity|]).
  intros [H _]. vm_compute in H. apply H; reflexivity.
Qed.

(** ** Simultaneous press *)

Lemma u32_small (z : Z) : 0 <= z < 4294967296 -> u32 z = z.
Proof. unfold u32; intros H; apply Z.mod_small; exact H. Qed.

Lemma u32_sub (a b : Z) :
  0 <= a - b < 4294967296 -> u32 (u32 a - u32 b) = a - b.
Proof.
  intros H; unfold u32. rewrite <- Zminus_mod. apply Z.mod_small; exact H.
Qed.

Lemma xQueueSend_run (msg : button_event_msg_t) (s : system) :
  exists (sent : bool) (s' : system),
    xQueueSend msg s = Some (sent, s')
    /\ g_button_event_queue (buttons s')
       = enqueue (g_button_event_queue (buttons s)) msg
    /\ both_pressed (buttons s') = both_pressed (buttons s)
    /\ press_start_time (buttons s') = press_start_time (buttons s)
    /\ env s' = env s
    /\ kconfig s' = kconfig s.
Proof.
  unfold xQueueSend, enqueue; mred.
  destruct (List.length (g_button_event_queue (buttons s)) <? QUEUE_LENGTH)%nat;
    do 2 eexists; (split; [reflexivity|]); cbn; repeat split.
Qed.

(** What one turn of the polling loop does, in terms of the two button
    reports at the current tick. *)
Lemma check_simultaneous_press_iteration_run (s : system) :
  let cfg := kconfig s in
  let now := tick_count (env s) in
  let pressed :=
    is_press_down (button_event_at (env s) BUTTON_ID_UP now)
    && is_press_down (button_event_at (env s) BUTTON_ID_DOWN now) in
  exists s',
    check_simultaneous_press_iteration s = Some (tt, s')
    /\ kconfig s' = cfg
    /\ button_event_at (env s') = button_event_at (env s)
    /\ tick_count (env s') = now + pdMS_TO_TICKS cfg 10
    /\ both_pressed (buttons s') = pressed
    /\ press_start_time (buttons s')
       = (if pressed && negb (both_pressed (buttons s)) then u32 now
          else press_start_time (buttons s))
    /\ g_button_event_queue (buttons s')
       = (if negb pressed && both_pressed (buttons s)
             && (u32 (u32 now - press_start_time (buttons s))
                 <? pdMS_TO_TICKS cfg 100)
          then enqueue (g_button_event_queue (buttons s))
                 simultaneous_press_msg
          else g_button_event_queue (buttons s)).
Proof.
  cbv zeta. unfold check_simultaneous_press_iteration; mred.
  destruct (is_press_down
              (button_event_at (env s) BUTTON_ID_UP (tick_count (env s))))
    eqn:Eu;
    destruct (is_press_down
                (button_event_at (env s) BUTTON_ID_DOWN
                   (tick_count (env s)))) eqn:Ed;
    destruct (both_pressed (buttons s)) eqn:Eb; cbn;
    try (eexists; split; [reflexivity|]; cbn; rewrite ?Eb; repeat split;
         fail).
  all: destruct (u32 (u32 (tick_count (env s))
                      - press_start_time (buttons s))
                 <? pdMS_TO_TICKS (kconfig s) 100) eqn:Et;
    try (eexists; split; [reflexivity|]; cbn; repeat split; fail).
  all: destruct (xQueueSend_run simultaneous_press_msg s)
         as (sent & s1 & R & Hq & Hb & Hp & He & Hk);
    rewrite R; eexists; (split; [reflexivity|]); cbn;
    rewrite ?He, ?Hk, ?Hq, ?Hp; repeat split.
Qed.

Section SimultaneousPress.

(** The build, the button reports, the tick [t0] from which both buttons
    report [BUTTON_PRESS_DOWN], the length [H] of the hold in ticks, the
    tick [tau] of the first poll within the hold and the queue [q0] at
    that time. *)
Variable cfg : sdkconfig.
Variable btn : button_id_t -> Z -> button_event_t.
Variables t0 H tau : Z.
Variable q0 : list button_event_msg_t.

Let P := pdMS_TO_TICKS cfg 10.
Let T := pdMS_TO_TICKS cfg 100.

Hypothesis period_positive : 0 < P.
Hypothesis hold_fits : H + P < 4294967296.
Hypothesis held :
  forall t, t0 <= t < t0 + H ->
    is_press_down (btn BUTTON_ID_UP t)
    && is_press_down (btn BUTTON_ID_DOWN t) = true.
Hypothesis released :
  forall t, t0 + H <= t ->
    is_press_down (btn BUTTON_ID_UP t)
    && is_press_down (btn BUTTON_ID_DOWN t) = false.
Hypothesis first_poll : t0 <= tau < t0 + P.
Hypothesis first_poll_held : tau < t0 + H.

Let polling_inv := polling_inv cfg btn t0 H tau q0.

Lemma polling_inv_step (s : system) :
  polling_inv s ->
  exists s',
    check_simultaneous_press_iteration s = Some (tt, s')
    /\ polling_inv s'
    /\ tick_count (env s') = tick_count (env s) + P.
Proof.
  intros (Hk & Hb & Hphase). fold P T in Hphase.
  destruct (check_simultaneous_press_iteration_run s)
    as (s' & R & Hk' & Hb' & Ht' & Hbp & Hst & Hq).
  cbv zeta in *. rewrite Hk in *. rewrite Hb in *. fold P in Ht'.
  fold T in Hq.
  exists s'. split; [exact R|]. split; [|exact Ht'].
  split; [exact Hk'|]. split; [exact Hb'|].
  destruct Hphase as [(Eb & Es & Eq & Hrange)|(Eb & Hrange & d & Hd & Eq)].
  - destruct (Z.lt_ge_cases (tick_count (env s)) (t0 + H)) as [Hin|Hout].
    + left. rewrite held in Hbp, Hst, Hq by lia.
      rewrite Eb in Hst, Hq. cbn in Hst, Hq.
      rewrite Hbp, Hst, Hq, Ht'. repeat split; try assumption; lia.
    + right. rewrite released in Hbp, Hst, Hq by lia.
      rewrite Eb, Es, Eq in Hq. cbn in Hq.
      rewrite u32_sub in Hq by lia.
      rewrite Hbp, Ht'. split; [reflexivity|]. split; [lia|].
      exists (tick_count (env s) - tau). split; [lia|]. exact Hq.
  - right. rewrite released in Hbp, Hst, Hq by lia.
    rewrite Eb in Hq. cbn in Hq.
    rewrite Hbp, Ht'. split; [reflexivity|]. split; [lia|].
    exists d. split; [exact Hd|]. rewrite Hq. exact Eq.
Qed.

Lemma polling_inv_run (n : nat) :
  forall s : system,
    polling_inv s ->
    exists s',
      check_simultaneous_press_task n s = Some (tt, s')
      /\ polling_inv s'
      /\ tick_count (env s') = tick_count (env s) + Z.of_nat n * P.
Proof.
  induction n as [|n IH]; intros s Hinv.
  - exists s. repeat split; try apply Hinv. cbn; lia.
  - destruct (polling_inv_step s Hinv) as (s1 & R1 & Hinv1 & Ht1).
    destruct (IH s1 Hinv1) as (s2 & R2 & Hinv2 & Ht2).
    exists s2. split; [|split; [exact Hinv2|lia]].
    cbn [check_simultaneous_press_task]. mstep R1. exact R2.
Qed.

(** From the first poll within the hold to any poll after the release: the
    task has made one duration test, on a value [d] within one poll period
    of the hold, and the queue gained the event exactly when [d] is below
    the threshold and a slot was free. *)
Lemma polling_measured (s : system) (n : nat) :
  kconfig s = cfg ->
  button_event_at (env s) = btn ->
  both_pressed (buttons s) = false ->
  g_button_event_queue (buttons s) = q0 ->
  tick_count (env s) = tau ->
  t0 + H <= tau + (Z.of_nat n - 1) * P ->
  exists s' d,
    check_simultaneous_press_task n s = Some (tt, s')
    /\ H - P < d < H + P
    /\ g_button_event_queue (buttons s')
       = (if d <? T then enqueue q0 simultaneous_press_msg else q0).
Proof.
  intros Hk Hb Eb Eq Ht Hn.
  destruct n as [|n]; [change (Z.of_nat 0) with 0 in Hn; lia|].
  destruct (check_simultaneous_press_iteration_run s)
    as (s1 & R1 & Hk1 & Hb1 & Ht1 & Hbp & Hst & Hq).
  cbv zeta in *. rewrite Hk, Hb, Ht in *. fold P in Ht1.
  rewrite held in Hbp, Hst, Hq by lia.
  rewrite Eb in Hst, Hq. cbn in Hst, Hq.
  assert (Hinv1 : polling_inv s1).
  { split; [exact Hk1|]. split; [exact Hb1|]. left.
    rewrite Hbp, Hst, Hq, Ht1, Eq. repeat split; lia. }
  destruct (polling_inv_run n s1 Hinv1) as (s2 & R2 & Hinv2 & Ht2).
  destruct Hinv2
    as (_ & _ & [(_ & _ & _ & Hr)|(_ & _ & d & Hd & Hq2)]).
  { fold P in Hr. lia. }
  fold P in Hd. fold T in Hq2.
  exists s2, d. split.
  { cbn [check_simultaneous_press_task]. mstep R1. exact R2. }
  split; [exact Hd|exact Hq2].
Qed.

(** Away from the threshold by a poll period the outcome does not depend on
    where the polls fall: the queue gains the event when it had a free slot
    and the hold is shorter, and is as before when the hold is longer. *)
Lemma polling_outcome (s : system) (n : nat) :
  kconfig s = cfg ->
  button_event_at (env s) = btn ->
  both_pressed (buttons s) = false ->
  g_button_event_queue (buttons s) = q0 ->
  tick_count (env s) = tau ->
  t0 + H <= tau + (Z.of_nat n - 1) * P ->
  exists s',
    check_simultaneous_press_task n s = Some (tt, s')
    /\ (H + P <= T ->
        g_button_event_queue (buttons s')
        = enqueue q0 simultaneous_press_msg)
    /\ (T <= H - P -> g_button_event_queue (buttons s') = q0).
Proof.
  intros Hk Hb Eb Eq Ht Hn.
  destruct (polling_measured s n Hk Hb Eb Eq Ht Hn)
    as (s' & d & R & Hd & Hq).
  exists s'. split; [exact R|].
  rewrite Hq. split; intros Hcmp.
  - assert (E : (d <? T) = true) by (apply Z.ltb_lt; lia).
    rewrite E; reflexivity.
  - assert (E : (d <? T) = false) by (apply Z.ltb_ge; lia).
    rewrite E; reflexivity.
Qed.

End SimultaneousPress.

Lemma pdMS_TO_TICKS_small (cfg : sdkconfig) (ms : Z) :
  0 <= ms <= 1000 -> 0 <= configTICK_RATE_HZ cfg <= 1000 ->
  pdMS_TO_TICKS cfg ms = ms * configTICK_RATE_HZ cfg / 1000.
Proof.
  intros Hms Hr. unfold pdMS_TO_TICKS. apply u32_small.
  split; [apply Z.div_pos; nia|].
  apply Z.div_lt_upper_bound; nia.
Qed.

Lemma is_press_down_true (e : button_event_t) :
  e = BUTTON_PRESS_DOWN -> is_press_down e = true.
Proof. intros ->; reflexivity. Qed.

Lemma is_press_down_false (e : button_event_t) :
  e <> BUTTON_PRESS_DOWN -> is_press_down e = false.
Proof. destruct e; intros H; try reflexivity. contradiction H; reflexivity. Qed.

Lemma held_together_down (t0 h : Z) (id : button_id_t) (t : Z) :
  t0 <= t < t0 + h -> held_together t0 h id t = BUTTON_PRESS_DOWN.
Proof.
  intros H; unfold held_together.
  replace (t0 <=? t) with true by (symmetry; apply Z.leb_le; lia).
  replace (t <? t0 + h) with true by (symmetry; apply Z.ltb_lt; lia).
  reflexivity.
Qed.

Lemma held_together_up (t0 h : Z) (id : button_id_t) (t : Z) :
  t0 + h <= t -> held_together t0 h id t <> BUTTON_PRESS_DOWN.
Proof.
  intros H; unfold held_together.
  replace (t <? t0 + h) with false by (symmetry; apply Z.ltb_ge; lia).
  rewrite andb_false_r.
  destruct (t <? t0); discriminate.
Qed.

Lemma pdMS_TO_TICKS_exact (cfg : sdkconfig) (ms : Z) :
  0 <= ms <= 4000000 -> 0 <= configTICK_RATE_HZ cfg <= 1000 ->
  pdMS_TO_TICKS cfg ms = ms * configTICK_RATE_HZ cfg / 1000.
Proof.
  intros Hms Hr. unfold pdMS_TO_TICKS. apply u32_small.
  split; [apply Z.div_pos; nia|].
  apply Z.div_lt_upper_bound; nia.
Qed.

(** C7, as the code has it.  The kernel ticks at 100 to 1000 Hz and the
    polls run on schedule, one every 10 ms; both buttons report
    [BUTTON_PRESS_DOWN] from tick [t0] for the length of the hold, 10 ms or
    more, and neither does afterwards; the first poll of the hold comes
    within one period of its start and the polls go on past the release.
    The task makes one duration test, on a value [d] that differs from the
    hold by less than one poll period, and the queue gains the simultaneous
    press exactly when [d] is below the threshold of 100 ms and the queue
    has a free slot: the send does not wait, and on a full queue the message
    is dropped.  So after a hold of at most 90 ms, the 50 ms of the claim
    among them, the queue holds exactly one more message provided it had a
    free slot, and after a hold of 110 ms or more, the 500 ms of the claim
    among them, the queue is as it was.  Within one poll period of the
    threshold the outcome depends on where the polls fall. *)
Theorem simultaneous_press_detection (s : system) (t0 hold_ms : Z)
  (n : nat) :
  let cfg := kconfig s in
  let P := pdMS_TO_TICKS cfg 10 in
  let T := pdMS_TO_TICKS cfg 100 in
  let H := pdMS_TO_TICKS cfg hold_ms in
  let q := g_button_event_queue (buttons s) in
  let sent :=
    if (List.length q <? QUEUE_LENGTH)%nat
    then q ++ [simultaneous_press_msg] else q in
  100 <= configTICK_RATE_HZ cfg <= 1000 ->
  10 <= hold_ms <= 4000000 ->
  both_pressed (buttons s) = false ->
  (forall id t, t0 <= t < t0 + H ->
                button_event_at (env s) id t = BUTTON_PRESS_DOWN) ->
  (forall id t, t0 + H <= t ->
                button_event_at (env s) id t <> BUTTON_PRESS_DOWN) ->
  t0 <= tick_count (env s) < t0 + P ->
  t0 + H <= tick_count (env s) + (Z.of_nat n - 1) * P ->
  exists s' d,
    check_simultaneous_press_task n s = Some (tt, s')
    /\ H - P < d < H + P
    /\ g_button_event_queue (buttons s') = (if d <? T then sent else q)
    /\ (hold_ms <= 90 -> g_button_event_queue (buttons s') = sent)
    /\ (110 <= hold_ms -> g_button_event_queue (buttons s') = q).
Proof.
  intros cfg P T H q sent Hrate Hms Hboth Hheld Hrel Hfirst Hlast.
  assert (HP : P = 10 * configTICK_RATE_HZ cfg / 1000)
    by (apply pdMS_TO_TICKS_exact; lia).
  assert (HT : T = 100 * configTICK_RATE_HZ cfg / 1000)
    by (apply pdMS_TO_TICKS_exact; lia).
  assert (HH : H = hold_ms * configTICK_RATE_HZ cfg / 1000)
    by (apply pdMS_TO_TICKS_exact; lia).
  assert (Hbounds : 0 < P /\ P <= H /\ H + P < 4294967296
                    /\ (hold_ms <= 90 -> H + P <= T)
                    /\ (110 <= hold_ms -> T <= H - P)).
  { rewrite HT, HH, HP. clear - Hrate Hms.
    set (r := configTICK_RATE_HZ cfg) in *.
    assert (Hlo : 10 * r <= hold_ms * r) by nia.
    assert (Hhi : hold_ms * r <= 4000000 * r) by nia.
    assert (H90 : hold_ms <= 90 -> hold_ms * r <= 90 * r) by (intros; nia).
    assert (H110 : 110 <= hold_ms -> 110 * r <= hold_ms * r)
      by (intros; nia).
    generalize dependent (hold_ms * r). intros m Hlo Hhi H90 H110.
    do 3 (split; [Z.div_mod_to_equations; lia|]); split; intros E;
      [specialize (H90 E)|specialize (H110 E)];
      Z.div_mod_to_equations; lia. }
  destruct Hbounds as (Hpos & HPH & Hfit & Hshort & Hlong).
  destruct (polling_measured cfg (button_event_at (env s)) t0 H
              (tick_count (env s)) q Hpos Hfit) with (s := s) (n := n)
    as (s' & d & R & Hd & Hq); try reflexivity; try assumption; try lia.
  - intros t Ht. rewrite !is_press_down_true by (apply Hheld; exact Ht).
    reflexivity.
  - intros t Ht. rewrite is_press_down_false by (apply Hrel; exact Ht).
    reflexivity.
  - fold P in Hd. fold T in Hq. change (enqueue q simultaneous_press_msg)
      with sent in Hq.
    exists s', d. split; [exact R|]. split; [exact Hd|].
    split; [exact Hq|]. rewrite Hq. split; intros E.
    + specialize (Hshort E).
      assert (Ed : (d <? T) = true) by (apply Z.ltb_lt; lia).
      rewrite Ed; reflexivity.
    + specialize (Hlong E).
      assert (Ed : (d <? T) = false) by (apply Z.ltb_ge; lia).
      rewrite Ed; reflexivity.
Qed.

Lemma simultaneous_press_detection_witness :
  exists s',
    check_simultaneous_press_task 10 short_hold_queue_empty = Some (tt, s')
    /\ g_button_event_queue (buttons s') = [simultaneous_press_msg].
Proof.
  destruct (simultaneous_press_detection short_hold_queue_empty 0 50 10)
    as (s' & d & R & _ & _ & Hone & _).
  - cbn. lia.
  - lia.
  - reflexivity.
  - intros id t Ht. apply (held_together_down 0 5 id t). exact Ht.
  - intros id t Ht. apply (held_together_up 0 5 id t). exact Ht.
  - vm_compute. split; [discriminate | reflexivity].
  - vm_compute. discriminate.
  - exists s'. split; [exact R|]. apply Hone. lia.
Defined.

(** The hold of 500 ms at work. *)
Lemma long_hold_enqueues_nothing :
  exists s',
    check_simultaneous_press_task 60 long_hold_queue_empty = Some (tt, s')
    /\ g_button_event_queue (buttons s') = [].
Proof. eexists; split; vm_compute; reflexivity. Qed.

(** C7 as stated fails when the queue is full: both buttons are held for
    50 ms and released, the send is attempted with a zero timeout and the
    message is dropped, so no simultaneous press is enqueued. *)
Lemma short_hold_dropped_when_queue_full :
  List.length (g_button_event_queue (buttons short_hold_queue_full))
  = QUEUE_LENGTH
  /\ (forall id t, 0 <= t < 5 ->
        button_event_at (env short_hold_queue_full) id t = BUTTON_PRESS_DOWN)
  /\ (forall id t, 5 <= t ->
        button_event_at (env short_hold_queue_full) id t = BUTTON_PRESS_UP)
  /\ exists s',
       check_simultaneous_press_task 10 short_hold_queue_full = Some (tt, s')
       /\ g_button_event_queue (buttons s')
          = g_button_event_queue (buttons short_hold_queue_full)
       /\ filter is_simultaneous_press (g_button_event_queue (buttons s'))
          = [].
Proof.
  split; [reflexivity|]. split; [|split].
  - intros id t Ht. apply (held_together_down 0 5 id t). exact Ht.
  - intros id t Ht. change (held_together 0 5 id t = BUTTON_PRESS_UP).
    unfold held_together.
    replace (t <? 0 + 5) with false by (symmetry; apply Z.ltb_ge; lia).
    rewrite andb_false_r.
    replace (t <? 0) with false by (symmetry; apply Z.ltb_ge; lia).
    reflexivity.
  - eexists; split; [vm_compute; reflexivity|]. split; reflexivity.
Qed.

(** The threshold is tested on the duration the polls measure, not on the
    hold.  At 250 Hz, with the polls on the even ticks, both buttons held
    from tick 1 for 25 ticks, which is 100 ms and the threshold itself: the
    hold is first seen at tick 2 and the release at tick 26, the measured
    duration is 24 ticks, below the threshold of 25, and the simultaneous
    press is enqueued. *)
Lemma threshold_hold_detected_at_250hz :
  pdMS_TO_TICKS cfg_250hz 10 = 2
  /\ pdMS_TO_TICKS cfg_250hz 100 = 25
  /\ (forall id t, 1 <= t < 1 + 25 ->
        button_event_at (env threshold_hold_250hz) id t = BUTTON_PRESS_DOWN)
  /\ (forall id t, 1 + 25 <= t ->
        button_event_at (env threshold_hold_250hz) id t = BUTTON_PRESS_UP)
  /\ tick_count (env threshold_hold_250hz) = 0
  /\ g_button_event_queue (buttons threshold_hold_250hz) = []
  /\ exists s',
       check_simultaneous_press_task 14 threshold_hold_250hz = Some (tt, s')
       /\ tick_count (env s') = 28
       /\ g_button_event_queue (buttons s') = [simultaneous_press_msg].
Proof.
  split; [reflexivity|]. split; [reflexivity|]. split; [|split].
  - intros id t Ht. apply (held_together_down 1 25 id t). exact Ht.
  - intros id t Ht. change (held_together 1 25 id t = BUTTON_PRESS_UP).
    unfold held_together.
    replace (t <? 1 + 25) with false by (symmetry; apply Z.ltb_ge; lia).
    rewrite andb_false_r.
    replace (t <? 1) with false by (symmetry; apply Z.ltb_ge; lia).
    reflexivity.
  - split; [reflexivity|]. split; [reflexivity|].
    eexists; split; [vm_compute; reflexivity|]. split; reflexivity.
Qed.

(** C7 as stated fails in two ways: on a full queue a hold of 50 ms
    enqueues nothing, and a hold of 100 ms, at the threshold, can enqueue
    the simultaneous press. *)
Lemma simultaneous_press_claim_fails :
  (List.length (g_button_event_queue (buttons short_hold_queue_full))
   = QUEUE_LENGTH
   /\ (forall id t, 0 <= t < 5 ->
         button_event_at (env short_hold_queue_full) id t
         = BUTTON_PRESS_DOWN)
   /\ (forall id t, 5 <= t ->
         button_event_at (env short_hold_queue_full) id t = BUTTON_PRESS_UP)
   /\ exists s',
        check_simultaneous_press_task 10 short_hold_queue_full
        = Some (tt, s')
        /\ filter is_simultaneous_press (g_button_event_queue (buttons s'))
           = [])
  /\ (pdMS_TO_TICKS cfg_250hz 100 = 25
      /\ (forall id t, 1 <= t < 1 + 25 ->
            button_event_at (env threshold_hold_250hz) id t
            = BUTTON_PRESS_DOWN)
      /\ (forall id t, 1 + 25 <= t ->
            button_event_at (env threshold_hold_250hz) id t
            = BUTTON_PRESS_UP)
      /\ exists s',
           check_simultaneous_press_task 14 threshold_hold_250hz
           = Some (tt, s')
           /\ filter is_simultaneous_press
                (g_button_event_queue (buttons s'))
              = [simultaneous_press_msg]).
Proof.
  split.
  - destruct short_hold_dropped_when_queue_full
      as (Hlen & Hdown & Hup & s' & R & _ & Hnone).
    split; [exact Hlen|]. split; [exact Hdown|]. split; [exact Hup|].
    exists s'. split; [exact R|exact Hnone].
  - destruct threshold_hold_detected_at_250hz
      as (_ & HT & Hdown & Hup & _ & _ & s' & R & _ & Hq).
    split; [exact HT|]. split; [exact Hdown|]. split; [exact Hup|].
    exists s'. split; [exact R|]. rewrite Hq. reflexivity.
Qed.

(** ** Position by percentage *)

Lemma min_max_percentage_is_clamp (p : float) :
  min_max_percentage p = clamp_percentage p.
Proof. reflexivity. Qed.

Lemma clamp_percentage_idempotent (p : float) :
  clamp_percentage (clamp_percentage p) = clamp_percentage p.
Proof.
  unfold clamp_percentage.
  destruct (f32_ltb p f32_0) eqn:E0; [reflexivity|].
  destruct (f32_ltb f32_100 p) eqn:E1; [reflexivity|].
  rewrite E0, E1. reflexivity.
Qed.

Lemma clamp_percentage_below (p : float) :
  f32_ltb p f32_0 = true -> clamp_percentage p = f32_0.
Proof. unfold clamp_percentage; intros ->; reflexivity. Qed.

Lemma clamp_percentage_above (p : float) :
  f32_ltb f32_100 p = true -> clamp_percentage p = f32_100.
Proof.
  unfold clamp_percentage; intros H.
  assert (E : f32_ltb p f32_0 = false).
  { destruct p as [s|s| |s m e]; try discriminate H;
      destruct s; try discriminate H; reflexivity. }
  rewrite E, H. reflexivity.
Qed.

Lemma range_exact_12bit :
  forallb (fun n => range_exact (Z.of_nat n)) (seq 0 4096) = true.
Proof. vm_compute. reflexivity. Qed.

Lemma range_exact_upto_4095 (r : Z) :
  0 <= r <= 4095 -> range_exact r = true.
Proof.
  intros H.
  pose proof (proj1 (forallb_forall _ _) range_exact_12bit (Z.to_nat r)) as F.
  cbv beta in F. rewrite Z2Nat.id in F by lia.
  apply F. apply in_seq. lia.
Qed.

(** With bounds inside the 12-bit range of the converter, 0 % targets
    [min_pos] and 100 % targets [max_pos]. *)
Lemma percentage_target_ends (min_pos max_pos : Z) :
  0 <= min_pos -> min_pos <= max_pos -> max_pos <= 4095 ->
  percentage_target min_pos max_pos f32_0 = Some min_pos
  /\ percentage_target min_pos max_pos f32_100 = Some max_pos.
Proof.
  intros H0 H1 H2. unfold percentage_target.
  rewrite (u32_small (max_pos - min_pos)) by lia.
  pose proof (range_exact_upto_4095 (max_pos - min_pos)) as E.
  unfold range_exact in E.
  destruct (u32_of_f32
              (f32_div (f32_mul (f32_of_u32 (max_pos - min_pos)) f32_0)
                 f32_100)) as [a|];
    destruct (u32_of_f32
                (f32_div (f32_mul (f32_of_u32 (max_pos - min_pos)) f32_100)
                   f32_100)) as [b|];
    try (specialize (E ltac:(lia)); discriminate E).
  specialize (E ltac:(lia)). apply andb_true_iff in E.
  destruct E as [Ea Eb]. apply Z.eqb_eq in Ea, Eb. subst a b.
  split; f_equal; rewrite u32_small by lia; lia.
Qed.

Lemma position_sensor_get_percentage_run (s : system) :
  exists (pct : float) (s' : system),
    position_sensor_get_percentage s = Some (pct, s')
    /\ min_position (position_config (sensor s'))
       = min_position (position_config (sensor s))
    /\ max_position (position_config (sensor s'))
       = max_position (position_config (sensor s))
    /\ calibrated (position_config (sensor s'))
       = calibrated (position_config (sensor s)).
Proof.
  unfold position_sensor_get_percentage; mred.
  destruct (calibrated (position_config (sensor s))) eqn:Ec; cbn.
  - destruct (position_sensor_read_run s)
      as (r & s1 & R & Hmin & Hmax & Hc & _).
    rewrite R.
    destruct (r <=? min_position (position_config (sensor s1)));
      [|destruct (r >=? max_position (position_config (sensor s1)))];
      do 2 eexists; (split; [reflexivity|]); rewrite Hc, Ec; auto.
  - do 2 eexists; split; [reflexivity|]. rewrite Ec; auto.
Qed.

(** For any state, calibrated or not, the call with [p] is the call with
    the clamped [p]. *)
Lemma set_position_percentage_clamp_any (p : float) (s : system) :
  controller_set_position_percentage p s
  = controller_set_position_percentage (min_max_percentage p) s.
Proof.
  unfold controller_set_position_percentage.
  change (min_max_percentage p) with (clamp_percentage p).
  rewrite clamp_percentage_idempotent. reflexivity.
Qed.

(** C10, as the code has it: the call behaves as the call with
    [min (max (p, 0), 100)]; and with a calibration inside the 12-bit range
    of the converter, after the two position reads the call moves to
    [min_position] for an input below 0 and to [max_position] for an input
    above 100. *)
Theorem set_position_percentage_clamps (p : float) (s : system) :
  calibrated (position_config (sensor s)) = true ->
  0 <= min_position (position_config (sensor s)) ->
  min_position (position_config (sensor s))
  < max_position (position_config (sensor s)) ->
  max_position (position_config (sensor s)) <= 4095 ->
  controller_set_position_percentage p s
  = controller_set_position_percentage (min_max_percentage p) s
  /\ exists (r : Z) (pct : float) (s1 s2 : system),
       position_sensor_read s = Some (r, s1)
       /\ position_sensor_get_percentage s1 = Some (pct, s2)
       /\ (f32_ltb p f32_0 = true ->
           controller_set_position_percentage p s
           = controller_move_to_position
               (min_position (position_config (sensor s))) s2)
       /\ (f32_ltb f32_100 p = true ->
           controller_set_position_percentage p s
           = controller_move_to_position
               (max_position (position_config (sensor s))) s2).
Proof.
  intros Hcal H0 H1 H2. split.
  - apply set_position_percentage_clamp_any.
  - destruct (position_sensor_read_run s)
      as (r & s1 & R & Hmin & Hmax & Hc & _).
    destruct (position_sensor_get_percentage_run s1)
      as (pct & s2 & G & Gmin & Gmax & Gc).
    exists r, pct, s1, s2. split; [exact R|]. split; [exact G|].
    destruct (percentage_target_ends
                (min_position (position_config (sensor s)))
                (max_position (position_config (sensor s))))
      as (T0 & T100); try lia.
    split; intros Hp; unfold controller_set_position_percentage; mred;
      rewrite Hcal, R, G, Gmin, Gmax, Hmin, Hmax.
    + rewrite (clamp_percentage_below p Hp), T0. reflexivity.
    + rewrite (clamp_percentage_above p Hp), T100. reflexivity.
Qed.

Lemma set_position_percentage_clamps_witness :
  controller_set_position_percentage (f32_of_u32 150)
    (exec (position_sensor_set_calibration 100 3900)
       (boot cfg_plain (env_of (fun _ => 2000) no_press)))
  = controller_set_position_percentage f32_100
      (exec (position_sensor_set_calibration 100 3900)
         (boot cfg_plain (env_of (fun _ => 2000) no_press))).
Proof.
  destruct (set_position_percentage_clamps (f32_of_u32 150)
              (exec (position_sensor_set_calibration 100 3900)
                 (boot cfg_plain (env_of (fun _ => 2000) no_press))))
    as (E & _).
  - reflexivity.
  - vm_compute; discriminate.
  - vm_compute; reflexivity.
  - vm_compute; discriminate.
  - exact E.
Defined.

(** C10 as stated fails for a calibration wider than single precision
    resolves: with the bounds 0 and 33554433 an input of 150 is clamped to
    100, the product [range * 100 / 100] is rounded to 33554432, and that is
    the target, not [max_position]. *)
Lemma percentage_above_100_misses_max :
  eval position_sensor_is_calibrated wide_calibration = Some true
  /\ eval position_sensor_get_max_position wide_calibration = Some 33554433
  /\ f32_ltb f32_100 (f32_of_u32 150) = true
  /\ percentage_target 0 33554433 (clamp_percentage (f32_of_u32 150))
     = Some 33554432
  /\ exists s',
       controller_set_position_percentage (f32_of_u32 150) wide_calibration
       = Some (tt, s')
       /\ current_position (position (g_config (controller s'))) = 33554432
       /\ motor_commands (motor s')
          = [MotorSetDirection MOTOR_DIR_DOWN; MotorSetSpeed 1000;
             MotorStep 33553232].
Proof.
  do 4 (split; [vm_compute; reflexivity|]).
  eexists; split; [vm_compute; reflexivity|]. split; reflexivity.
Qed.

(** * Further properties *)

(** ** Rules for [wp] *)

Lemma wp_ret {A} (a : A) (Q : A -> system -> Prop) (s : system) :
  Q a s -> wp (ret a) Q s.
Proof. intros H; exists a, s; split; [reflexivity|exact H]. Qed.

Lemma wp_gets {A} (f : system -> A) (Q : A -> system -> Prop) (s : system) :
  Q (f s) s -> wp (gets f) Q s.
Proof. intros H; exists (f s), s; split; [reflexivity|exact H]. Qed.

Lemma wp_modify (f : system -> system) (Q : unit -> system -> Prop)
  (s : system) :
  Q tt (f s) -> wp (modify f) Q s.
Proof. intros H; exists tt, (f s); split; [reflexivity|exact H]. Qed.

Lemma wp_bind {A B} (m : M A) (f : A -> M B) (Q : B -> system -> Prop)
  (s : system) :
  wp m (fun a s' => wp (f a) Q s') s -> wp (bind m f) Q s.
Proof.
  intros (a & s1 & R & (b & s2 & R2 & H)).
  exists b, s2; split; [|exact H]. unfold bind; rewrite R; exact R2.
Qed.

Lemma wp_conseq {A} (m : M A) (Q Q' : A -> system -> Prop) (s : system) :
  wp m Q' s -> (forall a s', Q' a s' -> Q a s') -> wp m Q s.
Proof.
  intros (a & s' & R & H) Himp. exists a, s'; split; [exact R|].
  apply Himp, H.
Qed.

(** Simplification of projections out of updated records. *)
Ltac psimpl :=
  cbn [CONFIG_ZEBRA_BLINDS_SUPPORT CONFIG_MOTOR_DEFAULT_SPEED
    POSITION_SENSOR_STABILIZATION_MS configTICK_RATE_HZ min_position
    max_position current_position calibrated position_config
    sensor_initialized current_calibration_step calibration_upper_position
    calibration_lower_position calibration_zebra_offset
    calibration_zebra_enabled filter_buffer filter_index state
    auto_calibrate position g_config g_button_held g_calibration_callback
    g_boundary_check_task last_direction_up calibration_log event button_id
    g_user_callback g_button_event_queue both_pressed press_start_time
    motor_moving motor_commands nvs_upper_position nvs_lower_position
    nvs_zebra_offset nvs_zebra_enabled adc_raw adc_reads tick_count
    sensor_power nvs_ready nvs_position_sensor button_event_at kconfig env
    motor sensor controller buttons set_env set_motor set_sensor
    set_controller set_buttons with_position_config with_sensor_initialized
    with_calibration_step with_upper_position with_lower_position
    with_zebra_offset with_zebra_enabled with_filter with_current_position
    with_g_config with_state with_auto_calibrate with_position
    with_button_held with_calibration_callback with_boundary_check_task
    with_last_direction_up with_calibration_log with_user_callback
    with_queue with_both_pressed with_press_start_time with_tick_count
    with_adc_reads with_sensor_power with_nvs motor_issue
    state_eqb negb andb orb fst snd] in *.

(** The primitives that are a single read or a single update. *)
Ltac wp_prim :=
  unfold get_state, set_state, log_calibration_step, controller_get_state,
    controller_is_moving, motor_is_moving, motor_stop, motor_step,
    motor_set_speed, motor_set_direction, motor_control_init,
    position_sensor_is_calibrated, position_sensor_get_zebra_offset,
    position_sensor_get_min_position, position_sensor_get_max_position,
    vTaskDelay, xTaskGetTickCount, gpio_set_level_power,
    iot_button_get_event, nvs_open_readonly, position_sensor_power_off.

(** One step of symbolic execution. *)
Ltac wp_step :=
  lazymatch goal with
  | |- wp (bind _ _) _ _ => apply wp_bind
  | |- wp (ret _) _ _ => apply wp_ret
  | |- wp (gets _) _ _ => apply wp_gets
  | |- wp (modify _) _ _ => apply wp_modify
  | |- wp (if ?b then _ else _) _ _ => destruct b eqn:?
  | |- wp (match ?x with _ => _ end) _ _ => destruct x eqn:?
  end; cbv beta; psimpl.

Ltac wp_run := repeat (wp_prim; wp_step).

(** ** The position reader in full *)

Lemma array_set_length (l : list Z) (i : nat) (v : Z) :
  List.length (array_set l i v) = List.length l.
Proof.
  revert i; induction l as [|h t IH]; intros [|i]; cbn; congruence.
Qed.

Lemma next_filter_index_range (idx : Z) : 0 <= u8 ((idx + 1) mod 5) < 5.
Proof.
  unfold u8. pose proof (Z.mod_pos_bound (idx + 1) 5 ltac:(lia)) as H.
  rewrite Z.mod_small by lia. exact H.
Qed.

(** Everything one call of [position_sensor_read] does. *)
Lemma position_sensor_read_effect (s : system) :
  wp position_sensor_read
    (fun r s' =>
       controller s' = controller s
       /\ motor s' = motor s
       /\ kconfig s' = kconfig s
       /\ buttons s' = buttons s
       /\ min_position (position_config (sensor s'))
          = min_position (position_config (sensor s))
       /\ max_position (position_config (sensor s'))
          = max_position (position_config (sensor s))
       /\ calibrated (position_config (sensor s'))
          = calibrated (position_config (sensor s))
       /\ sensor_initialized (sensor s') = sensor_initialized (sensor s)
       /\ current_calibration_step (sensor s')
          = current_calibration_step (sensor s)
       /\ calibration_upper_position (sensor s')
          = calibration_upper_position (sensor s)
       /\ calibration_lower_position (sensor s')
          = calibration_lower_position (sensor s)
       /\ calibration_zebra_offset (sensor s')
          = calibration_zebra_offset (sensor s)
       /\ calibration_zebra_enabled (sensor s')
          = calibration_zebra_enabled (sensor s)
       /\ nvs_position_sensor (env s') = nvs_position_sensor (env s)
       /\ nvs_ready (env s') = nvs_ready (env s)
       /\ adc_raw (env s') = adc_raw (env s)
       /\ button_event_at (env s') = button_event_at (env s)
       /\ (if sensor_initialized (sensor s)
           then
             tick_count (env s')
             = tick_count (env s)
               + pdMS_TO_TICKS (kconfig s)
                   (POSITION_SENSOR_STABILIZATION_MS (kconfig s))
             /\ adc_reads (env s') = S (adc_reads (env s))
             /\ current_position (position_config (sensor s')) = r
             /\ (if adc_raw (env s) (adc_reads (env s)) <? 0
                 then
                   r = current_position (position_config (sensor s))
                   /\ filter_buffer (sensor s') = filter_buffer (sensor s)
                   /\ filter_index (sensor s') = filter_index (sensor s)
                 else
                   filter_buffer (sensor s')
                   = array_set (filter_buffer (sensor s))
                       (Z.to_nat (filter_index (sensor s)))
                       (u32 (adc_raw (env s) (adc_reads (env s))))
                   /\ filter_index (sensor s')
                      = u8 ((filter_index (sensor s) + 1) mod 5)
                   /\ r = clamp_position (position_config (sensor s))
                            (filter_sum (filter_buffer (sensor s')) / 5))
           else r = 0 /\ s' = s))
    s.
Proof.
  unfold wp, position_sensor_read, position_sensor_power_on,
    position_sensor_power_off; mred.
  destruct (sensor_initialized (sensor s)) eqn:Ei; cbn.
  - destruct (adc_raw (env s) (adc_reads (env s)) <? 0) eqn:Er;
      do 2 eexists; (split; [reflexivity|]); cbn; rewrite Ei, ?Er;
      repeat (split; [reflexivity|]); repeat split.
  - do 2 eexists; (split; [reflexivity|]); cbn; rewrite Ei.
    repeat (split; [reflexivity|]); repeat split.
Qed.

(** ** Every use of the position reader keeps it in order *)

Lemma read_keeps_sensor_ok (s : system) :
  sensor_ok s -> wp position_sensor_read (fun _ s' => sensor_ok s') s.
Proof.
  intros (Hc & Hlen & Hidx).
  eapply wp_conseq; [apply position_sensor_read_effect|].
  intros r s' (_ & _ & _ & _ & Hmin & Hmax & Hcal & _ & _ & _ & _ & _ & _
                 & _ & _ & _ & _ & Hcase).
  split.
  - unfold calibration_consistent in *. rewrite Hmin, Hmax, Hcal. exact Hc.
  - unfold filter_ok.
    destruct (sensor_initialized (sensor s)).
    + destruct Hcase as (_ & _ & _ & Hcase).
      destruct (adc_raw (env s) (adc_reads (env s)) <? 0).
      * destruct Hcase as (_ & -> & ->). split; assumption.
      * destruct Hcase as (-> & -> & _). rewrite array_set_length.
        split; [exact Hlen|apply next_filter_index_range].
    + destruct Hcase as (_ & ->). split; assumption.
Qed.

Lemma set_calibration_keeps_sensor_ok (min_pos max_pos : Z) (s : system) :
  sensor_ok s ->
  wp (position_sensor_set_calibration min_pos max_pos)
     (fun _ s' => sensor_ok s') s.
Proof.
  intros (Hc & Hf). unfold position_sensor_set_calibration.
  destruct (min_pos >=? max_pos) eqn:E; wp_run.
  - split; assumption.
  - split; [|exact Hf]. intros _. cbn.
    rewrite Z.geb_leb in E. apply Z.leb_gt in E. exact E.
Qed.

Lemma read_accumulate_keeps_sensor_ok (n : nat) :
  forall (acc : Z) (s : system),
    sensor_ok s ->
    wp (read_accumulate n acc) (fun _ s' => sensor_ok s') s.
Proof.
  induction n as [|n IH]; intros acc s Hok; cbn [read_accumulate].
  - wp_run. exact Hok.
  - apply wp_bind. eapply wp_conseq; [apply read_keeps_sensor_ok, Hok|].
    intros v s1 Hok1. cbv beta. wp_run. apply IH. exact Hok1.
Qed.

Lemma sensor_op_keeps_sensor_ok (op : sensor_op) (s : system) :
  sensor_ok s -> wp (run_sensor_op op) (fun _ s' => sensor_ok s') s.
Proof.
  intros Hok. pose proof Hok as (Hc & Hf).
  destruct op; cbn [run_sensor_op].
  - unfold position_sensor_init. wp_run.
    split; [|exact Hf]. intros H; discriminate H.
  - apply wp_bind. eapply wp_conseq; [apply read_keeps_sensor_ok, Hok|].
    intros; cbv beta. wp_run. assumption.
  - apply set_calibration_keeps_sensor_ok, Hok.
  - unfold position_sensor_calibrate_start. wp_run.
    eapply wp_conseq; [apply read_accumulate_keeps_sensor_ok|].
    { split; assumption. }
    intros v1 s1 Hok1; cbv beta. wp_run.
    eapply wp_conseq; [apply read_accumulate_keeps_sensor_ok|].
    { destruct Hok1; split; assumption. }
    intros v2 s2 Hok2; cbv beta.
    apply set_calibration_keeps_sensor_ok, Hok2.
  - apply wp_bind. unfold position_sensor_get_percentage. wp_run;
      try (split; assumption).
    eapply wp_conseq; [apply read_keeps_sensor_ok, Hok|].
    intros r s1 Hok1; cbv beta. wp_run; assumption.
  - apply wp_bind. unfold position_sensor_start_calibration. wp_run;
      split; assumption.
  - apply wp_bind. unfold position_sensor_next_calibration_step. wp_run;
      split; assumption.
  - unfold position_sensor_save_calibration_step. wp_run;
      try (split; assumption).
    + apply set_calibration_keeps_sensor_ok. split; assumption.
    + unfold position_sensor_save_calibration_data. wp_run;
        split; assumption.
Qed.

Lemma power_on_sensor_ok (cfg : sdkconfig) (e : env_t) :
  sensor_ok (power_on cfg e).
Proof.
  split; [intros H; discriminate H|].
  split; [reflexivity|cbn; lia].
Qed.

Lemma sensor_ops_keep_sensor_ok (ops : list sensor_op) :
  forall s : system,
    sensor_ok s -> wp (run_sensor_ops ops) (fun _ s' => sensor_ok s') s.
Proof.
  induction ops as [|op ops IH]; intros s Hok; cbn [run_sensor_ops].
  - apply wp_ret, Hok.
  - apply wp_bind.
    eapply wp_conseq; [apply sensor_op_keeps_sensor_ok, Hok|].
    intros [] s1 Hok1. apply IH, Hok1.
Qed.

(** Whatever entry points of the position reader are called after power-on,
    in whatever order and with whatever arguments and samples, every call
    returns and the bounds are ordered whenever the calibrated flag is
    set. *)
Theorem sensor_calibration_always_ordered (cfg : sdkconfig) (e : env_t)
  (ops : list sensor_op) :
  exists s',
    run_sensor_ops ops (power_on cfg e) = Some (tt, s')
    /\ (calibrated (position_config (sensor s')) = true ->
        min_position (position_config (sensor s'))
        < max_position (position_config (sensor s'))).
Proof.
  destruct (sensor_ops_keep_sensor_ok ops (power_on cfg e)
              (power_on_sensor_ok cfg e))
    as ([] & s' & R & Hc & _).
  exists s'. split; [exact R|exact Hc].
Qed.

Lemma sensor_calibration_always_ordered_witness :
  exists s',
    run_sensor_ops [OpInit; OpSetCalibration 200 3000; OpRead;
                    OpSetCalibration 3000 200]
      (power_on cfg_plain (env_of (fun _ => 2000) no_press))
    = Some (tt, s')
    /\ min_position (position_config (sensor s'))
       < max_position (position_config (sensor s')).
Proof.
  destruct (sensor_calibration_always_ordered cfg_plain
              (env_of (fun _ => 2000) no_press)
              [OpInit; OpSetCalibration 200 3000; OpRead;
               OpSetCalibration 3000 200])
    as (s' & R & H).
  exists s'. split; [exact R|]. apply H.
  vm_compute in R. injection R as <-. reflexivity.
Defined.

(** Under the same uses the write index of the smoothing buffer always
    points at one of its five slots. *)
Theorem filter_index_always_in_range (cfg : sdkconfig) (e : env_t)
  (ops : list sensor_op) :
  exists s',
    run_sensor_ops ops (power_on cfg e) = Some (tt, s')
    /\ List.length (filter_buffer (sensor s')) = 5%nat
    /\ 0 <= filter_index (sensor s') < 5.
Proof.
  destruct (sensor_ops_keep_sensor_ok ops (power_on cfg e)
              (power_on_sensor_ok cfg e))
    as ([] & s' & R & _ & Hf).
  exists s'. split; [exact R|exact Hf].
Qed.

(** ** The smoothing filter *)

Lemma clamp_position_ext (c c' : position_config_t) (v : Z) :
  min_position c' = min_position c -> max_position c' = max_position c ->
  clamp_position c' v = clamp_position c v.
Proof. unfold clamp_position; intros -> ->; reflexivity. Qed.

Lemma next_samples_S (s s' : system) (n : nat) :
  adc_raw (env s') = adc_raw (env s) ->
  adc_reads (env s') = S (adc_reads (env s)) ->
  next_samples s (S n)
  = adc_raw (env s) (adc_reads (env s)) :: next_samples s' n.
Proof.
  intros Hraw Hn. unfold next_samples. cbn [seq map].
  rewrite Nat.add_0_r. f_equal.
  rewrite <- seq_shift, map_map. apply map_ext. intros i.
  rewrite Hraw, Hn. f_equal. lia.
Qed.

(** With valid samples the reads return what the filter computes. *)
Lemma read_many_smooth (n : nat) :
  forall s : system,
    sensor_initialized (sensor s) = true ->
    Forall (fun x => 0 <= x) (next_samples s n) ->
    exists s',
      read_many n s
      = Some (smooth (position_config (sensor s))
                (filter_buffer (sensor s), filter_index (sensor s))
                (next_samples s n), s').
Proof.
  induction n as [|n IH]; intros s Hi Hvalid.
  - exists s. reflexivity.
  - destruct (position_sensor_read_effect s)
      as (r & s1 & R & _ & _ & _ & _ & Hmin & Hmax & _ & Hi1 & _ & _ & _ & _
            & _ & _ & _ & Hraw & _ & Hcase).
    rewrite Hi in Hcase. destruct Hcase as (_ & Hn & _ & Hcase).
    rewrite (next_samples_S s s1 n Hraw Hn) in Hvalid |- *.
    inversion Hvalid as [|x l Hx Hrest]; subst x l.
    apply Z.ltb_ge in Hx. rewrite Hx in Hcase.
    destruct Hcase as (Hbuf & Hidx & Hr).
    destruct (IH s1 ltac:(congruence) Hrest) as (s2 & R2).
    exists s2. cbn [read_many smooth]. mstep R. mstep R2.
    unfold ret, filter_push. cbn [fst snd].
    rewrite <- Hbuf, <- Hidx, <- Hr.
    do 3 f_equal.
    generalize (filter_buffer (sensor s1), filter_index (sensor s1)).
    generalize (next_samples s1 n).
    induction l as [|x l IHl]; intros f; [reflexivity|].
    cbn [smooth]. rewrite (clamp_position_ext _ _ _ Hmin Hmax).
    f_equal. apply IHl.
Qed.

Lemma u32_nonneg (z : Z) : 0 <= u32 z.
Proof. unfold u32. apply Z.mod_pos_bound. lia. Qed.

(** Five stores overwrite all five slots, wherever the index starts. *)
Lemma five_pushes_sum (b0 b1 b2 b3 b4 idx x0 x1 x2 x3 x4 : Z) :
  0 <= idx < 5 ->
  0 <= x0 -> 0 <= x1 -> 0 <= x2 -> 0 <= x3 -> 0 <= x4 ->
  x0 + x1 + x2 + x3 + x4 < 4294967296 ->
  filter_sum
    (fst (filter_push
            (filter_push
               (filter_push
                  (filter_push
                     (filter_push ([b0; b1; b2; b3; b4], idx) x0) x1) x2)
               x3) x4))
  = x0 + x1 + x2 + x3 + x4.
Proof.
  intros Hidx H0 H1 H2 H3 H4 Hsum.
  assert (Hcases : idx = 0 \/ idx = 1 \/ idx = 2 \/ idx = 3 \/ idx = 4)
    by lia.
  unfold filter_push; cbn [fst snd].
  change (u8 ((4 + 1) mod 5)) with 0.
  destruct Hcases as [-> | [-> | [-> | [-> | ->]]]];
    repeat first [ change (u8 ((0 + 1) mod 5)) with 1
                 | change (u8 ((1 + 1) mod 5)) with 2
                 | change (u8 ((2 + 1) mod 5)) with 3
                 | change (u8 ((3 + 1) mod 5)) with 4
                 | change (u8 ((4 + 1) mod 5)) with 0 ];
    simpl; unfold filter_sum; simpl;
    repeat match goal with
           | |- context [u32 ?z] => rewrite (u32_small z) by lia
           end; lia.
Qed.

Ltac u32_clean :=
  repeat match goal with
         | |- context [u32 ?z] => rewrite (u32_small z) by lia
         end.

(** After five valid samples in a row the value returned is the mean of
    these five samples, clamped to the bounds, whatever the buffer held
    before and wherever the write index stood. *)
Theorem fifth_read_is_mean_of_last_five (s : system)
  (x0 x1 x2 x3 x4 : Z) :
  sensor_initialized (sensor s) = true ->
  filter_ok (sensor s) ->
  next_samples s 5 = [x0; x1; x2; x3; x4] ->
  0 <= x0 -> 0 <= x1 -> 0 <= x2 -> 0 <= x3 -> 0 <= x4 ->
  x0 + x1 + x2 + x3 + x4 < 4294967296 ->
  exists v1 v2 v3 v4 s',
    read_many 5 s
    = Some ([v1; v2; v3; v4;
             clamp_position (position_config (sensor s))
               ((x0 + x1 + x2 + x3 + x4) / 5)], s').
Proof.
  intros Hi (Hlen & Hidx) Hs H0 H1 H2 H3 H4 Hsum.
  destruct (read_many_smooth 5 s Hi) as (s' & R).
  { rewrite Hs. repeat constructor; assumption. }
  rewrite Hs in R.
  destruct (filter_buffer (sensor s)) as [|b0 [|b1 [|b2 [|b3 [|b4 [|b5 l]]]]]];
    try discriminate Hlen.
  cbn [smooth] in R.
  rewrite (u32_small x0), (u32_small x1), (u32_small x2), (u32_small x3),
    (u32_small x4) in R by lia.
  rewrite (five_pushes_sum b0 b1 b2 b3 b4 (filter_index (sensor s))
             x0 x1 x2 x3 x4) in R by assumption.
  do 4 eexists. exists s'. exact R.
Qed.

Lemma fifth_read_is_mean_of_last_five_witness :
  exists v1 v2 v3 v4 s',
    read_many 5 near_bottom
    = Some ([v1; v2; v3; v4;
             clamp_position (position_config (sensor near_bottom))
               ((3850 + 3850 + 3850 + 3850 + 3850) / 5)], s').
Proof.
  apply (fifth_read_is_mean_of_last_five near_bottom
           3850 3850 3850 3850 3850);
    try reflexivity; try lia.
  split; [reflexivity|]. vm_compute. split; [discriminate|reflexivity].
Defined.

(** The first five reads after start-up are pulled toward zero: the buffer
    starts empty, so the read number k returns the sum of the first k
    samples divided by five, clamped to the default bounds. *)
Theorem reads_after_boot_warm_up (cfg : sdkconfig) (e : env_t)
  (x0 x1 x2 x3 x4 : Z) :
  next_samples (boot cfg e) 5 = [x0; x1; x2; x3; x4] ->
  0 <= x0 -> 0 <= x1 -> 0 <= x2 -> 0 <= x3 -> 0 <= x4 ->
  x0 + x1 + x2 + x3 + x4 < 4294967296 ->
  exists s',
    read_many 5 (boot cfg e)
    = Some (map (fun t => clamp_position
                            (position_config (sensor (boot cfg e))) (t / 5))
              [x0; x0 + x1; x0 + x1 + x2; x0 + x1 + x2 + x3;
               x0 + x1 + x2 + x3 + x4], s')
    /\ min_position (position_config (sensor (boot cfg e))) = 100
    /\ max_position (position_config (sensor (boot cfg e))) = 3900.
Proof.
  intros Hs H0 H1 H2 H3 H4 Hsum.
  destruct (read_many_smooth 5 (boot cfg e) eq_refl) as (s' & R).
  { rewrite Hs. repeat constructor; assumption. }
  rewrite Hs in R. exists s'. split; [|split; reflexivity].
  rewrite R. do 2 f_equal.
  change (filter_buffer (sensor (boot cfg e))) with [0; 0; 0; 0; 0].
  change (filter_index (sensor (boot cfg e))) with 0.
  generalize (position_config (sensor (boot cfg e))). intros c.
  cbn [smooth map]. unfold filter_push; cbn [fst snd].
  rewrite (u32_small x0), (u32_small x1), (u32_small x2), (u32_small x3),
    (u32_small x4) by lia.
  change (u8 ((0 + 1) mod 5)) with 1.
  change (u8 ((1 + 1) mod 5)) with 2.
  change (u8 ((2 + 1) mod 5)) with 3.
  change (u8 ((3 + 1) mod 5)) with 4.
  simpl. unfold filter_sum. simpl. u32_clean.
  repeat (f_equal; try (f_equal; lia)).
Qed.

Lemma reads_after_boot_warm_up_witness :
  exists s',
    read_many 5 (boot cfg_plain (env_of (fun _ => 2000) no_press))
    = Some ([400; 800; 1200; 1600; 2000], s').
Proof.
  destruct (reads_after_boot_warm_up cfg_plain
              (env_of (fun _ => 2000) no_press) 2000 2000 2000 2000 2000)
    as (s' & R & _); try reflexivity; try lia.
  exists s'. exact R.
Defined.

(** ** Automatic calibration *)

(** A read of an initialised sensor whose cached position lies within the
    ordered bounds returns a value within the bounds. *)
Lemma read_in_range (s : system) :
  sensor_initialized (sensor s) = true ->
  min_position (position_config (sensor s))
  <= max_position (position_config (sensor s)) ->
  in_bounds (position_config (sensor s))
    (current_position (position_config (sensor s))) ->
  wp position_sensor_read
    (fun r s' =>
       in_bounds (position_config (sensor s)) r
       /\ sensor_initialized (sensor s') = true
       /\ min_position (position_config (sensor s'))
          = min_position (position_config (sensor s))
       /\ max_position (position_config (sensor s'))
          = max_position (position_config (sensor s))
       /\ calibrated (position_config (sensor s'))
          = calibrated (position_config (sensor s))
       /\ current_position (position_config (sensor s')) = r
       /\ kconfig s' = kconfig s
       /\ tick_count (env s')
          = tick_count (env s)
            + pdMS_TO_TICKS (kconfig s)
                (POSITION_SENSOR_STABILIZATION_MS (kconfig s)))
    s.
Proof.
  intros Hi Hle Hcache.
  eapply wp_conseq; [apply position_sensor_read_effect|].
  intros r s' (_ & _ & Hk & _ & Hmin & Hmax & Hcal & Hi' & _ & _ & _ & _ & _
                 & _ & _ & _ & _ & Hcase).
  rewrite Hi in Hcase. destruct Hcase as (Ht & _ & Hc & Hcase).
  assert (Hr : in_bounds (position_config (sensor s)) r).
  { destruct (adc_raw (env s) (adc_reads (env s)) <? 0).
    - destruct Hcase as (-> & _). exact Hcache.
    - destruct Hcase as (_ & _ & ->).
      apply clamp_position_in_bounds, Hle. }
  repeat (split; [assumption || congruence|]). exact Ht.
Qed.

Lemma read_accumulate_in_range (n : nat) :
  forall (acc : Z) (s : system),
    sensor_initialized (sensor s) = true ->
    0 <= min_position (position_config (sensor s)) ->
    min_position (position_config (sensor s))
    <= max_position (position_config (sensor s)) ->
    in_bounds (position_config (sensor s))
      (current_position (position_config (sensor s))) ->
    0 <= acc ->
    acc + Z.of_nat n * max_position (position_config (sensor s))
    < 4294967296 ->
    wp (read_accumulate n acc)
      (fun sum s' =>
         acc + Z.of_nat n * min_position (position_config (sensor s)) <= sum
         /\ sum
            <= acc + Z.of_nat n * max_position (position_config (sensor s))
         /\ sensor_initialized (sensor s') = true
         /\ min_position (position_config (sensor s'))
            = min_position (position_config (sensor s))
         /\ max_position (position_config (sensor s'))
            = max_position (position_config (sensor s))
         /\ calibrated (position_config (sensor s'))
            = calibrated (position_config (sensor s))
         /\ in_bounds (position_config (sensor s))
              (current_position (position_config (sensor s')))
         /\ kconfig s' = kconfig s
         /\ tick_count (env s')
            = tick_count (env s)
              + Z.of_nat n
                * (pdMS_TO_TICKS (kconfig s)
                     (POSITION_SENSOR_STABILIZATION_MS (kconfig s))
                   + pdMS_TO_TICKS (kconfig s) 100))
      s.
Proof.
  induction n as [|n IH]; intros acc s Hi H0 Hle Hcache Hacc Hfit;
    cbn [read_accumulate].
  - wp_run. change (Z.of_nat 0) with 0.
    repeat split; try reflexivity; try assumption; try lia; apply Hcache.
  - apply wp_bind.
    eapply wp_conseq; [apply (read_in_range s Hi Hle Hcache)|].
    intros v s1 (Hv & Hi1 & Hmin & Hmax & Hcal & Hc & Hk & Ht). cbv beta.
    wp_run.
    unfold in_bounds in Hv, Hcache.
    rewrite Nat2Z.inj_succ in Hfit.
    assert (Hprod : 0 <= Z.of_nat n
                         * max_position (position_config (sensor s)))
      by (apply Z.mul_nonneg_nonneg; lia).
    assert (Hprod' : 0 <= Z.of_nat n
                          * min_position (position_config (sensor s)))
      by (apply Z.mul_nonneg_nonneg; lia).
    eapply wp_conseq.
    { apply IH; psimpl; rewrite ?Hmin, ?Hmax, ?Hc;
        try assumption; try (unfold in_bounds; rewrite Hmin, Hmax; lia);
        try apply u32_nonneg.
      rewrite u32_small by lia. lia. }
    intros sum s2 (Hlo & Hhi & Hi2 & Hmin2 & Hmax2 & Hcal2 & Hc2 & Hk2 & Ht2).
    psimpl. rewrite u32_small in Hlo, Hhi by lia.
    rewrite Hmin, Hmax in *. rewrite Nat2Z.inj_succ.
    unfold in_bounds in *. rewrite Hmin, Hmax in Hc2.
    repeat split; try congruence; try lia.
    rewrite Ht2. psimpl. rewrite Ht, Hk. lia.
Qed.

(** The automatic calibration can only narrow the range.  Its two means are
    taken from reads that are clamped to the bounds in force, so the new
    bounds lie within the old ones; when the first mean is not below the
    second the old bounds stay.  The call blocks for two waits of 5 s and
    twenty reads 100 ms apart. *)
Theorem calibrate_start_only_narrows (s : system) :
  sensor_initialized (sensor s) = true ->
  0 <= min_position (position_config (sensor s)) ->
  min_position (position_config (sensor s))
  <= max_position (position_config (sensor s)) ->
  10 * max_position (position_config (sensor s)) < 4294967296 ->
  in_bounds (position_config (sensor s))
    (current_position (position_config (sensor s))) ->
  exists s',
    position_sensor_calibrate_start s = Some (tt, s')
    /\ min_position (position_config (sensor s))
       <= min_position (position_config (sensor s'))
    /\ max_position (position_config (sensor s'))
       <= max_position (position_config (sensor s))
    /\ (calibrated (position_config (sensor s')) = true
        \/ calibrated (position_config (sensor s'))
           = calibrated (position_config (sensor s)))
    /\ tick_count (env s')
       = tick_count (env s)
         + 2 * pdMS_TO_TICKS (kconfig s) 5000
         + 20 * (pdMS_TO_TICKS (kconfig s)
                   (POSITION_SENSOR_STABILIZATION_MS (kconfig s))
                 + pdMS_TO_TICKS (kconfig s) 100).
Proof.
  intros Hi H0 Hle Hfit Hcache.
  cut (wp position_sensor_calibrate_start
         (fun _ s' =>
            min_position (position_config (sensor s))
            <= min_position (position_config (sensor s'))
            /\ max_position (position_config (sensor s'))
               <= max_position (position_config (sensor s))
            /\ (calibrated (position_config (sensor s')) = true
                \/ calibrated (position_config (sensor s'))
                   = calibrated (position_config (sensor s)))
            /\ tick_count (env s')
               = tick_count (env s)
                 + 2 * pdMS_TO_TICKS (kconfig s) 5000
                 + 20 * (pdMS_TO_TICKS (kconfig s)
                           (POSITION_SENSOR_STABILIZATION_MS (kconfig s))
                         + pdMS_TO_TICKS (kconfig s) 100))
         s).
  { intros ([] & s' & R & H). exists s'. split; [exact R|exact H]. }
  unfold position_sensor_calibrate_start. wp_run.
  eapply wp_conseq.
  { apply read_accumulate_in_range; psimpl; try assumption; lia. }
  intros sum1 s1 (Hlo1 & Hhi1 & Hi1 & Hmin1 & Hmax1 & Hcal1 & Hc1 & Hk1 & Ht1).
  psimpl. wp_run.
  eapply wp_conseq.
  { apply read_accumulate_in_range; psimpl; rewrite ?Hmin1, ?Hmax1;
      try assumption; try lia.
    unfold in_bounds in *. rewrite Hmin1, Hmax1. exact Hc1. }
  intros sum2 s2 (Hlo2 & Hhi2 & Hi2 & Hmin2 & Hmax2 & Hcal2 & Hc2 & Hk2 & Ht2).
  psimpl. rewrite Hmin1, Hmax1 in *.
  change (Z.of_nat 10) with 10 in *.
  assert (Hmean1 : min_position (position_config (sensor s)) <= sum1 / 10
                   <= max_position (position_config (sensor s))).
  { split; [apply Z.div_le_lower_bound|apply Z.div_le_upper_bound]; lia. }
  assert (Hmean2 : min_position (position_config (sensor s)) <= sum2 / 10
                   <= max_position (position_config (sensor s))).
  { split; [apply Z.div_le_lower_bound|apply Z.div_le_upper_bound]; lia. }
  assert (Htick : tick_count (env s2)
                  = tick_count (env s)
                    + 2 * pdMS_TO_TICKS (kconfig s) 5000
                    + 20 * (pdMS_TO_TICKS (kconfig s)
                              (POSITION_SENSOR_STABILIZATION_MS (kconfig s))
                            + pdMS_TO_TICKS (kconfig s) 100)).
  { rewrite Ht2. psimpl. rewrite Ht1. psimpl. rewrite Hk1. lia. }
  unfold position_sensor_set_calibration.
  destruct (sum1 / 10 >=? sum2 / 10) eqn:E; wp_run.
  - rewrite Hmin2, Hmax2, Hcal2, Hcal1.
    repeat split; try lia; try (right; reflexivity).
  - repeat split; try lia; try (left; reflexivity).
Qed.

Lemma calibrate_start_only_narrows_witness :
  exists s',
    position_sensor_calibrate_start
      (exec position_sensor_read
         (boot cfg_plain
            (env_of (fun n => if (n <? 11)%nat then 3000 else 9000)
               no_press)))
    = Some (tt, s')
    /\ 100 <= min_position (position_config (sensor s'))
    /\ max_position (position_config (sensor s')) <= 3900.
Proof.
  edestruct (calibrate_start_only_narrows
               (exec position_sensor_read
                  (boot cfg_plain
                     (env_of (fun n => if (n <? 11)%nat then 3000 else 9000)
                        no_press))))
    as (s' & R & Hmin & Hmax & _).
  - reflexivity.
  - vm_compute; discriminate.
  - vm_compute; discriminate.
  - vm_compute; reflexivity.
  - unfold in_bounds. vm_compute. split; discriminate.
  - exists s'. split; [exact R|]. split; [exact Hmin|exact Hmax].
Defined.

(** ** Guided calibration at the position reader *)

(** The guided calibration run through the position reader, capture after
    capture, always ends at [Complete].  It calibrates to the two captured
    positions when the upper one is below the lower one; otherwise it ends
    all the same, and the bounds and the calibrated flag are as before.
    With zebra support the third capture is the zebra offset. *)
Theorem guided_calibration_outcome (s : system) (upper lower zebra : Z) :
  exists s',
    guided_calibration upper lower zebra s
    = Some (CALIBRATION_STEP_COMPLETE, s')
    /\ current_calibration_step (sensor s') = CALIBRATION_STEP_COMPLETE
    /\ calibration_upper_position (sensor s') = upper
    /\ calibration_lower_position (sensor s') = lower
    /\ (upper < lower ->
        min_position (position_config (sensor s')) = upper
        /\ max_position (position_config (sensor s')) = lower
        /\ calibrated (position_config (sensor s')) = true)
    /\ (lower <= upper ->
        position_config (sensor s') = position_config (sensor s))
    /\ (CONFIG_ZEBRA_BLINDS_SUPPORT (kconfig s) = true ->
        calibration_zebra_offset (sensor s') = zebra).
Proof.
  cut (wp (guided_calibration upper lower zebra)
         (fun step s' =>
            step = CALIBRATION_STEP_COMPLETE
            /\ current_calibration_step (sensor s')
               = CALIBRATION_STEP_COMPLETE
            /\ calibration_upper_position (sensor s') = upper
            /\ calibration_lower_position (sensor s') = lower
            /\ (upper < lower ->
                min_position (position_config (sensor s')) = upper
                /\ max_position (position_config (sensor s')) = lower
                /\ calibrated (position_config (sensor s')) = true)
            /\ (lower <= upper ->
                position_config (sensor s') = position_config (sensor s))
            /\ (CONFIG_ZEBRA_BLINDS_SUPPORT (kconfig s) = true ->
                calibration_zebra_offset (sensor s') = zebra))
         s).
  { intros (step & s' & R & -> & H). exists s'. split; [exact R|exact H]. }
  unfold guided_calibration, position_sensor_start_calibration,
    position_sensor_save_calibration_step,
    position_sensor_next_calibration_step,
    position_sensor_set_calibration.
  wp_run;
    repeat match goal with
           | H : (_ <? _) = true |- _ => apply Z.ltb_lt in H
           | H : (_ <? _) = false |- _ => apply Z.ltb_ge in H
           | H : (_ >=? _) = true |- _ => rewrite Z.geb_leb in H;
                                          apply Z.leb_le in H
           | H : (_ >=? _) = false |- _ => rewrite Z.geb_leb in H;
                                           apply Z.leb_gt in H
           end;
    repeat split; intros; try reflexivity; try lia; try congruence.
Qed.

Lemma guided_calibration_outcome_witness :
  exists s',
    guided_calibration 500 3500 120
      (boot cfg_zebra (env_of (fun _ => 2000) no_press))
    = Some (CALIBRATION_STEP_COMPLETE, s')
    /\ min_position (position_config (sensor s')) = 500
    /\ max_position (position_config (sensor s')) = 3500
    /\ calibrated (position_config (sensor s')) = true
    /\ calibration_zebra_offset (sensor s') = 120.
Proof.
  destruct (guided_calibration_outcome
              (boot cfg_zebra (env_of (fun _ => 2000) no_press))
              500 3500 120)
    as (s' & R & _ & _ & _ & Hlt & _ & Hz).
  destruct (Hlt ltac:(lia)) as (Hmin & Hmax & Hcal).
  exists s'. split; [exact R|]. split; [exact Hmin|].
  split; [exact Hmax|]. split; [exact Hcal|]. apply Hz. reflexivity.
Defined.

(** ** Persistence *)



(** ** The running controller *)

Lemma state_eqb_calibrating (st : state_t) :
  st <> CALIBRATING -> state_eqb st CALIBRATING = false.
Proof. destruct st; intros H; try reflexivity. contradiction H; reflexivity. Qed.

Lemma steady_frame (s0 s s' : system) :
  controller s' = controller s ->
  motor s' = motor s ->
  min_position (position_config (sensor s'))
  = min_position (position_config (sensor s)) ->
  max_position (position_config (sensor s'))
  = max_position (position_config (sensor s)) ->
  calibrated (position_config (sensor s'))
  = calibrated (position_config (sensor s)) ->
  nvs_position_sensor (env s') = nvs_position_sensor (env s) ->
  nvs_ready (env s') = nvs_ready (env s) ->
  steady s0 s -> steady s0 s'.
Proof.
  intros Hc Hm Hmin Hmax Hcal Hnvs Hrdy ((H1 & H2 & H3 & H4) & (E1 & E2 & E3 & E4 & E5)).
  split; [split; [|split; [|split]]|repeat split]; try congruence.
  - rewrite Hc, Hm; exact H2.
  - rewrite Hc; exact H3.
  - rewrite Hcal, Hmin, Hmax; exact H4.
Qed.

Lemma read_keeps_steady (s0 s : system) :
  steady s0 s ->
  wp position_sensor_read (fun _ s' => steady s0 s') s.
Proof.
  intros H. eapply wp_conseq; [apply position_sensor_read_effect|].
  intros r s' (Hc & Hm & _ & _ & Hmin & Hmax & Hcal & _ & _ & _ & _ & _ & _
                 & Hnvs & Hrdy & _).
  apply (steady_frame s0 s s'); assumption.
Qed.

(** A state that is stopped and has the calibration of [s0]. *)
Lemma stopped_is_steady (s0 s s' : system) :
  steady s0 s ->
  sensor s' = sensor s -> env s' = env s ->
  state (g_config (controller s')) = IDLE ->
  motor_moving (motor s') = false ->
  g_button_held (controller s') = false ->
  steady s0 s'.
Proof.
  intros ((_ & _ & _ & H4) & Hsame) Hs He Hst Hmv Hh.
  unfold steady, operational, same_calibration in *.
  rewrite Hs, He, Hst, Hmv, Hh.
  split; [|exact Hsame].
  split; [discriminate|]. split; [discriminate|]. split; [discriminate|].
  exact H4.
Qed.

Lemma stop_keeps_steady (s0 s : system) :
  steady s0 s ->
  wp controller_stop
    (fun _ s' => steady s0 s' /\ state (g_config (controller s')) = IDLE
                 /\ motor_moving (motor s') = false)
    s.
Proof.
  intros H.
  destruct (controller_stop_run s)
    as (s' & R & St & Hd & Mv & _ & Sn & En & _).
  exists tt, s'. split; [exact R|]. split; [|split; assumption].
  apply (stopped_is_steady s0 s s'); assumption.
Qed.

Lemma check_boundaries_keeps_steady (s0 s : system) :
  steady s0 s ->
  wp controller_check_boundaries_and_stop (fun _ s' => steady s0 s') s.
Proof.
  intros H. unfold controller_check_boundaries_and_stop. wp_run.
  - exact H.
  - eapply wp_conseq; [apply read_keeps_steady, H|].
    intros r s1 H1. cbv beta. wp_run.
    + eapply wp_conseq; [apply stop_keeps_steady, H1|].
      intros [] s2 (H2 & _). wp_run. exact H2.
    + exact H1.
Qed.

(** The state after the motor commands of a motion: moving, with the
    calibration untouched. *)
Lemma moving_is_steady (s0 s s' : system) (st : state_t) :
  steady s0 s ->
  sensor s' = sensor s -> env s' = env s ->
  state (g_config (controller s')) = st ->
  is_moving_state st = true ->
  steady s0 s'.
Proof.
  intros ((_ & _ & _ & H4) & Hsame) Hs He Hst Hmv.
  unfold steady, operational, same_calibration in *.
  rewrite Hs, He, Hst.
  split; [|exact Hsame].
  split; [destruct st; discriminate|]. split; [intros _; exact Hmv|].
  split; [intros _; exact Hmv|]. exact H4.
Qed.

Lemma move_to_position_keeps_steady (s0 s : system) (target : Z) :
  steady s0 s ->
  wp (controller_move_to_position target) (fun _ s' => steady s0 s') s.
Proof.
  intros H. unfold controller_move_to_position. wp_run.
  - exact H.
  - eapply wp_conseq; [apply read_keeps_steady, H|].
    intros r s1 H1. cbv beta. wp_run.
    + exact H1.
    + eapply wp_conseq; [apply check_boundaries_keeps_steady|].
      * eapply (moving_is_steady s0 s1); [exact H1|reflexivity..].
      * intros b s2 H2. wp_run. exact H2.
    + eapply wp_conseq; [apply check_boundaries_keeps_steady|].
      * eapply (moving_is_steady s0 s1); [exact H1|reflexivity..].
      * intros b s2 H2. wp_run. exact H2.
Qed.

Lemma move_up_keeps_steady (s0 s : system) :
  steady s0 s -> wp controller_move_up (fun _ s' => steady s0 s') s.
Proof.
  intros H. unfold controller_move_up. wp_run; [exact H|].
  eapply (moving_is_steady s0 s _ MOVING_UP); [exact H|reflexivity..].
Qed.

Lemma move_down_keeps_steady (s0 s : system) :
  steady s0 s -> wp controller_move_down (fun _ s' => steady s0 s') s.
Proof.
  intros H. unfold controller_move_down. wp_run; [exact H|].
  eapply (moving_is_steady s0 s _ MOVING_DOWN); [exact H|reflexivity..].
Qed.

Lemma stop_effect (s : system) :
  wp controller_stop
    (fun _ s' =>
       state (g_config (controller s')) = IDLE
       /\ g_button_held (controller s') = false
       /\ motor_moving (motor s') = false
       /\ sensor s' = sensor s
       /\ env s' = env s
       /\ kconfig s' = kconfig s)
    s.
Proof.
  destruct (controller_stop_run s)
    as (s' & R & St & Hd & Mv & _ & Sn & En & K & _).
  exists tt, s'. repeat split; assumption.
Qed.

Lemma stop_keeps_steady' (s0 s : system) :
  steady s0 s -> wp controller_stop (fun _ s' => steady s0 s') s.
Proof.
  intros H. eapply wp_conseq; [apply stop_keeps_steady, H|].
  intros [] s' (H' & _). exact H'.
Qed.

Lemma calibrate_keeps_steady (s0 s : system) :
  steady s0 s -> wp controller_calibrate (fun _ s' => steady s0 s') s.
Proof.
  intros ((_ & _ & _ & H4) & (E1 & E2 & E3 & E4 & E5)).
  unfold controller_calibrate. wp_run.
  eapply wp_conseq; [apply stop_effect|].
  intros [] s1 (St & Hd & Mv & Sn & En & K). psimpl.
  unfold position_sensor_start_calibration,
    position_sensor_next_calibration_step.
  wp_run;
    unfold steady, operational, same_calibration; psimpl;
    rewrite ?St, ?Hd, ?Mv, ?Sn, ?En; psimpl;
    (split; [split; [discriminate|]; split; [discriminate|];
             split; [discriminate|]; exact H4
            |repeat split; assumption]).
Qed.

Lemma get_percentage_keeps_steady (s0 s : system) :
  steady s0 s ->
  wp position_sensor_get_percentage (fun _ s' => steady s0 s') s.
Proof.
  intros H. unfold position_sensor_get_percentage. wp_run; [exact H|].
  eapply wp_conseq; [apply read_keeps_steady, H|].
  intros r s1 H1. cbv beta. wp_run; exact H1.
Qed.

Lemma half_exact_12bit :
  forallb (fun n => half_exact (Z.of_nat n)) (seq 0 4096) = true.
Proof. vm_compute. reflexivity. Qed.

(** With bounds inside the range of the converter the target of 50 % is
    defined and is the midpoint, rounded down. *)
Lemma percentage_target_half (min_pos max_pos : Z) :
  0 <= min_pos -> min_pos <= max_pos -> max_pos <= 4095 ->
  percentage_target min_pos max_pos f32_50
  = Some (min_pos + (max_pos - min_pos) / 2).
Proof.
  intros H0 H1 H2.
  unfold percentage_target. rewrite (u32_small (max_pos - min_pos)) by lia.
  pose proof (proj1 (forallb_forall _ _) half_exact_12bit
                (Z.to_nat (max_pos - min_pos))) as F.
  cbv beta in F. rewrite Z2Nat.id in F by lia.
  specialize (F ltac:(apply in_seq; lia)). unfold half_exact in F.
  destruct (u32_of_f32
              (f32_div (f32_mul (f32_of_u32 (max_pos - min_pos)) f32_50)
                 f32_100)) as [a|]; [|discriminate F].
  apply Z.eqb_eq in F. subst a. f_equal. apply u32_small.
  assert (0 <= (max_pos - min_pos) / 2 <= 4095).
  { split; [apply Z.div_pos; lia|].
    apply Z.div_le_upper_bound; lia. }
  lia.
Qed.

Lemma set_percentage_half_keeps_steady (s0 s : system) :
  steady s0 s ->
  wp (controller_set_position_percentage f32_50)
     (fun _ s' => steady s0 s') s.
Proof.
  intros H. unfold controller_set_position_percentage.
  change (clamp_percentage f32_50) with f32_50. cbv zeta.
  wp_run; [|exact H].
  eapply wp_conseq; [apply read_keeps_steady, H|].
  intros r s1 H1. cbv beta. wp_run.
  eapply wp_conseq; [apply get_percentage_keeps_steady, H1|].
  intros pct s2 H2. cbv beta.
  assert (Hcal : calibrated (position_config (sensor s2)) = true).
  { destruct H as (_ & (_ & _ & Ec & _)).
    destruct H2 as (_ & (_ & _ & Ec2 & _)). congruence. }
  pose proof H2 as ((Hn & Hm & Hh & Hb) & Hsame).
  destruct (Hb Hcal) as (B0 & B1 & B2).
  wp_run.
  - apply move_to_position_keeps_steady, H2.
  - match goal with
    | E : percentage_target _ _ _ = None |- _ =>
        rewrite percentage_target_half in E by lia; discriminate E
    end.
Qed.

Lemma handle_zebra_keeps_steady (s0 s : system) :
  steady s0 s ->
  wp controller_handle_zebra_offset (fun _ s' => steady s0 s') s.
Proof.
  intros H. unfold controller_handle_zebra_offset. wp_run;
    try exact H.
  eapply wp_conseq; [apply read_keeps_steady, H|].
  intros r s1 H1. cbv beta. wp_run.
  destruct (zebra_target r (calibration_zebra_offset (sensor s1))
              (last_direction_up (controller s1))) as (target & last_up).
  wp_run. apply move_to_position_keeps_steady.
  unfold steady, operational, same_calibration in *. psimpl. exact H1.
Qed.

Lemma goto_top_keeps_steady (s0 s : system) :
  steady s0 s -> wp controller_goto_top (fun _ s' => steady s0 s') s.
Proof.
  intros H. unfold controller_goto_top. wp_run; [|exact H].
  apply move_to_position_keeps_steady, H.
Qed.

Lemma goto_bottom_keeps_steady (s0 s : system) :
  steady s0 s -> wp controller_goto_bottom (fun _ s' => steady s0 s') s.
Proof.
  intros H. unfold controller_goto_bottom. wp_run; [|exact H].
  apply move_to_position_keeps_steady, H.
Qed.

Lemma callback_keeps_steady (s0 s : system) (ev : button_event_t)
  (id : button_id_t) :
  steady s0 s ->
  wp (controller_button_callback ev id) (fun _ s' => steady s0 s') s.
Proof.
  intros H.
  assert (Hst : state_eqb (state (g_config (controller s))) CALIBRATING
                = false)
    by (apply state_eqb_calibrating; apply H).
  destruct ev; cbn [controller_button_callback];
    unfold controller_move_up, controller_move_down; wp_run;
    repeat match goal with
           | E : context [state_eqb (state (g_config (controller s)))
                            CALIBRATING] |- _ =>
               lazymatch E with
               | Hst => fail
               | _ => rewrite Hst in E
               end
           end;
    try discriminate; try exact H.
  - apply stop_keeps_steady', H.
  - apply goto_top_keeps_steady, H.
  - apply goto_bottom_keeps_steady, H.
  - apply handle_zebra_keeps_steady, H.
  - apply set_percentage_half_keeps_steady, H.
  - eapply (moving_is_steady s0 s); [exact H|reflexivity..].
  - eapply (moving_is_steady s0 s); [exact H|reflexivity..].
  - eapply (moving_is_steady s0 s); [exact H|reflexivity..].
  - eapply (moving_is_steady s0 s); [exact H|reflexivity..].
  - apply calibrate_keeps_steady, H.
Qed.

Lemma boundary_turn_keeps_steady (s0 s : system) :
  steady s0 s ->
  wp boundary_check_iteration (fun _ s' => steady s0 s') s.
Proof.
  intros H. unfold boundary_check_iteration. wp_run; [|exact H].
  eapply wp_conseq; [apply check_boundaries_keeps_steady, H|].
  intros stopped s1 H1. cbv beta. wp_run; [exact H1|].
  unfold steady, operational, same_calibration in *. psimpl. exact H1.
Qed.

Lemma activities_keep_steady (acts : list activity) :
  forall s0 s : system,
    steady s0 s -> wp (run_activities acts) (fun _ s' => steady s0 s') s.
Proof.
  induction acts as [|a acts IH]; intros s0 s H; cbn [run_activities].
  - apply wp_ret, H.
  - apply wp_bind. eapply wp_conseq.
    + destruct a; cbn [run_activity].
      * apply callback_keeps_steady, H.
      * apply wp_bind.
        eapply wp_conseq; [apply boundary_turn_keeps_steady, H|].
        intros b s1 H1. apply wp_ret. exact H1.
    + intros [] s1 H1. apply IH, H1.
Qed.

Lemma steady_refl (s : system) : operational s -> steady s s.
Proof. intros H; split; [exact H|repeat split]. Qed.

Lemma boot_operational (cfg : sdkconfig) (e : env_t) :
  operational (boot cfg e).
Proof. repeat split; discriminate. Qed.

(** A sensor calibrated within the range of the converter right after
    boot. *)
Lemma calibrated_boot_operational (cfg : sdkconfig) (e : env_t)
  (lo hi : Z) :
  0 <= lo -> hi <= 4095 ->
  operational (exec (position_sensor_set_calibration lo hi) (boot cfg e)).
Proof.
  intros H0 H1. unfold position_sensor_set_calibration, exec.
  destruct (lo >=? hi) eqn:E; mred; cbn.
  - repeat split; discriminate.
  - rewrite Z.geb_leb in E. apply Z.leb_gt in E.
    split; [discriminate|]. split; [discriminate|].
    split; [discriminate|]. intros _. cbn. lia.
Qed.

(** No button event and no turn of the boundary task ever changes the
    calibration: from an operational state every sequence of events and
    turns returns, the bounds, the calibrated flag and the stored
    calibration data are as at the start, and the controller is never left
    in [CALIBRATING]. *)
Theorem activities_never_change_calibration (s0 : system)
  (acts : list activity) :
  operational s0 ->
  exists s',
    run_activities acts s0 = Some (tt, s')
    /\ min_position (position_config (sensor s'))
       = min_position (position_config (sensor s0))
    /\ max_position (position_config (sensor s'))
       = max_position (position_config (sensor s0))
    /\ calibrated (position_config (sensor s'))
       = calibrated (position_config (sensor s0))
    /\ nvs_position_sensor (env s') = nvs_position_sensor (env s0)
    /\ state (g_config (controller s')) <> CALIBRATING.
Proof.
  intros H.
  destruct (activities_keep_steady acts s0 s0 (steady_refl s0 H))
    as ([] & s' & R & (Hn & _) & (E1 & E2 & E3 & E4 & _)).
  exists s'. repeat split; assumption.
Qed.

Lemma activities_never_change_calibration_witness :
  exists s',
    run_activities
      [Deliver BUTTON_EVENT_SIMULTANEOUS_PRESS BUTTON_ID_UP;
       Deliver BUTTON_SINGLE_CLICK BUTTON_ID_DOWN;
       Deliver BUTTON_LONG_PRESS_START BUTTON_ID_UP; BoundaryTurn]
      (exec (position_sensor_set_calibration 100 3900)
         (boot cfg_plain (env_of (fun _ => 2000) no_press)))
    = Some (tt, s')
    /\ max_position (position_config (sensor s')) = 3900.
Proof.
  destruct (activities_never_change_calibration
              (exec (position_sensor_set_calibration 100 3900)
                 (boot cfg_plain (env_of (fun _ => 2000) no_press)))
              [Deliver BUTTON_EVENT_SIMULTANEOUS_PRESS BUTTON_ID_UP;
               Deliver BUTTON_SINGLE_CLICK BUTTON_ID_DOWN;
               Deliver BUTTON_LONG_PRESS_START BUTTON_ID_UP; BoundaryTurn]
              (calibrated_boot_operational _ _ 100 3900
                 ltac:(lia) ltac:(lia)))
    as (s' & R & _ & Hmax & _).
  exists s'. split; [exact R|exact Hmax].
Defined.

(** The motor moves only while the controller is in a moving state: after
    any sequence of events and boundary turns from an operational state, a
    moving motor means [MOVING_UP] or [MOVING_DOWN]. *)
Theorem motor_moves_only_in_moving_state (s0 : system)
  (acts : list activity) :
  operational s0 ->
  exists s',
    run_activities acts s0 = Some (tt, s')
    /\ (motor_moving (motor s') = true ->
        state (g_config (controller s')) = MOVING_UP
        \/ state (g_config (controller s')) = MOVING_DOWN).
Proof.
  intros H.
  destruct (activities_keep_steady acts s0 s0 (steady_refl s0 H))
    as ([] & s' & R & (_ & Hm & _) & _).
  exists s'. split; [exact R|]. intros Hmv. specialize (Hm Hmv).
  destruct (state (g_config (controller s'))); try discriminate Hm; auto.
Qed.

Lemma motor_moves_only_in_moving_state_witness :
  exists s',
    run_activities
      [Deliver BUTTON_SINGLE_CLICK BUTTON_ID_DOWN; BoundaryTurn]
      (exec (position_sensor_set_calibration 100 3900)
         (boot cfg_plain (env_of (fun _ => 2000) no_press)))
    = Some (tt, s')
    /\ (motor_moving (motor s') = true ->
        state (g_config (controller s')) = MOVING_UP
        \/ state (g_config (controller s')) = MOVING_DOWN).
Proof.
  apply (motor_moves_only_in_moving_state
           (exec (position_sensor_set_calibration 100 3900)
              (boot cfg_plain (env_of (fun _ => 2000) no_press)))
           [Deliver BUTTON_SINGLE_CLICK BUTTON_ID_DOWN; BoundaryTurn]
           (calibrated_boot_operational _ _ 100 3900
              ltac:(lia) ltac:(lia))).
Defined.

(** The held flag is set only while the controller is in a moving state. *)
Theorem held_flag_only_in_moving_state (s0 : system)
  (acts : list activity) :
  operational s0 ->
  exists s',
    run_activities acts s0 = Some (tt, s')
    /\ (g_button_held (controller s') = true ->
        state (g_config (controller s')) = MOVING_UP
        \/ state (g_config (controller s')) = MOVING_DOWN).
Proof.
  intros H.
  destruct (activities_keep_steady acts s0 s0 (steady_refl s0 H))
    as ([] & s' & R & (_ & _ & Hh & _) & _).
  exists s'. split; [exact R|]. intros Hheld. specialize (Hh Hheld).
  destruct (state (g_config (controller s'))); try discriminate Hh; auto.
Qed.

Lemma held_flag_only_in_moving_state_witness :
  exists s',
    run_activities
      [Deliver BUTTON_LONG_PRESS_START BUTTON_ID_DOWN;
       Deliver BUTTON_SINGLE_CLICK BUTTON_ID_UP]
      (boot cfg_plain (env_of (fun _ => 2000) no_press))
    = Some (tt, s')
    /\ (g_button_held (controller s') = true ->
        state (g_config (controller s')) = MOVING_UP
        \/ state (g_config (controller s')) = MOVING_DOWN).
Proof.
  apply (held_flag_only_in_moving_state
           (boot cfg_plain (env_of (fun _ => 2000) no_press))
           [Deliver BUTTON_LONG_PRESS_START BUTTON_ID_DOWN;
            Deliver BUTTON_SINGLE_CLICK BUTTON_ID_UP]
           (boot_operational _ _)).
Defined.

(** ** Stopping and holding *)

(** A second stop right after a stop changes nothing and commands
    nothing. *)
Theorem controller_stop_idempotent (s : system) :
  exists s1,
    controller_stop s = Some (tt, s1)
    /\ controller_stop s1 = Some (tt, s1).
Proof.
  unfold controller_stop; mred.
  destruct (motor_moving (motor s)) eqn:E; cbn;
    eexists; (split; [reflexivity|]); cbn; rewrite ?E; reflexivity.
Qed.

(** A long press followed by a release: the motor is sent in the direction
    of the button for the maximal step count and then stopped, the
    controller is back in [IDLE], the boundary task has been spawned and
    the position reader has not been touched. *)
Theorem long_press_then_release (s : system) (id id' : button_id_t) :
  state (g_config (controller s)) <> CALIBRATING ->
  exists s1 s2,
    controller_button_callback BUTTON_LONG_PRESS_START id s = Some (tt, s1)
    /\ state (g_config (controller s1))
       = (match id with
          | BUTTON_ID_UP => MOVING_UP
          | BUTTON_ID_DOWN => MOVING_DOWN
          end)
    /\ controller_button_callback BUTTON_EVENT_RELEASE id' s1 = Some (tt, s2)
    /\ state (g_config (controller s2)) = IDLE
    /\ g_button_held (controller s2) = false
    /\ motor_moving (motor s2) = false
    /\ motor_commands (motor s2)
       = motor_commands (motor s)
         ++ [MotorSetDirection (direction_of id);
             MotorSetSpeed (CONFIG_MOTOR_DEFAULT_SPEED (kconfig s));
             MotorStep UINT32_MAX; MotorStop]
    /\ g_boundary_check_task (controller s2) = true
    /\ sensor s2 = sensor s.
Proof.
  intros Hst. apply state_eqb_calibrating in Hst.
  unfold controller_button_callback, BUTTON_EVENT_RELEASE,
    controller_move_up, controller_move_down, controller_stop; mred.
  rewrite Hst; cbn.
  destruct id; cbn; rewrite Hst; cbn;
    destruct (g_boundary_check_task (controller s)) eqn:Et; cbn;
    do 2 eexists; (split; [reflexivity|]); cbn;
    (split; [reflexivity|]); (split; [reflexivity|]); cbn;
    rewrite <- ?app_assoc; cbn; rewrite ?Et; repeat split.
Qed.

Lemma long_press_then_release_witness :
  exists s1 s2,
    controller_button_callback BUTTON_LONG_PRESS_START BUTTON_ID_UP
      (boot cfg_plain (env_of (fun _ => 2000) no_press))
    = Some (tt, s1)
    /\ controller_button_callback BUTTON_EVENT_RELEASE BUTTON_ID_UP s1
       = Some (tt, s2)
    /\ state (g_config (controller s2)) = IDLE.
Proof.
  destruct (long_press_then_release
              (boot cfg_plain (env_of (fun _ => 2000) no_press))
              BUTTON_ID_UP BUTTON_ID_UP)
    as (s1 & s2 & R1 & _ & R2 & St & _).
  - discriminate.
  - exists s1, s2. repeat split; assumption.
Defined.

(** Without calibration the boundary task never stops the motor: as long
    as the button is held and the motor moves, every turn only waits
    100 ms, whatever the sensor would read. *)
Theorem uncalibrated_boundary_task_never_stops (fuel : nat) :
  forall s : system,
    g_button_held (controller s) = true ->
    motor_moving (motor s) = true ->
    calibrated (position_config (sensor s)) = false ->
    exists s',
      boundary_check_task fuel s = Some (false, s')
      /\ motor s' = motor s
      /\ controller s' = controller s
      /\ sensor s' = sensor s
      /\ tick_count (env s')
         = tick_count (env s)
           + Z.of_nat fuel * pdMS_TO_TICKS (kconfig s) 100.
Proof.
  assert (Hloop : forall s : system,
            g_button_held (controller s) = true ->
            motor_moving (motor s) = true ->
            calibrated (position_config (sensor s)) = false ->
            exists s',
              boundary_check_loop fuel s = Some (false, s')
              /\ motor s' = motor s
              /\ controller s' = controller s
              /\ sensor s' = sensor s
              /\ kconfig s' = kconfig s
              /\ tick_count (env s')
                 = tick_count (env s)
                   + Z.of_nat fuel * pdMS_TO_TICKS (kconfig s) 100).
  { induction fuel as [|fuel IH]; intros s Hh Hm Hc.
    - exists s. cbn. repeat split. lia.
    - cbn [boundary_check_loop].
      assert (Hturn : boundary_check_iteration s
                      = Some (true,
                              set_env
                                (fun e => with_tick_count
                                            (tick_count e
                                             + pdMS_TO_TICKS (kconfig s) 100)
                                            e) s)).
      { unfold boundary_check_iteration; mred. rewrite Hh, Hm; cbn.
        rewrite (boundary_check_skipped_when_uncalibrated s Hc).
        reflexivity. }
      mstep Hturn.
      destruct (IH (set_env
                      (fun e => with_tick_count
                                  (tick_count e
                                   + pdMS_TO_TICKS (kconfig s) 100) e) s)
                  Hh Hm Hc) as (s' & R & E1 & E2 & E3 & E4 & E5).
      exists s'. split; [exact R|]. cbn in E1, E2, E3, E4, E5.
      repeat split; try assumption.
      rewrite E5, Nat2Z.inj_succ. lia. }
  intros s Hh Hm Hc.
  destruct (Hloop s Hh Hm Hc) as (s' & R & E1 & E2 & E3 & _ & E5).
  exists s'. split; [|repeat split; assumption].
  unfold boundary_check_task. mstep R. reflexivity.
Qed.

Lemma uncalibrated_boundary_task_never_stops_witness :
  exists s',
    boundary_check_task 50 long_press_up = Some (false, s')
    /\ motor s' = motor long_press_up.
Proof.
  destruct (uncalibrated_boundary_task_never_stops 50 long_press_up
              eq_refl eq_refl eq_refl)
    as (s' & R & Hm & _).
  exists s'. split; [exact R|exact Hm].
Defined.

(** ** Requests without calibration *)

(** Without calibration every positioning request is refused and leaves the
    whole system as it is: clicks and double clicks, go-to-top,
    go-to-bottom, the position by percentage and the zebra offset. *)
Theorem uncalibrated_requests_change_nothing (s : system)
  (id : button_id_t) (p : float) :
  calibrated (position_config (sensor s)) = false ->
  state (g_config (controller s)) <> CALIBRATING ->
  controller_button_callback BUTTON_SINGLE_CLICK id s = Some (tt, s)
  /\ controller_button_callback BUTTON_DOUBLE_CLICK id s = Some (tt, s)
  /\ controller_goto_top s = Some (tt, s)
  /\ controller_goto_bottom s = Some (tt, s)
  /\ controller_set_position_percentage p s = Some (tt, s)
  /\ controller_handle_zebra_offset s = Some (tt, s).
Proof.
  intros Hcal Hst. pose proof (state_eqb_calibrating _ Hst) as Heq.
  split; [apply single_click_uncalibrated; assumption|].
  assert (Hp : forall q, controller_set_position_percentage q s
                         = Some (tt, s)).
  { intros q. unfold controller_set_position_percentage; mred.
    rewrite Hcal. reflexivity. }
  assert (Hz : controller_handle_zebra_offset s = Some (tt, s)).
  { unfold controller_handle_zebra_offset; mred. rewrite Hcal. reflexivity. }
  split; [|split; [|split; [|split; [apply Hp|exact Hz]]]].
  - unfold controller_button_callback; mred. rewrite Heq; cbn.
    destruct (CONFIG_ZEBRA_BLINDS_SUPPORT (kconfig s));
      [rewrite Hcal; reflexivity|apply Hp].
  - unfold controller_goto_top; mred. rewrite Hcal. reflexivity.
  - unfold controller_goto_bottom; mred. rewrite Hcal. reflexivity.
Qed.

Lemma uncalibrated_requests_change_nothing_witness :
  controller_button_callback BUTTON_DOUBLE_CLICK BUTTON_ID_UP
    (boot cfg_zebra (env_of (fun _ => 2000) no_press))
  = Some (tt, boot cfg_zebra (env_of (fun _ => 2000) no_press)).
Proof.
  destruct (uncalibrated_requests_change_nothing
              (boot cfg_zebra (env_of (fun _ => 2000) no_press))
              BUTTON_ID_UP f32_50 eq_refl)
    as (_ & H & _).
  - discriminate.
  - exact H.
Defined.

(** ** Target motion *)

Lemma check_boundaries_commands (s : system) :
  wp controller_check_boundaries_and_stop
    (fun _ s' =>
       (motor_commands (motor s') = motor_commands (motor s)
        \/ motor_commands (motor s')
           = motor_commands (motor s) ++ [MotorStop])
       /\ position (g_config (controller s'))
          = position (g_config (controller s)))
    s.
Proof.
  unfold controller_check_boundaries_and_stop. wp_run.
  - split; [left|]; reflexivity.
  - eapply wp_conseq; [apply position_sensor_read_effect|].
    intros r s1 (Hc & Hm & _). cbv beta. unfold controller_stop. wp_run;
      rewrite ?Hc, ?Hm; split; (reflexivity || (left; reflexivity)
                                || (right; reflexivity)).
Qed.

(** A target motion reads the position once.  At the target it commands
    nothing.  Otherwise it commands the direction (down when the target is
    the larger value), the default speed and as many steps as the target is
    away, records the target, and a stop follows only from the boundary
    check that closes the call. *)
Theorem move_to_position_commands (s s1 : system) (target r : Z) :
  state (g_config (controller s)) <> CALIBRATING ->
  position_sensor_read s = Some (r, s1) ->
  (r = target -> controller_move_to_position target s = Some (tt, s1))
  /\ (r <> target ->
      exists s' tail,
        controller_move_to_position target s = Some (tt, s')
        /\ motor_commands (motor s')
           = motor_commands (motor s)
             ++ [MotorSetDirection
                   (if target >? r then MOTOR_DIR_DOWN else MOTOR_DIR_UP);
                 MotorSetSpeed (CONFIG_MOTOR_DEFAULT_SPEED (kconfig s));
                 MotorStep (if target >? r then u32 (target - r)
                            else u32 (r - target))]
             ++ tail
        /\ (tail = [] \/ tail = [MotorStop])
        /\ current_position (position (g_config (controller s'))) = target).
Proof.
  intros Hst Hread. apply state_eqb_calibrating in Hst.
  destruct (position_sensor_read_effect s)
    as (r' & s1' & R & Hc & Hm & Hk & _).
  rewrite Hread in R. injection R as <- <-.
  split; intros Hr.
  - unfold controller_move_to_position; mred. rewrite Hst, Hread.
    apply Z.eqb_eq in Hr. rewrite Hr. reflexivity.
  - apply Z.eqb_neq in Hr.
    cut (wp (controller_move_to_position target)
           (fun _ s' =>
              exists tail,
                motor_commands (motor s')
                = motor_commands (motor s)
                  ++ [MotorSetDirection
                        (if target >? r then MOTOR_DIR_DOWN
                         else MOTOR_DIR_UP);
                      MotorSetSpeed (CONFIG_MOTOR_DEFAULT_SPEED (kconfig s));
                      MotorStep (if target >? r then u32 (target - r)
                                 else u32 (r - target))]
                  ++ tail
                /\ (tail = [] \/ tail = [MotorStop])
                /\ current_position (position (g_config (controller s')))
                   = target)
           s).
    { intros ([] & s' & R' & tail & H). exists s', tail.
      split; [exact R'|exact H]. }
    unfold controller_move_to_position.
    apply wp_bind. wp_prim. apply wp_gets. cbv beta. rewrite Hst.
    apply wp_bind. exists r, s1. split; [exact Hread|]. cbv beta.
    rewrite Hr.
    destruct (target >? r) eqn:Ed; wp_run;
      (eapply wp_conseq; [apply check_boundaries_commands|]);
      intros b s2 (Hcmd & Hpos); psimpl; wp_run.
    all: destruct Hcmd as [Hcmd | Hcmd]; rewrite Hcmd, Hpos; psimpl;
      rewrite ?Hm, ?Hk; [exists []|exists [MotorStop]];
      rewrite <- ?app_assoc; cbn [app];
      (split; [reflexivity|]); (split; [auto|reflexivity]).
Qed.

Lemma move_to_position_commands_witness :
  exists s' tail,
    controller_move_to_position 2000
      (boot cfg_plain (env_of (fun _ => 500) no_press))
    = Some (tt, s')
    /\ motor_commands (motor s')
       = [MotorSetDirection MOTOR_DIR_DOWN; MotorSetSpeed 1000;
          MotorStep 1900] ++ tail.
Proof.
  edestruct (move_to_position_commands
               (boot cfg_plain (env_of (fun _ => 500) no_press)))
    with (target := 2000) (r := 100) as (_ & H).
  - discriminate.
  - vm_compute. reflexivity.
  - destruct H as (s' & tail & R & Hcmd & _); [discriminate|].
    exists s', tail. split; [exact R|exact Hcmd].
Defined.

(** A double click in a build without zebra support, the sensor being
    calibrated within the range of the converter: after the two position
    reads the blind is sent to the midpoint of the bounds, rounded down. *)
Theorem double_click_targets_midpoint (s : system) (id : button_id_t) :
  CONFIG_ZEBRA_BLINDS_SUPPORT (kconfig s) = false ->
  state (g_config (controller s)) <> CALIBRATING ->
  calibrated (position_config (sensor s)) = true ->
  0 <= min_position (position_config (sensor s)) ->
  min_position (position_config (sensor s))
  <= max_position (position_config (sensor s)) ->
  max_position (position_config (sensor s)) <= 4095 ->
  exists (r : Z) (pct : float) (s1 s2 : system),
    position_sensor_read s = Some (r, s1)
    /\ position_sensor_get_percentage s1 = Some (pct, s2)
    /\ controller_button_callback BUTTON_DOUBLE_CLICK id s
       = controller_move_to_position
           (min_position (position_config (sensor s))
            + (max_position (position_config (sensor s))
               - min_position (position_config (sensor s))) / 2)
           s2.
Proof.
  intros Hz Hst Hcal H0 H1 H2. apply state_eqb_calibrating in Hst.
  destruct (position_sensor_read_run s)
    as (r & s1 & R & Hmin & Hmax & Hc & _).
  destruct (position_sensor_get_percentage_run s1)
    as (pct & s2 & G & Gmin & Gmax & Gc).
  exists r, pct, s1, s2. split; [exact R|]. split; [exact G|].
  unfold controller_button_callback; mred. rewrite Hst; cbn. rewrite Hz.
  unfold controller_set_position_percentage; mred.
  change (clamp_percentage f32_50) with f32_50.
  rewrite Hcal, R, G, Gmin, Gmax, Hmin, Hmax.
  rewrite percentage_target_half by lia. reflexivity.
Qed.

Lemma double_click_targets_midpoint_witness :
  exists s',
    controller_button_callback BUTTON_DOUBLE_CLICK BUTTON_ID_UP
      (exec (position_sensor_set_calibration 100 3900)
         (boot cfg_plain (env_of (fun _ => 2000) no_press)))
    = Some (tt, s')
    /\ current_position (position (g_config (controller s'))) = 2000.
Proof.
  destruct (double_click_targets_midpoint
              (exec (position_sensor_set_calibration 100 3900)
                 (boot cfg_plain (env_of (fun _ => 2000) no_press)))
              BUTTON_ID_UP)
    as (r & pct & s1 & s2 & R & G & E).
  - reflexivity.
  - discriminate.
  - reflexivity.
  - vm_compute; discriminate.
  - vm_compute; discriminate.
  - vm_compute; discriminate.
  - vm_compute in R. injection R as <- <-.
    vm_compute in G. injection G as <- <-.
    rewrite E. eexists. split; vm_compute; reflexivity.
Defined.

(** ** Zebra offset *)

(** In mid-range, more than the offset away from 0 and from 4095, the
    zebra target is the position plus the offset, then minus the offset,
    and so on in turn; within the offset of 0 it is always plus the offset
    and the turn is kept. *)
Theorem zebra_target_alternates (current_pos zebra_offset : Z)
  (last_up : bool) :
  0 < zebra_offset ->
  (zebra_offset < current_pos /\ current_pos < 4095 - zebra_offset ->
   zebra_target current_pos zebra_offset last_up
   = (if last_up then current_pos - zebra_offset
      else current_pos + zebra_offset, negb last_up))
  /\ (0 <= current_pos <= zebra_offset /\ zebra_offset <= 4095 ->
      zebra_target current_pos zebra_offset last_up
      = (Z.min (current_pos + zebra_offset) 4095, last_up)).
Proof.
  intros Hoff. unfold zebra_target. split.
  - intros (Hlo & Hhi).
    rewrite (u32_small (0 + zebra_offset)),
      (u32_small (4095 - zebra_offset)),
      (u32_small (current_pos + zebra_offset)),
      (u32_small (current_pos - zebra_offset)) by lia.
    replace (current_pos <=? 0 + zebra_offset) with false
      by (symmetry; apply Z.leb_gt; lia).
    replace (current_pos >=? 4095 - zebra_offset) with false
      by (symmetry; rewrite Z.geb_leb; apply Z.leb_gt; lia).
    destruct last_up.
    + replace (current_pos - zebra_offset <? 0) with false
        by (symmetry; apply Z.ltb_ge; lia).
      replace (current_pos - zebra_offset >? 4095) with false
        by (symmetry; rewrite Z.gtb_ltb; apply Z.ltb_ge; lia).
      reflexivity.
    + replace (current_pos + zebra_offset <? 0) with false
        by (symmetry; apply Z.ltb_ge; lia).
      replace (current_pos + zebra_offset >? 4095) with false
        by (symmetry; rewrite Z.gtb_ltb; apply Z.ltb_ge; lia).
      reflexivity.
  - intros (Hcur & Hmax).
    rewrite (u32_small (0 + zebra_offset)),
      (u32_small (current_pos + zebra_offset)) by lia.
    replace (current_pos <=? 0 + zebra_offset) with true
      by (symmetry; apply Z.leb_le; lia).
    replace (current_pos + zebra_offset <? 0) with false
      by (symmetry; apply Z.ltb_ge; lia).
    destruct (current_pos + zebra_offset >? 4095) eqn:E;
      rewrite Z.gtb_ltb in E;
      [apply Z.ltb_lt in E|apply Z.ltb_ge in E]; f_equal; lia.
Qed.

Lemma zebra_target_alternates_witness :
  zebra_target 2000 100 false = (2100, true)
  /\ zebra_target 2100 100 true = (2000, false).
Proof.
  split.
  - apply (proj1 (zebra_target_alternates 2000 100 false ltac:(lia))). lia.
  - apply (proj1 (zebra_target_alternates 2100 100 true ltac:(lia))). lia.
Defined.

(** ** The event queue *)

Lemma xQueueSendFromISR_effect (msg : button_event_msg_t) (s : system) :
  wp (xQueueSendFromISR msg)
    (fun _ s' =>
       g_button_event_queue (buttons s')
       = enqueue (g_button_event_queue (buttons s)) msg
       /\ controller s' = controller s
       /\ motor s' = motor s
       /\ sensor s' = sensor s
       /\ env s' = env s)
    s.
Proof.
  unfold xQueueSendFromISR, xQueueSend, enqueue. wp_run; repeat split.
Qed.

Lemma firstn_enqueue (q rest : list button_event_msg_t)
  (msg : button_event_msg_t) :
  (List.length q <= QUEUE_LENGTH)%nat ->
  firstn QUEUE_LENGTH (enqueue q msg ++ rest)
  = firstn QUEUE_LENGTH (q ++ msg :: rest).
Proof.
  intros Hlen. unfold enqueue.
  destruct (List.length q <? QUEUE_LENGTH)%nat eqn:E.
  - rewrite <- app_assoc. reflexivity.
  - apply Nat.ltb_ge in E.
    rewrite !firstn_app.
    replace (QUEUE_LENGTH - List.length q)%nat with 0%nat by lia.
    reflexivity.
Qed.

Lemma enqueue_length (q : list button_event_msg_t)
  (msg : button_event_msg_t) :
  (List.length q <= QUEUE_LENGTH)%nat ->
  (List.length (enqueue q msg) <= QUEUE_LENGTH)%nat.
Proof.
  intros H. unfold enqueue.
  destruct (List.length q <? QUEUE_LENGTH)%nat eqn:E; [|exact H].
  apply Nat.ltb_lt in E. rewrite length_app. cbn. lia.
Qed.

(** Each callback registered with the button driver sends the event it is
    registered for, tagged with its own button; callbacks are registered
    for single click, double click and long-press start only. *)
Theorem registered_callbacks_tag_their_event (id : button_id_t)
  (ev : button_event_t) :
  match registered_cb id ev with
  | Some cb =>
      (ev = BUTTON_SINGLE_CLICK \/ ev = BUTTON_DOUBLE_CLICK
       \/ ev = BUTTON_LONG_PRESS_START)
      /\ forall s : system,
           exists sent s',
             cb s = Some (sent, s')
             /\ g_button_event_queue (buttons s')
                = enqueue (g_button_event_queue (buttons s))
                    {| event := ev; button_id := id |}
  | None =>
      ev <> BUTTON_SINGLE_CLICK /\ ev <> BUTTON_DOUBLE_CLICK
      /\ ev <> BUTTON_LONG_PRESS_START
  end.
Proof.
  destruct id, ev; cbn [registered_cb];
    try (repeat split; discriminate);
    (split; [auto|]); intros s;
    match goal with
    | |- exists _ _, ?cb s = _ /\ _ =>
        unfold cb;
        match goal with
        | |- exists _ _, xQueueSendFromISR ?m s = _ /\ _ =>
            destruct (xQueueSendFromISR_effect m s)
              as (sent & s' & R & Hq & _);
            exists sent, s'; split; [exact R|exact Hq]
        end
    end.
Qed.

(** ** Polling without a simultaneous press *)

(** As long as the two buttons are never down at the same poll, the polling
    task sends nothing, however long it runs. *)
Theorem polling_without_both_down_sends_nothing (n : nat) :
  forall s : system,
    both_pressed (buttons s) = false ->
    (forall t,
       is_press_down (button_event_at (env s) BUTTON_ID_UP t)
       && is_press_down (button_event_at (env s) BUTTON_ID_DOWN t) = false) ->
    exists s',
      check_simultaneous_press_task n s = Some (tt, s')
      /\ g_button_event_queue (buttons s')
         = g_button_event_queue (buttons s)
      /\ both_pressed (buttons s') = false.
Proof.
  induction n as [|n IH]; intros s Hb Hnever.
  - exists s. repeat split. exact Hb.
  - destruct (check_simultaneous_press_iteration_run s)
      as (s1 & R & _ & Hbtn & _ & Hbp & _ & Hq).
    cbv zeta in Hbp, Hq. rewrite Hnever in Hbp, Hq. rewrite Hb in Hq.
    cbn in Hq.
    destruct (IH s1 Hbp) as (s' & R' & Hq' & Hb').
    { intros t. rewrite Hbtn. apply Hnever. }
    exists s'. split; [cbn [check_simultaneous_press_task]; mstep R; exact R'|].
    split; [congruence|exact Hb'].
Qed.

Lemma polling_without_both_down_sends_nothing_witness :
  exists s',
    check_simultaneous_press_task 100
      (boot cfg_plain
         (env_of (fun _ => 2000)
            (fun id _ => match id with
                         | BUTTON_ID_UP => BUTTON_PRESS_DOWN
                         | BUTTON_ID_DOWN => BUTTON_NONE_PRESS
                         end)))
    = Some (tt, s')
    /\ g_button_event_queue (buttons s') = [].
Proof.
  destruct (polling_without_both_down_sends_nothing 100
              (boot cfg_plain
                 (env_of (fun _ => 2000)
                    (fun id _ => match id with
                                 | BUTTON_ID_UP => BUTTON_PRESS_DOWN
                                 | BUTTON_ID_DOWN => BUTTON_NONE_PRESS
                                 end))))
    as (s' & R & Hq & _).
  - reflexivity.
  - intros t. reflexivity.
  - exists s'. split; [exact R|exact Hq].
Defined.

(** ** From the queue to the controller *)

Lemma ignores_ret {A} (a : A) : ignores_buttons (ret a).
Proof. intros f s. reflexivity. Qed.

Lemma ignores_undefined {A} : ignores_buttons (@undefined A).
Proof. intros f s. reflexivity. Qed.

Lemma ignores_gets {A} (g : system -> A) :
  (forall f s, g (set_buttons f s) = g s) -> ignores_buttons (gets g).
Proof. intros Hg f s. unfold gets. rewrite Hg. reflexivity. Qed.

Lemma ignores_modify (h : system -> system) :
  (forall f s, h (set_buttons f s) = set_buttons f (h s)) ->
  ignores_buttons (modify h).
Proof. intros Hh f s. unfold modify. rewrite Hh. reflexivity. Qed.

Lemma ignores_bind {A B} (m : M A) (k : A -> M B) :
  ignores_buttons m -> (forall a, ignores_buttons (k a)) ->
  ignores_buttons (bind m k).
Proof.
  intros Hm Hk f s. unfold bind. rewrite Hm.
  destruct (m s) as [[a s1]|]; [apply Hk|reflexivity].
Qed.

Ltac head_of t :=
  lazymatch t with
  | ?f _ => head_of f
  | _ => t
  end.

Ltac ignores_step :=
  lazymatch goal with
  | |- ignores_buttons (bind _ _) => apply ignores_bind; [|intros ?]
  | |- ignores_buttons (ret _) => apply ignores_ret
  | |- ignores_buttons undefined => apply ignores_undefined
  | |- ignores_buttons (gets _) =>
      apply ignores_gets; intros; reflexivity
  | |- ignores_buttons (modify _) =>
      apply ignores_modify; intros; reflexivity
  | |- ignores_buttons (if ?b then _ else _) => destruct b
  | |- ignores_buttons (match ?x with _ => _ end) => destruct x
  | |- ignores_buttons ?m => let h := head_of m in unfold h
  end.

Ltac ignores := repeat ignores_step.

Lemma position_sensor_read_ignores_buttons :
  ignores_buttons position_sensor_read.
Proof. ignores. Qed.

Lemma controller_stop_ignores_buttons : ignores_buttons controller_stop.
Proof. ignores. Qed.

Lemma controller_move_to_position_ignores_buttons (position : Z) :
  ignores_buttons (controller_move_to_position position).
Proof.
  unfold controller_move_to_position, controller_check_boundaries_and_stop.
  repeat first
    [ apply position_sensor_read_ignores_buttons
    | apply controller_stop_ignores_buttons
    | ignores_step ].
Qed.

Lemma controller_button_callback_ignores_buttons (ev : button_event_t)
  (id : button_id_t) :
  ignores_buttons (controller_button_callback ev id).
Proof.
  unfold controller_button_callback.
  repeat first
    [ apply position_sensor_read_ignores_buttons
    | apply controller_stop_ignores_buttons
    | apply controller_move_to_position_ignores_buttons
    | ignores_step ].
Qed.

Lemma deliver_ignores_buttons (evs : list button_event_msg_t) :
  ignores_buttons (deliver evs).
Proof.
  induction evs as [|msg rest IH]; cbn [deliver].
  - apply ignores_ret.
  - apply ignores_bind; [|intros _; exact IH].
    apply controller_button_callback_ignores_buttons.
Qed.

Lemma boundary_check_iteration_ignores_buttons :
  ignores_buttons boundary_check_iteration.
Proof.
  unfold boundary_check_iteration, controller_check_boundaries_and_stop.
  repeat first
    [ apply position_sensor_read_ignores_buttons
    | apply controller_stop_ignores_buttons
    | ignores_step ].
Qed.

Lemma set_queue_same (s : system) (q : list button_event_msg_t) :
  g_button_event_queue (buttons s) = q ->
  set_buttons (with_queue q) s = s.
Proof.
  intros <-. destruct s as [k e m p c b]. destruct b. reflexivity.
Qed.

Lemma ignores_buttons_keeps {A} (m : M A) (s s' : system) (a : A) :
  ignores_buttons m -> m s = Some (a, s') -> buttons s' = buttons s.
Proof.
  intros Hm R. specialize (Hm (fun _ => buttons s) s).
  replace (set_buttons (fun _ => buttons s) s) with s in Hm
    by (destruct s; reflexivity).
  rewrite R in Hm. injection Hm as Hs.
  apply (f_equal buttons) in Hs. exact Hs.
Qed.

Lemma button_handler_task_iteration_run (s : system) :
  button_handler_task_iteration s
  = match g_button_event_queue (buttons s) with
    | [] => Some (tt, s)
    | msg :: rest =>
        if g_user_callback (buttons s)
        then
          match controller_button_callback (event msg) (button_id msg) s with
          | Some (_, s') => Some (tt, set_buttons (with_queue rest) s')
          | None => None
          end
        else Some (tt, set_buttons (with_queue rest) s)
    end.
Proof.
  unfold button_handler_task_iteration; mred.
  destruct (g_button_event_queue (buttons s)) as [|msg rest];
    [reflexivity|]. cbn [buttons set_buttons with_queue g_user_callback].
  destruct (g_user_callback (buttons s)); [|reflexivity].
  rewrite controller_button_callback_ignores_buttons.
  destruct (controller_button_callback (event msg) (button_id msg) s)
    as [[[] s']|]; reflexivity.
Qed.

(** The consumer task, given at least as many turns as the queue holds
    messages, does with the controller what [deliver] does with the queued
    messages and leaves the queue empty. *)
Lemma button_handler_task_run (n : nat) :
  forall s : system,
    g_user_callback (buttons s) = true ->
    (List.length (g_button_event_queue (buttons s)) <= n)%nat ->
    button_handler_task n s
    = match deliver (g_button_event_queue (buttons s)) s with
      | Some (_, s') => Some (tt, set_buttons (with_queue []) s')
      | None => None
      end.
Proof.
  induction n as [|n IH]; intros s Hcb Hlen.
  - destruct (g_button_event_queue (buttons s)) eqn:Eq;
      [|cbn in Hlen; lia].
    cbn [deliver button_handler_task]. unfold ret.
    rewrite (set_queue_same s [] Eq). reflexivity.
  - cbn [button_handler_task]. unfold bind at 1.
    rewrite button_handler_task_iteration_run, Hcb.
    destruct (g_button_event_queue (buttons s)) as [|msg rest] eqn:Eq.
    + rewrite IH, Eq by (rewrite ?Eq; cbn; auto with arith).
      reflexivity.
    + cbn [deliver]. unfold bind.
      destruct (controller_button_callback (event msg) (button_id msg) s)
        as [[[] s1]|] eqn:R; [|reflexivity].
      pose proof (ignores_buttons_keeps _ _ _ _
                    (controller_button_callback_ignores_buttons _ _) R)
        as Hb.
      rewrite IH.
      * cbn [buttons set_buttons with_queue g_button_event_queue].
        rewrite deliver_ignores_buttons.
        destruct (deliver rest s1) as [[[] s2]|]; reflexivity.
      * cbn [buttons set_buttons with_queue g_user_callback].
        rewrite Hb. exact Hcb.
      * cbn [buttons set_buttons with_queue g_button_event_queue].
        cbn in Hlen. lia.
Qed.

Lemma send_all_run (msgs : list button_event_msg_t) :
  forall s : system,
    (List.length (g_button_event_queue (buttons s)) <= QUEUE_LENGTH)%nat ->
    exists s',
      send_all msgs s = Some (tt, s')
      /\ s' = set_buttons
                (with_queue
                   (firstn QUEUE_LENGTH
                      (g_button_event_queue (buttons s) ++ msgs)))
                s.
Proof.
  induction msgs as [|msg msgs IH]; intros s Hlen.
  - exists s. split; [reflexivity|]. rewrite app_nil_r.
    rewrite firstn_all2 by exact Hlen. symmetry. apply set_queue_same.
    reflexivity.
  - cbn [send_all]. unfold bind, xQueueSendFromISR, xQueueSend; mred.
    pose proof (firstn_enqueue (g_button_event_queue (buttons s)) msgs msg
                  Hlen) as Hf.
    pose proof (enqueue_length (g_button_event_queue (buttons s)) msg Hlen)
      as Hl.
    unfold enqueue in Hf, Hl.
    destruct (List.length (g_button_event_queue (buttons s))
              <? QUEUE_LENGTH)%nat.
    + destruct (IH (set_buttons
                      (with_queue (g_button_event_queue (buttons s) ++ [msg]))
                      s) Hl) as (s' & R & Hs').
      exists s'. split; [exact R|]. rewrite Hs'.
      cbn [buttons set_buttons with_queue g_button_event_queue].
      rewrite Hf. reflexivity.
    + destruct (IH s Hl) as (s' & R & Hs').
      exists s'. split; [exact R|]. rewrite Hs', Hf. reflexivity.
Qed.

(** Events raised while the consumer task is not running, then the task
    given at least ten turns, from an empty queue with the controller's
    callback registered: the controller is handed the first ten events in
    the order they were raised, the events after the tenth are lost, and
    the queue is empty again. *)
Theorem raised_events_reach_controller_in_order
  (msgs : list button_event_msg_t) (n : nat) (s : system) :
  g_button_event_queue (buttons s) = [] ->
  g_user_callback (buttons s) = true ->
  (QUEUE_LENGTH <= n)%nat ->
  (send_all msgs ;; button_handler_task n) s
  = deliver (firstn QUEUE_LENGTH msgs) s.
Proof.
  intros Hq Hcb Hn.
  destruct (send_all_run msgs s) as (s1 & R & Hs1);
    [rewrite Hq; cbn; lia|].
  rewrite Hq in Hs1. cbn [app] in Hs1.
  mstep R. rewrite button_handler_task_run.
  - rewrite Hs1.
    cbn [buttons set_buttons with_queue g_button_event_queue].
    rewrite deliver_ignores_buttons.
    destruct (deliver (firstn QUEUE_LENGTH msgs) s) as [[[] s2]|] eqn:D;
      [|reflexivity].
    pose proof (ignores_buttons_keeps _ _ _ _
                  (deliver_ignores_buttons _) D) as Hb.
    f_equal. f_equal. change (set_buttons (with_queue []) s2 = s2).
    apply set_queue_same. rewrite Hb. exact Hq.
  - rewrite Hs1. cbn [buttons set_buttons with_queue g_user_callback].
    exact Hcb.
  - rewrite Hs1. cbn [buttons set_buttons with_queue g_button_event_queue].
    rewrite length_firstn. lia.
Qed.

Lemma raised_events_reach_controller_in_order_witness :
  (send_all (repeat (single_click BUTTON_ID_UP) 12) ;;
   button_handler_task 10)
    (boot cfg_plain (env_of (fun _ => 2000) no_press))
  = deliver (repeat (single_click BUTTON_ID_UP) 10)
      (boot cfg_plain (env_of (fun _ => 2000) no_press)).
Proof.
  apply (raised_events_reach_controller_in_order
           (repeat (single_click BUTTON_ID_UP) 12) 10
           (boot cfg_plain (env_of (fun _ => 2000) no_press))).
  - reflexivity.
  - reflexivity.
  - unfold QUEUE_LENGTH. lia.
Defined.

Lemma run_activities_ignores_buttons (acts : list activity) :
  ignores_buttons (run_activities acts).
Proof.
  induction acts as [|a rest IH]; cbn [run_activities].
  - apply ignores_ret.
  - apply ignores_bind; [|intros _; exact IH].
    destruct a; cbn [run_activity].
    + apply controller_button_callback_ignores_buttons.
    + apply ignores_bind; [|intros _; apply ignores_ret].
      apply boundary_check_iteration_ignores_buttons.
Qed.

(** The controller never touches the button handler: whatever events it is
    handed and however often the boundary task turns, the event queue, the
    registered callback and the state of the polling task are as before, so
    no queued event is lost or added by the controller. *)
Theorem controller_never_touches_button_handler (acts : list activity)
  (s s' : system) :
  run_activities acts s = Some (tt, s') ->
  buttons s' = buttons s.
Proof.
  intros R.
  exact (ignores_buttons_keeps _ _ _ _
           (run_activities_ignores_buttons acts) R).
Qed.

Lemma controller_never_touches_button_handler_witness :
  g_button_event_queue
    (buttons
       (exec (run_activities
                [Deliver BUTTON_LONG_PRESS_START BUTTON_ID_UP; BoundaryTurn;
                 Deliver BUTTON_PRESS_UP BUTTON_ID_UP])
          short_hold_queue_full))
  = g_button_event_queue (buttons short_hold_queue_full).
Proof.
  rewrite (controller_never_touches_button_handler
             [Deliver BUTTON_LONG_PRESS_START BUTTON_ID_UP; BoundaryTurn;
              Deliver BUTTON_PRESS_UP BUTTON_ID_UP]
             short_hold_queue_full
             (exec (run_activities
                      [Deliver BUTTON_LONG_PRESS_START BUTTON_ID_UP;
                       BoundaryTurn;
                       Deliver BUTTON_PRESS_UP BUTTON_ID_UP])
                short_hold_queue_full)).
  - reflexivity.
  - vm_compute. reflexivity.
Defined.
